(** * Rook operator: OSD pod specs and the NFS-Ganesha controller

    A shallow embedding of [pkg/operator/ceph/cluster/osd/spec.go] and of the
    NFS-Ganesha controller ([createGanesha], [deleteGanesha],
    [generateConfig], [validateGanesha]), with the properties the
    specification states about them.

    Go values are modelled as follows: [string] as [string], [int] as [Z],
    slices as [list], [map[string]string] as [gmap string string], structs as
    records, [error] as [option GoError] ([None] is [nil]).  Calls that leave
    the process (the Kubernetes client set, the [ganesha-rados-grace]
    subprocess, the logger) are threaded through an explicit state. *)

From Stdlib Require Import ZArith Ascii String List Lia DecimalString.
From stdpp Require Import base gmap strings list.

Local Open Scope string_scope.
Local Open Scope list_scope.
Local Open Scope Z_scope.

(** ** Instance names ([k8sutil.IndexToName]) *)

Module K8sutil.

(** The letter of a base-26 digit: 0 is 'a', 25 is 'z'. *)
Definition letter (d : Z) : ascii := ascii_of_nat (97 + Z.to_nat d).

(** Modelled from the spec: [k8sutil.IndexToName] is called by the controller
    but its body is not among the sources.  The specification (4.1) describes
    it as bijective base-26 over lowercase letters with no leading-zero digit,
    as in spreadsheet column naming: the last letter is the ordinal modulo 26,
    and the letters before it name [ordinal / 26 - 1] when the ordinal is 26
    or more.  [fuel] bounds the number of letters. *)
Fixpoint IndexToName_loop (fuel : nat) (index : Z) : string :=
  match fuel with
  | O => ""
  | S fuel' =>
      let c := letter (index mod 26) in
      if index <? 26 then String c ""
      else IndexToName_loop fuel' (index / 26 - 1) +:+ String c ""
  end.

Definition IndexToName (index : Z) : string :=
  IndexToName_loop (S (Z.to_nat index)) index.

(** The name the specification uses for the same function. *)
Definition identityOf (ordinal : Z) : string := IndexToName ordinal.

(** Reading a name back as a bijective base-26 numeral, most significant
    letter first, with digits 'a' = 1, ..., 'z' = 26 and no digit zero (the
    value of a spreadsheet column name). *)
Definition digitOf (ch : ascii) : Z := Z.of_nat (nat_of_ascii ch) - 96.

Fixpoint bijectiveValue (acc : Z) (name : string) : Z :=
  match name with
  | EmptyString => acc
  | String ch rest => bijectiveValue (acc * 26 + digitOf ch) rest
  end.

Definition lowercase (ch : ascii) : Prop :=
  (97 <= nat_of_ascii ch <= 122)%nat.

Fixpoint allLowercase (name : string) : Prop :=
  match name with
  | EmptyString => True
  | String ch rest => lowercase ch /\ allLowercase rest
  end.

End K8sutil.

(** ** Go values shared by both packages *)

Module Go.

(** What [errors.IsAlreadyExists] and [errors.IsNotFound] look at. *)
Inductive StatusReason := AlreadyExists | NotFound | Unknown.

(** A Go [error] value: its message and, for an API status error, its
    reason.  [nil] is [None] of [option GoError]. *)
Record GoError := { Error : string; Reason : StatusReason }.

Inductive result (A : Type) :=
| Ok (a : A)
| Err (e : GoError).
Arguments Ok {A} a.
Arguments Err {A} e.

(** [fmt.Errorf(msg)] without verbs. *)
Definition Errorf (msg : string) : GoError :=
  {| Error := msg; Reason := Unknown |}.

(** [fmt.Errorf(prefix + "%+v", err)]: a fresh plain error whose message
    embeds the cause; it is no longer an API status error. *)
Definition Errorf_v (prefix : string) (err : GoError) : GoError :=
  {| Error := prefix +:+ Error err; Reason := Unknown |}.

Definition IsAlreadyExists (err : GoError) : bool :=
  match Reason err with AlreadyExists => true | _ => false end.

Definition IsNotFound (err : GoError) : bool :=
  match Reason err with NotFound => true | _ => false end.

(** [strconv.Itoa]. *)
Definition Itoa (i : Z) : string := NilZero.string_of_int (Z.to_int i).

(** [strings.Join]. *)
Definition Join (elems : list string) (sep : string) : string :=
  String.concat sep elems.

(** [strings.Split] for a one-byte separator, as [spec.go] calls it: the
    fields between the separators, one more than there are separators, so
    that the empty string gives one empty field. *)
Fixpoint Split (s : string) (sep : ascii) : list string :=
  match s with
  | EmptyString => [EmptyString]
  | String ch rest =>
      if decide (ch = sep) then EmptyString :: Split rest sep
      else
        match Split rest sep with
        | field :: fields => String ch field :: fields
        | [] => [String ch EmptyString]
        end
  end.

End Go.

(** ** The Kubernetes API objects the operator fills in *)

Module V1.

Inductive VolumeSource :=
| HostPath (path : string)
| EmptyDir
| ConfigMapVolume (name : string) (items : list (string * string)).

Record Volume := { vol_Name : string; vol_Source : VolumeSource }.

Record VolumeMount := { mnt_Name : string; mnt_MountPath : string }.

(** [env_ValueFrom] describes a field or secret reference when the variable
    has no literal value. *)
Record EnvVar :=
  { env_Name : string; env_Value : string; env_ValueFrom : option string }.

Definition envLit (name value : string) : EnvVar :=
  {| env_Name := name; env_Value := value; env_ValueFrom := None |}.

Record SecurityContext :=
  { Privileged : option bool;
    RunAsUser : option Z;
    RunAsNonRoot : option bool;
    ReadOnlyRootFilesystem : option bool }.

Record ResourceRequirements :=
  { Limits : gmap string string; Requests : gmap string string }.

Record Container :=
  { Command : list string;
    Args : list string;
    ctr_Name : string;
    Image : string;
    VolumeMounts : list VolumeMount;
    Env : list EnvVar;
    Resources : ResourceRequirements;
    ctr_SecurityContext : option SecurityContext }.

Record OwnerReference :=
  { ref_Kind : string; ref_Name : string; ref_UID : string }.

Record ObjectMeta :=
  { meta_Name : string;
    meta_Namespace : string;
    Labels : gmap string string;
    Annotations : gmap string string;
    OwnerReferences : list OwnerReference }.

Record PodSpec :=
  { NodeSelector : gmap string string;
    RestartPolicy : string;
    ServiceAccountName : string;
    HostNetwork : bool;
    HostPID : bool;
    DNSPolicy : string;
    InitContainers : list Container;
    Containers : list Container;
    Volumes : list Volume;
    Affinity : option string;
    Tolerations : list string }.

Record PodTemplateSpec := { tpl_Meta : ObjectMeta; tpl_Spec : PodSpec }.

(** [extensions/v1beta1.Deployment]. *)
Record Deployment :=
  { dep_Meta : ObjectMeta;
    Strategy : string;
    Template : PodTemplateSpec;
    Replicas : option Z }.


Record ServicePort :=
  { port_Name : string; Port : Z; TargetPort : Z; Protocol : string }.

Record Service :=
  { svc_Meta : ObjectMeta;
    Selector : gmap string string;
    Ports : list ServicePort;
    ClusterIP : string }.

Record ConfigMap := { cm_Meta : ObjectMeta; Data : gmap string string }.

(** [ctr.VolumeMounts[0]] and [ctr.Env[0]].  Indexing an empty slice panics
    in Go; the operator only reads them from the copy-binaries container,
    which is built with one mount and one variable. *)
Definition VolumeMounts0 (ctr : Container) : VolumeMount :=
  hd {| mnt_Name := ""; mnt_MountPath := "" |} (VolumeMounts ctr).
Definition Env0 (ctr : Container) : EnvVar := hd (envLit "" "") (Env ctr).

Definition RestartPolicyAlways := "Always".
Definition DNSClusterFirst := "ClusterFirst".
Definition DNSClusterFirstWithHostNet := "ClusterFirstWithHostNet".
Definition RecreateDeploymentStrategyType := "Recreate".
Definition ClusterIPNone := "None".
Definition ProtocolTCP := "TCP".

End V1.

(** ** Package [rookalpha]: the storage selection of a node *)

Module Rookalpha.

(** [rookalpha.Placement]: scheduling constraints, opaque here. *)
Record Placement := { NodeAffinity : option string; plc_Tolerations : list string }.

Record Device := { dev_Name : string }.
Record Directory := { dir_Path : string }.

(** [rookalpha.Selection]; [GetUseAllDevices] is the value of the accessor
    of that name (the flag, false when unset). *)
Record Selection :=
  { GetUseAllDevices : bool;
    DeviceFilter : string;
    Directories : list Directory }.

End Rookalpha.

(** ** Package [osd]: pod specs of the OSD provision job and daemon *)

Module OSD.
Import Go V1 Rookalpha.

Record StoreConfig :=
  { StoreType : string;
    WalSizeMB : Z;
    DatabaseSizeMB : Z;
    JournalSizeMB : Z }.

Record OSDInfo :=
  { ID : Z;
    DataPath : string;
    Config : string;
    osd_Cluster : string;
    KeyringPath : string;
    UUID : string;
    Journal : string;
    IsFileStore : bool;
    IsDirectory : bool;
    DevicePartUUID : string }.

Record Cluster :=
  { Namespace : string;
    dataDirHostPath : string;
    cl_HostNetwork : bool;
    serviceAccount : string;
    rookVersion : string;
    cephVersionImage : string;
    ownerRef : OwnerReference;
    placement : Placement }.

(** Everything [spec.go] imports from other packages of the operator, from
    the Kubernetes API and from the Go standard library: constants, helper
    functions and the process environment.  The functions of [spec.go] are
    defined over an arbitrary value of this record. *)
Record Externals :=
  { (* k8sutil *)
    DataDir : string;
    BinariesMountPath : string;
    AppAttr : string;
    ClusterAttr : string;
    PrivateIPEnvVar : string;
    PublicIPEnvVar : string;
    PathToVolumeName : string -> string;
    MakeRookImage : string -> string;
    PodIPEnvVar : string -> EnvVar;
    ClusterDaemonEnvVars : list EnvVar;
    ConfigDirEnvVar : string -> EnvVar;
    ConfigOverrideEnvVar : EnvVar;
    SetOwnerRef : string -> OwnerReference -> ObjectMeta -> ObjectMeta;
    (* opspec *)
    CephVolumeMounts : list VolumeMount;
    RookVolumeMounts : list VolumeMount;
    PodVolumes : string -> list Volume;
    ConfigInitContainerName : string;
    (* opmon *)
    ClusterNameEnvVar : string -> EnvVar;
    EndpointEnvVar : EnvVar;
    SecretEnvVar : EnvVar;
    AdminSecretEnvVar : EnvVar;
    (* rookalpha *)
    LocationEnvVar : string -> EnvVar;
    ApplyToPodSpec : Placement -> PodSpec -> PodSpec;
    (* config *)
    StoreTypeKey : string;
    WalSizeMBKey : string;
    DatabaseSizeMBKey : string;
    JournalSizeMBKey : string;
    MetadataDeviceKey : string;
    (* other files of package osd *)
    appName : string;
    prepareAppName : string;
    osdLabelKey : string;
    osdAppName : Z -> string;  (* fmt.Sprintf(osdAppNameFmt, id) *)
    IsRemovingNode : string -> bool;
    (* kubelet apis *)
    LabelHostname : string;
    (* Go standard library and process environment *)
    path_Join : string -> string -> string;
    filepath_Dir : string -> string;
    os_Getenv : string -> string }.

Definition dataDirsEnvVarName := "ROOK_DATA_DIRECTORIES".
Definition osdStoreEnvVarName := "ROOK_OSD_STORE".
Definition osdDatabaseSizeEnvVarName := "ROOK_OSD_DATABASE_SIZE".
Definition osdWalSizeEnvVarName := "ROOK_OSD_WAL_SIZE".
Definition osdJournalSizeEnvVarName := "ROOK_OSD_JOURNAL_SIZE".
Definition osdMetadataDeviceEnvVarName := "ROOK_METADATA_DEVICE".
Definition rookBinariesMountPath := "/rook".
Definition rookBinariesVolumeName := "rook-binaries".

Definition nodeNameEnvVar (name : string) : EnvVar := envLit "ROOK_NODE_NAME" name.
Definition dataDevicesEnvVar (dataDevices : string) : EnvVar :=
  envLit "ROOK_DATA_DEVICES" dataDevices.
Definition deviceFilterEnvVar (filter : string) : EnvVar :=
  envLit "ROOK_DATA_DEVICE_FILTER" filter.
Definition metadataDeviceEnvVar (metadataDevice : string) : EnvVar :=
  envLit osdMetadataDeviceEnvVarName metadataDevice.
Definition dataDirectoriesEnvVar (dataDirectories : string) : EnvVar :=
  envLit dataDirsEnvVarName dataDirectories.
Definition osdStoreEnvVar (osdStore : string) : EnvVar :=
  envLit osdStoreEnvVarName osdStore.
Definition osdDatabaseSizeEnvVar (databaseSize : Z) : EnvVar :=
  envLit osdDatabaseSizeEnvVarName (Itoa databaseSize).
Definition osdWalSizeEnvVar (walSize : Z) : EnvVar :=
  envLit osdWalSizeEnvVarName (Itoa walSize).
Definition osdJournalSizeEnvVar (journalSize : Z) : EnvVar :=
  envLit osdJournalSizeEnvVarName (Itoa journalSize).

Section WithExternals.
Variable X : Externals.

(** The volume and the container that stage the [tini] and [rook] binaries;
    the volume is shared with the daemon container through one mount. *)
Definition getCopyBinariesContainer (c : Cluster) : Volume * Container :=
  let volume := {| vol_Name := rookBinariesVolumeName; vol_Source := EmptyDir |} in
  let mount := {| mnt_Name := rookBinariesVolumeName;
                  mnt_MountPath := rookBinariesMountPath |} in
  (volume,
   {| Command := [];
      Args := ["ceph"; "osd"; "copybins"];
      ctr_Name := "copy-bins";
      Image := MakeRookImage X (rookVersion c);
      VolumeMounts := [mount];
      Env := [envLit "ROOK_PATH" rookBinariesMountPath];
      Resources := {| Limits := ∅; Requests := ∅ |};
      ctr_SecurityContext := None |}).

Definition getConfigEnvVars (c : Cluster) (storeConfig : StoreConfig)
    (dataDir nodeName location : string) : list EnvVar :=
  let envVars :=
    [ nodeNameEnvVar nodeName;
      envLit "ROOK_CLUSTER_ID" (ref_UID (ownerRef c));
      PodIPEnvVar X (PrivateIPEnvVar X);
      PodIPEnvVar X (PublicIPEnvVar X);
      ClusterNameEnvVar X (Namespace c);
      EndpointEnvVar X;
      SecretEnvVar X;
      AdminSecretEnvVar X;
      ConfigDirEnvVar X dataDir;
      ConfigOverrideEnvVar X ] in
  let envVars :=
    if decide (StoreType storeConfig <> "")
    then envVars ++ [osdStoreEnvVar (StoreType storeConfig)] else envVars in
  let envVars :=
    if decide (DatabaseSizeMB storeConfig <> 0)
    then envVars ++ [osdDatabaseSizeEnvVar (DatabaseSizeMB storeConfig)]
    else envVars in
  let envVars :=
    if decide (WalSizeMB storeConfig <> 0)
    then envVars ++ [osdWalSizeEnvVar (WalSizeMB storeConfig)] else envVars in
  let envVars :=
    if decide (JournalSizeMB storeConfig <> 0)
    then envVars ++ [osdJournalSizeEnvVar (JournalSizeMB storeConfig)]
    else envVars in
  let envVars :=
    if decide (location <> "")
    then envVars ++ [LocationEnvVar X location] else envVars in
  envVars.

Definition provisionOSDContainer (c : Cluster) (devices : list Device)
    (selection : Selection) (resources : ResourceRequirements)
    (storeConfig : StoreConfig) (metadataDevice nodeName location : string)
    (copyBinariesMount : VolumeMount) : Container :=
  let envVars := getConfigEnvVars c storeConfig (DataDir X) nodeName location in
  let devMountNeeded := false in
  (* only 1 of device list, device filter and use all devices can be
     specified; they are prioritised in that order *)
  let '(envVars, devMountNeeded) :=
    if decide (0 < length devices)%nat then
      let deviceNames := map dev_Name devices in
      (envVars ++ [dataDevicesEnvVar (Join deviceNames ",")], true)
    else if decide (DeviceFilter selection <> "") then
      (envVars ++ [deviceFilterEnvVar (DeviceFilter selection)], true)
    else if GetUseAllDevices selection then
      (envVars ++ [deviceFilterEnvVar "all"], true)
    else (envVars, devMountNeeded) in
  let '(envVars, devMountNeeded) :=
    if decide (metadataDevice <> "") then
      (envVars ++ [metadataDeviceEnvVar metadataDevice], true)
    else (envVars, devMountNeeded) in
  let volumeMounts := CephVolumeMounts X ++ [copyBinariesMount] in
  let volumeMounts :=
    if devMountNeeded then
      volumeMounts ++ [ {| mnt_Name := "devices"; mnt_MountPath := "/dev" |};
                        {| mnt_Name := "udev"; mnt_MountPath := "/run/udev" |} ]
    else volumeMounts in
  let '(envVars, volumeMounts) :=
    if decide (0 < length (Directories selection))%nat then
      (* one mount per directory, and the list of paths in the environment *)
      let dirPaths := map dir_Path (Directories selection) in
      let volumeMounts :=
        volumeMounts ++
        map (fun dpath => {| mnt_Name := PathToVolumeName X dpath;
                             mnt_MountPath := dpath |}) dirPaths in
      if negb (IsRemovingNode X (DeviceFilter selection)) then
        (envVars ++ [dataDirectoriesEnvVar (Join dirPaths ",")], volumeMounts)
      else (envVars, volumeMounts)
    else (envVars, volumeMounts) in
  (* privileged when devices are mounted or the environment asks for it *)
  let privileged :=
    if devMountNeeded
       || bool_decide (os_Getenv X "ROOK_HOSTPATH_REQUIRES_PRIVILEGED" = "true")
    then true else false in
  {| Command := [path_Join X rookBinariesMountPath "tini"];
     Args := ["--"; path_Join X rookBinariesMountPath "rook";
              "ceph"; "osd"; "provision"];
     ctr_Name := "provision";
     Image := cephVersionImage c;
     VolumeMounts := volumeMounts;
     Env := envVars;
     Resources := resources;
     ctr_SecurityContext :=
       Some {| Privileged := Some privileged;
               RunAsUser := Some 0;
               RunAsNonRoot := Some false;
               ReadOnlyRootFilesystem := Some false |} |}.

Definition provisionPodTemplateSpec (c : Cluster) (devices : list Device)
    (selection : Selection) (resources : ResourceRequirements)
    (storeConfig : StoreConfig) (metadataDevice nodeName location : string)
    (restart : string) : result PodTemplateSpec :=
  let '(copyBinariesVolume, copyBinariesContainer) := getCopyBinariesContainer c in
  let volumes := PodVolumes X (dataDirHostPath c) ++ [copyBinariesVolume] in
  (* no device volume unless one is required *)
  let volumes :=
    if decide ((0 < length devices)%nat \/ DeviceFilter selection <> "" \/
               GetUseAllDevices selection = true \/ metadataDevice <> "")
    then volumes ++ [ {| vol_Name := "devices"; vol_Source := HostPath "/dev" |};
                      {| vol_Name := "udev"; vol_Source := HostPath "/run/udev" |} ]
    else volumes in
  (* each OSD directory is another host path volume *)
  let volumes :=
    volumes ++
    map (fun d => {| vol_Name := PathToVolumeName X (dir_Path d);
                     vol_Source := HostPath (dir_Path d) |})
        (Directories selection) in
  if decide (length volumes = 0%nat) then Err (Errorf "empty volumes")
  else
    let podSpec :=
      {| NodeSelector := ∅;
         RestartPolicy := restart;
         ServiceAccountName := serviceAccount c;
         HostNetwork := cl_HostNetwork c;
         HostPID := false;
         DNSPolicy := if cl_HostNetwork c then DNSClusterFirstWithHostNet else "";
         InitContainers := [];
         Containers :=
           [ copyBinariesContainer;
             provisionOSDContainer c devices selection resources storeConfig
               metadataDevice nodeName location
               (VolumeMounts0 copyBinariesContainer) ];
         Volumes := volumes;
         Affinity := None;
         Tolerations := [] |} in
    let podSpec := ApplyToPodSpec X (placement c) podSpec in
    Ok {| tpl_Meta :=
            {| meta_Name := appName X;
               meta_Namespace := "";
               Labels := <[ClusterAttr X := Namespace c]>
                           (<[AppAttr X := prepareAppName X]> ∅);
               Annotations := ∅;
               OwnerReferences := [] |};
          tpl_Spec := podSpec |}.

Definition makeDeployment (c : Cluster) (nodeName : string)
    (devices : list Device) (selection : Selection)
    (resources : ResourceRequirements) (storeConfig : StoreConfig)
    (metadataDevice location : string) (osd : OSDInfo) : result Deployment :=
  let replicaCount := 1 in
  let volumeMounts := CephVolumeMounts X in
  let configVolumeMounts := RookVolumeMounts X in
  let volumes := PodVolumes X (dataDirHostPath c) in
  let '(dataDir, volumes, configVolumeMounts, volumeMounts) :=
    if IsDirectory osd then
      (* DataPath includes the osd subdirectory: mount its parent, unless it
         is the default directory, which is mounted already *)
      let parentDir := filepath_Dir X (DataPath osd) in
      if decide (parentDir <> DataDir X) then
        let volumeName := PathToVolumeName X parentDir in
        (parentDir,
         volumes ++ [ {| vol_Name := volumeName; vol_Source := HostPath parentDir |} ],
         configVolumeMounts ++ [ {| mnt_Name := volumeName; mnt_MountPath := parentDir |} ],
         volumeMounts ++ [ {| mnt_Name := volumeName; mnt_MountPath := parentDir |} ])
      else (parentDir, volumes, configVolumeMounts, volumeMounts)
    else
      (* /dev, so the pod can access devices on the host *)
      (DataDir X,
       volumes ++ [ {| vol_Name := "devices"; vol_Source := HostPath "/dev" |} ],
       configVolumeMounts,
       volumeMounts ++ [ {| mnt_Name := "devices"; mnt_MountPath := "/dev" |} ]) in
  if decide (length volumes = 0%nat) then Err (Errorf "empty volumes")
  else
    let osdID := Itoa (ID osd) in
    let tiniEnvVar := envLit "TINI_SUBREAPER" "" in
    let envVars :=
      [ nodeNameEnvVar nodeName;
        PodIPEnvVar X (PrivateIPEnvVar X);
        PodIPEnvVar X (PublicIPEnvVar X);
        tiniEnvVar ] ++ ClusterDaemonEnvVars X in
    let configEnvVars :=
      getConfigEnvVars c storeConfig dataDir nodeName location ++
      [ tiniEnvVar; envLit "ROOK_OSD_ID" osdID ] in
    let commonArgs :=
      [ "--foreground";
        "--id"; osdID;
        "--conf"; Config osd;
        "--osd-data"; DataPath osd;
        "--keyring"; KeyringPath osd;
        "--cluster"; osd_Cluster osd;
        "--osd-uuid"; UUID osd ] in
    let commonArgs :=
      if IsFileStore osd
      then commonArgs ++ ["--osd-journal=" +:+ Journal osd] else commonArgs in
    let '(command, args, copyBinariesContainer,
          volumes, volumeMounts, configEnvVars, configVolumeMounts) :=
      if negb (IsDirectory osd) && IsFileStore osd then
        (* filestore on a device: rook mounts the device, runs the daemon and
           unmounts when it exits, so its binaries are staged on a mount *)
        let sourcePath := path_Join X "/dev/disk/by-partuuid" (DevicePartUUID osd) in
        let command := [path_Join X (BinariesMountPath X) "tini"] in
        let args :=
          [ "--"; path_Join X (BinariesMountPath X) "rook";
            "ceph"; "osd"; "filestore-device";
            "--source-path"; sourcePath;
            "--mount-path"; DataPath osd;
            "--" ] ++ commonArgs in
        let '(copyBinariesVolume, copyBinariesContainer) :=
          getCopyBinariesContainer c in
        (command, args, Some copyBinariesContainer,
         volumes ++ [copyBinariesVolume],
         volumeMounts ++ [VolumeMounts0 copyBinariesContainer],
         configEnvVars ++ [Env0 copyBinariesContainer],
         configVolumeMounts ++ [VolumeMounts0 copyBinariesContainer])
      else
        (* other osds launch the daemon directly *)
        (["ceph-osd"], commonArgs, None,
         volumes, volumeMounts, configEnvVars, configVolumeMounts) in
    let securityContext :=
      Some {| Privileged := Some true;
              RunAsUser := Some 0;
              RunAsNonRoot := None;
              ReadOnlyRootFilesystem := Some false |} in
    let DNSPolicy' :=
      if cl_HostNetwork c then DNSClusterFirstWithHostNet else DNSClusterFirst in
    let labels :=
      <[osdLabelKey X := Itoa (ID osd)]>
        (<[ClusterAttr X := Namespace c]> (<[AppAttr X := appName X]> ∅)) in
    let podSpec :=
      {| NodeSelector := <[LabelHostname X := nodeName]> ∅;
         RestartPolicy := RestartPolicyAlways;
         ServiceAccountName := serviceAccount c;
         HostNetwork := cl_HostNetwork c;
         HostPID := true;
         DNSPolicy := DNSPolicy';
         InitContainers :=
           [ {| Command := [];
                Args := ["ceph"; "osd"; "init"];
                ctr_Name := ConfigInitContainerName X;
                Image := MakeRookImage X (rookVersion c);
                VolumeMounts := configVolumeMounts;
                Env := configEnvVars;
                Resources := {| Limits := ∅; Requests := ∅ |};
                ctr_SecurityContext := securityContext |} ];
         Containers :=
           [ {| Command := command;
                Args := args;
                ctr_Name := "osd";
                Image := cephVersionImage c;
                VolumeMounts := volumeMounts;
                Env := envVars;
                Resources := resources;
                ctr_SecurityContext := securityContext |} ];
         Volumes := volumes;
         Affinity := None;
         Tolerations := [] |} in
    let podSpec :=
      match copyBinariesContainer with
      | Some ctr =>
          {| NodeSelector := NodeSelector podSpec;
             RestartPolicy := RestartPolicy podSpec;
             ServiceAccountName := ServiceAccountName podSpec;
             HostNetwork := HostNetwork podSpec;
             HostPID := HostPID podSpec;
             DNSPolicy := DNSPolicy podSpec;
             InitContainers := InitContainers podSpec ++ [ctr];
             Containers := Containers podSpec;
             Volumes := Volumes podSpec;
             Affinity := Affinity podSpec;
             Tolerations := Tolerations podSpec |}
      | None => podSpec
      end in
    let meta :=
      SetOwnerRef X (Namespace c) (ownerRef c)
        {| meta_Name := osdAppName X (ID osd);
           meta_Namespace := Namespace c;
           Labels := labels;
           Annotations := ∅;
           OwnerReferences := [] |} in
    Ok {| dep_Meta := meta;
          Strategy := RecreateDeploymentStrategyType;
          Template :=
            {| tpl_Meta :=
                 {| meta_Name := appName X;
                    meta_Namespace := "";
                    Labels := labels;
                    Annotations := ∅;
                    OwnerReferences := [] |};
               tpl_Spec := ApplyToPodSpec X (placement c) podSpec |};
          Replicas := Some replicaCount |}.

(** The store settings recorded in a container's environment. *)
Definition getConfigFromContainer (osdContainer : Container) : gmap string string :=
  foldl
    (fun (cfg : gmap string string) (envVar : EnvVar) =>
       if decide (env_Name envVar = osdStoreEnvVarName) then
         <[StoreTypeKey X := env_Value envVar]> cfg
       else if decide (env_Name envVar = osdDatabaseSizeEnvVarName) then
         <[DatabaseSizeMBKey X := env_Value envVar]> cfg
       else if decide (env_Name envVar = osdWalSizeEnvVarName) then
         <[WalSizeMBKey X := env_Value envVar]> cfg
       else if decide (env_Name envVar = osdJournalSizeEnvVarName) then
         <[JournalSizeMBKey X := env_Value envVar]> cfg
       else if decide (env_Name envVar = osdMetadataDeviceEnvVarName) then
         <[MetadataDeviceKey X := env_Value envVar]> cfg
       else cfg)
    ∅ (Env osdContainer).

End WithExternals.

(** What [makeJob] imports beyond [Externals]: the name of the job of a
    node, [k8sutil.TruncateNodeName(prepareAppNameFmt, nodeName)]. *)
Record JobExternals := { prepareJobName : string -> string }.

Section Job.
Variable X : Externals.
Variable J : JobExternals.


End Job.

(** The directories listed in a container's environment. *)
Definition getDirectoriesFromContainer (osdContainer : Container)
    : list Directory :=
  let dirsArg :=
    foldl (fun (dirsArg : string) (envVar : EnvVar) =>
             if decide (env_Name envVar = dataDirsEnvVarName)
             then env_Value envVar else dirsArg)
          "" (Env osdContainer) in
  let dirsList :=
    if decide (dirsArg <> "") then Split dirsArg ","%char else [] in
  map (fun dir => {| dir_Path := dir |}) dirsList.

End OSD.

(** ** Package [nfs]: the NFS-Ganesha controller *)

Module NFS.
Import Go V1 Rookalpha.

Record StoreSpec := { store_Name : string; store_Type : string }.
Record ClientRecoverySpec := { Pool : string; cr_Namespace : string }.
Record GaneshaExportSpec := { Path : string; PseudoPath : string }.
Record GaneshaServerSpec :=
  { Active : Z; srv_Placement : Placement; srv_Resources : ResourceRequirements }.
Record NFSGaneshaSpec :=
  { Store : StoreSpec;
    ClientRecovery : ClientRecoverySpec;
    Exports : list GaneshaExportSpec;
    Server : GaneshaServerSpec }.
Record NFSGanesha := { Name : string; Namespace : string; Spec : NFSGaneshaSpec }.

Record GaneshaController :=
  { ownerRef : OwnerReference; hostNetwork : bool; rookImage : string }.

(** What the controller imports from other packages of the operator. *)
Record Externals :=
  { getGaneshaConfig : NFSGaneshaSpec -> string -> string;
    AppAttr : string;
    ClusterAttr : string;
    DataDir : string;
    DataDirVolume : string;
    PrivateIPEnvVar : string;
    PublicIPEnvVar : string;
    PodIPEnvVar : string -> EnvVar;
    ConfigOverrideVolume : Volume;
    ConfigOverrideMount : VolumeMount;
    ConfigOverrideEnvVar : EnvVar;
    ClusterNameEnvVar : string -> EnvVar;
    EndpointEnvVar : EnvVar;
    AdminSecretEnvVar : EnvVar;
    ApplyToPodSpec : Placement -> PodSpec -> PodSpec }.

Definition appName := "rook-ceph-ganesha".
Definition ganeshaConfigVolume := "ganesha-config".
Definition ganeshaPort := 2049.

(** A request that leaves the process: a call on the Kubernetes client set,
    [k8sutil.DeleteDeployment], or a subprocess run by the executor. *)
Inductive Call :=
| CreateConfigMap (ns : string) (configMap : ConfigMap)
| UpdateConfigMap (ns : string) (configMap : ConfigMap)
| CreateDeployment (ns : string) (deployment : Deployment)
| CreateService (ns : string) (svc : Service)
| DeleteDeployment (ns name : string)
| DeleteService (ns name : string)
| ExecuteCommand (command : string) (args : list string).

(** The answer to a call: the error, and for a created service the object
    the API server stored. *)
Record Reply := { reply_err : option GoError; reply_Service : option Service }.

Inductive LogEntry :=
| Infof (message : string)
| Warningf (message : string).

Definition instanceName (n : NFSGanesha) (name : string) : string :=
  appName +:+ "-" +:+ Name n +:+ "-" +:+ name.

Definition verifyExportExists (export : GaneshaExportSpec) : option GoError :=
  None.

(** The loop over the exports in [validateGanesha]; [i] is the index of the
    first export of the list. *)
Fixpoint validateExports (i : Z) (exports : list GaneshaExportSpec)
    : option GoError :=
  match exports with
  | [] => None
  | export :: rest =>
      if decide (Path export = "") then
        Some (Errorf ("missing path for export " +:+ Itoa i))
      else if decide (PseudoPath export = "") then
        Some (Errorf ("missing pseudoPath for export " +:+ Itoa i))
      else
        match verifyExportExists export with
        | Some err => Some (Errorf_v "invalid export path. " err)
        | None => validateExports (i + 1) rest
        end
  end.

Definition validateGanesha (n : NFSGanesha) : option GoError :=
  (* core properties *)
  if decide (Name n = "") then Some (Errorf "missing name")
  else if decide (Namespace n = "") then Some (Errorf "missing namespace")
  (* store properties *)
  else if decide (store_Name (Store (Spec n)) = "") then
    Some (Errorf "missing storeName")
  else if decide (store_Type (Store (Spec n)) <> "file" /\
                  store_Type (Store (Spec n)) <> "object") then
    Some (Errorf ("unrecognized store type: " +:+ store_Type (Store (Spec n))))
  (* client recovery properties *)
  else if decide (Pool (ClientRecovery (Spec n)) = "") then
    Some (Errorf "missing clientRecovery.pool")
  else if decide (cr_Namespace (ClientRecovery (Spec n)) = "") then
    Some (Errorf "missing clientRecovery.namesapce")
  (* export properties *)
  else if decide (length (Exports (Spec n)) = 0%nat) then
    Some (Errorf "at least one export is required")
  else
    match validateExports 0 (Exports (Spec n)) with
    | Some err => Some err
    | None =>
        (* server properties *)
        if decide (Active (Server (Spec n)) = 0) then
          Some (Errorf "at least one active server required")
        else None
    end.

Section WithExternals.
Variable X : Externals.

Definition getLabels (n : NFSGanesha) (name : string) : gmap string string :=
  <["instance" := name]>
    (<["nfs_ganesha" := Name n]>
       (<[ClusterAttr X := Namespace n]> (<[AppAttr X := appName]> ∅))).

Definition ganeshaContainer (c : GaneshaController) (n : NFSGanesha)
    (name : string) : Container :=
  {| Command := [];
     Args := ["ceph"; "ganesha"];
     ctr_Name := "nfs-ganesha";
     Image := rookImage c;
     VolumeMounts :=
       [ {| mnt_Name := DataDirVolume X; mnt_MountPath := DataDir X |};
         {| mnt_Name := ganeshaConfigVolume; mnt_MountPath := "/etc/ganesha" |};
         ConfigOverrideMount X ];
     Env :=
       [ {| env_Name := "ROOK_POD_NAME"; env_Value := "";
            env_ValueFrom := Some "fieldRef:metadata.name" |};
         envLit "ROOK_GANESHA_NAME" name;
         ClusterNameEnvVar X (Namespace n);
         EndpointEnvVar X;
         AdminSecretEnvVar X;
         PodIPEnvVar X (PrivateIPEnvVar X);
         PodIPEnvVar X (PublicIPEnvVar X);
         ConfigOverrideEnvVar X ];
     Resources := srv_Resources (Server (Spec n));
     ctr_SecurityContext := None |}.

Definition makeDeployment (c : GaneshaController) (n : NFSGanesha)
    (name configName : string) : Deployment :=
  let podSpec :=
    {| NodeSelector := ∅;
       RestartPolicy := RestartPolicyAlways;
       ServiceAccountName := "";
       HostNetwork := hostNetwork c;
       HostPID := false;
       DNSPolicy := if hostNetwork c then DNSClusterFirstWithHostNet else "";
       InitContainers := [];
       Containers := [ganeshaContainer c n name];
       Volumes :=
         [ {| vol_Name := DataDirVolume X; vol_Source := EmptyDir |};
           {| vol_Name := ganeshaConfigVolume;
              vol_Source := ConfigMapVolume configName [("config", "ganesha.conf")] |};
           ConfigOverrideVolume X ];
       Affinity := None;
       Tolerations := [] |} in
  let podSpec := ApplyToPodSpec X (srv_Placement (Server (Spec n))) podSpec in
  let podTemplateSpec :=
    {| tpl_Meta :=
         {| meta_Name := instanceName n name;
            meta_Namespace := "";
            Labels := getLabels n name;
            Annotations := ∅;
            OwnerReferences := [] |};
       tpl_Spec := podSpec |} in
  (* one deployment per server, each with a single replica *)
  {| dep_Meta :=
       {| meta_Name := instanceName n name;
          meta_Namespace := Namespace n;
          Labels := ∅;
          Annotations := ∅;
          OwnerReferences := [ownerRef c] |};
     Strategy := "";
     Template := podTemplateSpec;
     Replicas := Some 1 |}.

(** *** Calls and their effects

    The cluster and the grace database are a state of an arbitrary type
    [World]; [perform] answers a call and gives the next state.  The
    controller's state adds the calls made so far, each with its answer, and
    the log. *)

Variable World : Type.
Variable perform : Call -> World -> Reply * World.

Record State :=
  { world : World; trace : list (Call * Reply); log : list LogEntry }.

Definition M (A : Type) : Type := State -> A * State.

Definition ret {A} (a : A) : M A := fun st => (a, st).

Definition bind {A B} (m : M A) (k : A -> M B) : M B :=
  fun st => let '(a, st') := m st in k a st'.

Notation "'do' x <- m ; k" := (bind m (fun x => k))
  (at level 10, x name, m at level 100, k at level 200).
Notation "m ;; k" := (bind m (fun _ => k))
  (at level 100, k at level 200, right associativity).

Definition call (request : Call) : M Reply :=
  fun st =>
    let '(reply, w) := perform request (world st) in
    (reply, {| world := w; trace := trace st ++ [(request, reply)];
               log := log st |}).

Definition logf (entry : LogEntry) : M unit :=
  fun st =>
    (tt, {| world := world st; trace := trace st; log := log st ++ [entry] |}).

(** [for i := 0; i < count; i++ { body }] where the body may return an error
    from the enclosing function; [ordinals] are the values of [i] left. *)
Fixpoint forOrdinals (ordinals : list Z) (body : Z -> M (option GoError))
    : M (option GoError) :=
  match ordinals with
  | [] => ret None
  | i :: rest =>
      do r <- body i;
      match r with
      | Some err => ret (Some err)
      | None => forOrdinals rest body
      end
  end.

(** The values [0, 1, ..., count - 1] of a Go loop counter; none when
    [count] is zero or negative. *)
Definition ordinalsBelow (count : Z) : list Z :=
  map Z.of_nat (seq 0 (Z.to_nat count)).

Definition addServerToDatabase (n : NFSGanesha) (name : string)
    : M (option GoError) :=
  logf (Infof ("Adding ganesha " +:+ name +:+ " to grace db"));;
  do r <- call (ExecuteCommand "ganesha-rados-grace"
                  [ "--pool"; Pool (ClientRecovery (Spec n));
                    "--ns"; cr_Namespace (ClientRecovery (Spec n));
                    "add"; name ]);
  ret (reply_err r).

Definition removeServerFromDatabase (n : NFSGanesha) (name : string)
    : M (option GoError) :=
  logf (Infof ("Removing ganesha " +:+ name +:+ " from grace db"));;
  do r <- call (ExecuteCommand "ganesha-rados-grace"
                  [ "--pool"; Pool (ClientRecovery (Spec n));
                    "--ns"; cr_Namespace (ClientRecovery (Spec n));
                    "remove"; name ]);
  ret (reply_err r).

(** The config map of one server, as [generateConfig] builds it. *)
Definition configMapOf (n : NFSGanesha) (name : string) : ConfigMap :=
  let data := <["config" := getGaneshaConfig X (Spec n) name]> ∅ in
  {| cm_Meta :=
       {| meta_Name := appName +:+ "-" +:+ Name n +:+ "-" +:+ name;
          meta_Namespace := Namespace n;
          Labels := getLabels n name;
          Annotations := ∅;
          OwnerReferences := [] |};
     Data := data |}.

Definition generateConfig (n : NFSGanesha) (name : string)
    : M (result string) :=
  let configMap := configMapOf n name in
  do r <- call (CreateConfigMap (Namespace n) configMap);
  match reply_err r with
  | Some err =>
      if IsAlreadyExists err then
        do r' <- call (UpdateConfigMap (Namespace n) configMap);
        match reply_err r' with
        | Some err' => ret (Err (Errorf_v "failed to update ganesha config. " err'))
        | None => ret (Ok (meta_Name (cm_Meta configMap)))
        end
      else ret (Err (Errorf_v "failed to create ganesha config. " err))
  | None => ret (Ok (meta_Name (cm_Meta configMap)))
  end.

(** The service of one server, as [createGaneshaService] builds it. *)
Definition serviceOf (c : GaneshaController) (n : NFSGanesha) (name : string)
    : Service :=
  let labels := getLabels n name in
  {| svc_Meta :=
       {| meta_Name := instanceName n name;
          meta_Namespace := Namespace n;
          Labels := labels;
          Annotations := ∅;
          OwnerReferences := [ownerRef c] |};
     Selector := labels;
     Ports := [ {| port_Name := "nfs"; Port := ganeshaPort;
                   TargetPort := ganeshaPort; Protocol := ProtocolTCP |} ];
     ClusterIP := if hostNetwork c then ClusterIPNone else "" |}.

Definition createGaneshaService (c : GaneshaController) (n : NFSGanesha)
    (name : string) : M (option GoError) :=
  let svc := serviceOf c n name in
  do r <- call (CreateService (Namespace n) svc);
  match reply_err r with
  | Some err =>
      if negb (IsAlreadyExists err) then
        ret (Some (Errorf_v "failed to create ganesha service. " err))
      else
        logf (Infof "ganesha service already created");;
        ret None
  | None =>
      logf (Infof ("ganesha service running at " +:+
                   from_option ClusterIP "" (reply_Service r) +:+ ":" +:+
                   Itoa ganeshaPort));;
      ret None
  end.

(** One turn of the loop of [createGanesha]. *)
Definition createGaneshaServer (c : GaneshaController) (n : NFSGanesha) (i : Z)
    : M (option GoError) :=
  let name := K8sutil.IndexToName i in
  do cfg <- generateConfig n name;
  match cfg with
  | Err err => ret (Some (Errorf_v "failed to create config. " err))
  | Ok configName =>
      (* start the deployment *)
      let deployment := makeDeployment c n name configName in
      do r <- call (CreateDeployment (Namespace n) deployment);
      do failed <-
        match reply_err r with
        | Some err =>
            if negb (IsAlreadyExists err) then
              ret (Some (Errorf_v "failed to create mds deployment. " err))
            else
              logf (Infof ("ganesha deployment " +:+ meta_Name (dep_Meta deployment)
                           +:+ " already exists"));;
              ret None
        | None =>
            logf (Infof ("ganesha deployment " +:+ meta_Name (dep_Meta deployment)
                         +:+ " started"));;
            ret None
        end;
      match failed with
      | Some err => ret (Some err)
      | None =>
          (* create a service *)
          do err <- createGaneshaService c n name;
          match err with
          | Some err => ret (Some (Errorf_v "failed to create ganesha service. " err))
          | None =>
              do err <- addServerToDatabase n name;
              match err with
              | Some err =>
                  logf (Warningf ("Failed to add ganesha server " +:+ name +:+
                                  " to database. It may already be added. " +:+
                                  Error err));;
                  ret None
              | None => ret None
              end
          end
      end
  end.

(** Create the ganesha servers. *)
Definition createGanesha (c : GaneshaController) (n : NFSGanesha)
    : M (option GoError) :=
  match validateGanesha n with
  | Some err => ret (Some err)
  | None =>
      logf (Infof ("start running ganesha " +:+ Name n));;
      forOrdinals (ordinalsBelow (Active (Server (Spec n))))
        (createGaneshaServer c n)
  end.

(** One turn of the loop of [deleteGanesha]. *)
Definition deleteGaneshaServer (n : NFSGanesha) (i : Z) : M (option GoError) :=
  let name := K8sutil.IndexToName i in
  (* remove from grace db *)
  do err <- removeServerFromDatabase n name;
  match err with
  | Some err =>
      logf (Warningf ("failed to remove server " +:+ name +:+
                      " from grace db. " +:+ Error err))
  | None => ret tt
  end;;
  (* delete the deployment; its result is dropped *)
  call (DeleteDeployment (Namespace n) (instanceName n name));;
  (* delete the ganesha service *)
  do r <- call (DeleteService (Namespace n) (instanceName n name));
  match reply_err r with
  | Some err =>
      if negb (IsNotFound err) then
        logf (Warningf ("failed to delete ganesha service. " +:+ Error err))
      else ret tt
  | None => ret tt
  end;;
  ret None.

(** Delete the ganesha servers. *)
Definition deleteGanesha (n : NFSGanesha) : M (option GoError) :=
  forOrdinals (ordinalsBelow (Active (Server (Spec n)))) (deleteGaneshaServer n).

End WithExternals.

Arguments world {World} s.
Arguments trace {World} s.
Arguments log {World} s.

End NFS.

(** ** Vocabulary of the properties of package [nfs] *)

Module NFSSpec.
Import Go V1 Rookalpha NFS.

(** The run of the grace tool for one server. *)
Definition graceCall (n : NFSGanesha) (verb name : string) : Call :=
  ExecuteCommand "ganesha-rados-grace"
    [ "--pool"; Pool (ClientRecovery (Spec n));
      "--ns"; cr_Namespace (ClientRecovery (Spec n));
      verb; name ].

(** The three calls that remove the server of ordinal [i], in order. *)
Definition deleteBlock (n : NFSGanesha) (i : Z) : list Call :=
  let name := K8sutil.IndexToName i in
  [ graceCall n "remove" name;
    DeleteDeployment (Namespace n) (instanceName n name);
    DeleteService (Namespace n) (instanceName n name) ].

Definition removeWarning (name : string) (err : GoError) : LogEntry :=
  Warningf ("failed to remove server " +:+ name +:+ " from grace db. " +:+
            Error err).

Definition addWarning (name : string) (err : GoError) : LogEntry :=
  Warningf ("Failed to add ganesha server " +:+ name +:+
            " to database. It may already be added. " +:+ Error err).

Definition deleteServiceWarning (err : GoError) : LogEntry :=
  Warningf ("failed to delete ganesha service. " +:+ Error err).

Section WithWorld.
Context {World : Type}.

Definition calls (st : State World) : list Call := map fst (trace st).

(** The calls made, with their answers, and the log entries written while
    going from [st] to [st']. *)
Definition newEvents (st st' : State World) : list (Call * Reply) :=
  drop (length (trace st)) (trace st').

Definition newLog (st st' : State World) : list LogEntry :=
  drop (length (log st)) (log st').

(** A cluster that answers every creation with success or "already
    exists" and every update with success; the grace tool and the deletions
    may answer anything. *)
Definition Benign (perform : Call -> World -> Reply * World) : Prop :=
  forall request w,
    match request with
    | CreateConfigMap _ _ | CreateDeployment _ _ | CreateService _ _ =>
        forall err, reply_err (perform request w).1 = Some err ->
                    IsAlreadyExists err = true
    | UpdateConfigMap _ _ => reply_err (perform request w).1 = None
    | _ => True
    end.

End WithWorld.

(** The calls every completed turn of the creation loop has made for the
    server of ordinal [i] (an update of the config map may come between the
    first two). *)
Definition createBlock (X : Externals) (c : GaneshaController) (n : NFSGanesha)
    (i : Z) : list Call :=
  let name := K8sutil.IndexToName i in
  [ CreateConfigMap (Namespace n) (configMapOf X n name);
    CreateDeployment (Namespace n) (makeDeployment X c n name (instanceName n name));
    CreateService (Namespace n) (serviceOf X c n name);
    graceCall n "add" name ].

(** The identifiers [validateGanesha] requires, and a server count other
    than zero. *)
Definition missingIdentifier (n : NFSGanesha) : Prop :=
  Active (Server (Spec n)) = 0 \/ Name n = "" \/ Namespace n = "" \/
  store_Name (Store (Spec n)) = "" \/
  Pool (ClientRecovery (Spec n)) = "" \/
  cr_Namespace (ClientRecovery (Spec n)) = "" \/
  Exports (Spec n) = [].

End NFSSpec.

(** ** Vocabulary of the properties of package [osd] *)

Module OSDSpec.
Import Go V1 Rookalpha OSD.

(** [ApplyToPodSpec] only sets scheduling constraints: it leaves the
    containers and the volumes of the pod as they are. *)
Definition PlacementKeepsPod (X : Externals) : Prop :=
  forall p s,
    InitContainers (ApplyToPodSpec X p s) = InitContainers s /\
    Containers (ApplyToPodSpec X p s) = Containers s /\
    Volumes (ApplyToPodSpec X p s) = Volumes s.

(** The arguments every OSD daemon is started with. *)
Definition commonArgs (osd : OSDInfo) : list string :=
  [ "--foreground";
    "--id"; Itoa (ID osd);
    "--conf"; Config osd;
    "--osd-data"; DataPath osd;
    "--keyring"; KeyringPath osd;
    "--cluster"; osd_Cluster osd;
    "--osd-uuid"; UUID osd ] ++
  (if IsFileStore osd then ["--osd-journal=" +:+ Journal osd] else []).

(** The volumes of an OSD pod that come from its medium: the base volumes,
    and the host directory that holds a directory OSD outside the default
    data directory, or [/dev] for a device OSD. *)
Definition mediumVolumes (X : Externals) (c : Cluster) (osd : OSDInfo) : list Volume :=
  let parentDir := filepath_Dir X (DataPath osd) in
  PodVolumes X (dataDirHostPath c) ++
  (if IsDirectory osd then
     if decide (parentDir <> DataDir X)
     then [ {| vol_Name := PathToVolumeName X parentDir; vol_Source := HostPath parentDir |} ]
     else []
   else [ {| vol_Name := "devices"; vol_Source := HostPath "/dev" |} ]).

Definition mediumMounts (X : Externals) (osd : OSDInfo) : list VolumeMount :=
  let parentDir := filepath_Dir X (DataPath osd) in
  if IsDirectory osd then
    if decide (parentDir <> DataDir X)
    then [ {| mnt_Name := PathToVolumeName X parentDir; mnt_MountPath := parentDir |} ]
    else []
  else [ {| mnt_Name := "devices"; mnt_MountPath := "/dev" |} ].

Definition stagingVolume : Volume :=
  {| vol_Name := "rook-binaries"; vol_Source := EmptyDir |}.
Definition stagingMount : VolumeMount :=
  {| mnt_Name := "rook-binaries"; mnt_MountPath := "/rook" |}.

Definition isErr {A} (r : result A) : bool :=
  match r with Err _ => true | Ok _ => false end.

(** The volumes of the pod template of the provision job; none when building
    it failed. *)
Definition podVolumesOf (r : result PodTemplateSpec) : list Volume :=
  match r with Ok t => Volumes (tpl_Spec t) | Err _ => [] end.



(** No device, no device selector, no metadata device and no directory. *)
Definition noMediumResolved (devices : list Device) (selection : Selection)
    (metadataDevice : string) : Prop :=
  devices = [] /\ DeviceFilter selection = "" /\
  GetUseAllDevices selection = false /\ metadataDevice = "" /\
  Directories selection = [].

(** The names of the variables that carry the store settings. *)
Definition configEnvNames : list string :=
  [ osdStoreEnvVarName; osdDatabaseSizeEnvVarName; osdWalSizeEnvVarName;
    osdJournalSizeEnvVarName; osdMetadataDeviceEnvVarName ].

Definition Foreign (e : EnvVar) : Prop := ~ In (env_Name e) configEnvNames.

(** The variables defined outside [spec.go] have other names than the ones
    that carry the store settings, and the five setting keys differ. *)
Definition ExternalsApart (X : Externals) : Prop :=
  Foreign (PodIPEnvVar X (PrivateIPEnvVar X)) /\
  Foreign (PodIPEnvVar X (PublicIPEnvVar X)) /\
  (forall a, Foreign (ClusterNameEnvVar X a)) /\
  Foreign (EndpointEnvVar X) /\
  Foreign (SecretEnvVar X) /\
  Foreign (AdminSecretEnvVar X) /\
  (forall a, Foreign (ConfigDirEnvVar X a)) /\
  Foreign (ConfigOverrideEnvVar X) /\
  (forall a, Foreign (LocationEnvVar X a)) /\
  NoDup [ StoreTypeKey X; DatabaseSizeMBKey X; WalSizeMBKey X;
          JournalSizeMBKey X; MetadataDeviceKey X ].

(** The variable of the device selector that wins: the device list, else
    the device filter, else the use-all-devices flag. *)
Definition deviceSelectorEnv (devices : list Device) (selection : Selection)
    : list EnvVar :=
  if decide (0 < length devices)%nat then
    [dataDevicesEnvVar (Join (map dev_Name devices) ",")]
  else if decide (DeviceFilter selection <> "") then
    [deviceFilterEnvVar (DeviceFilter selection)]
  else if GetUseAllDevices selection then [deviceFilterEnvVar "all"]
  else [].

(** Whether [/dev] and [/run/udev] are mounted. *)
Definition devMountNeeded (devices : list Device) (selection : Selection)
    (metadataDevice : string) : bool :=
  bool_decide ((0 < length devices)%nat \/ DeviceFilter selection <> "" \/
               GetUseAllDevices selection = true \/ metadataDevice <> "").

Definition deviceMounts : list VolumeMount :=
  [ {| mnt_Name := "devices"; mnt_MountPath := "/dev" |};
    {| mnt_Name := "udev"; mnt_MountPath := "/run/udev" |} ].

Definition deviceVolumes : list Volume :=
  [ {| vol_Name := "devices"; vol_Source := HostPath "/dev" |};
    {| vol_Name := "udev"; vol_Source := HostPath "/run/udev" |} ].

Definition directoryMount (X : Externals) (d : Directory) : VolumeMount :=
  {| mnt_Name := PathToVolumeName X (dir_Path d); mnt_MountPath := dir_Path d |}.

Definition directoryVolume (X : Externals) (d : Directory) : Volume :=
  {| vol_Name := PathToVolumeName X (dir_Path d);
     vol_Source := HostPath (dir_Path d) |}.

(** The variable that lists the directories: present when there is a
    directory and the device filter does not mark the node for removal. *)
Definition directoriesEnv (X : Externals) (selection : Selection) : list EnvVar :=
  if decide (0 < length (Directories selection))%nat then
    if IsRemovingNode X (DeviceFilter selection) then []
    else [dataDirectoriesEnvVar (Join (map dir_Path (Directories selection)) ",")]
  else [].

(** What [getConfigFromContainer] does with one variable. *)
Definition configStep (X : Externals) (cfg : gmap string string)
    (envVar : EnvVar)
    : gmap string string :=
  if decide (env_Name envVar = osdStoreEnvVarName) then
    <[StoreTypeKey X := env_Value envVar]> cfg
  else if decide (env_Name envVar = osdDatabaseSizeEnvVarName) then
    <[DatabaseSizeMBKey X := env_Value envVar]> cfg
  else if decide (env_Name envVar = osdWalSizeEnvVarName) then
    <[WalSizeMBKey X := env_Value envVar]> cfg
  else if decide (env_Name envVar = osdJournalSizeEnvVarName) then
    <[JournalSizeMBKey X := env_Value envVar]> cfg
  else if decide (env_Name envVar = osdMetadataDeviceEnvVarName) then
    <[MetadataDeviceKey X := env_Value envVar]> cfg
  else cfg.

(** The variables every config environment starts with. *)
Definition baseEnv (X : Externals) (c : Cluster) (dataDir nodeName : string)
    : list EnvVar :=
  [ nodeNameEnvVar nodeName;
    envLit "ROOK_CLUSTER_ID" (ref_UID (ownerRef c));
    PodIPEnvVar X (PrivateIPEnvVar X);
    PodIPEnvVar X (PublicIPEnvVar X);
    ClusterNameEnvVar X (Namespace c);
    EndpointEnvVar X;
    SecretEnvVar X;
    AdminSecretEnvVar X;
    ConfigDirEnvVar X dataDir;
    ConfigOverrideEnvVar X ].

(** A setting as the round trip reports it: absent when it was not given. *)
Definition setting {A} `{EqDecision A} (unset value : A) (render : A -> string)
    : option string :=
  if decide (value = unset) then None else Some (render value).

(** Storing a setting under its key when it was given. *)
Definition record (key : string) (value : option string)
    (cfg : gmap string string) : gmap string string :=
  match value with Some v => <[key := v]> cfg | None => cfg end.

(** Every mount names a volume of the pod. *)
Definition Backed (mounts : list VolumeMount) (volumes : list Volume) : Prop :=
  forall m, In m mounts -> exists v, In v volumes /\ vol_Name v = mnt_Name m.

(** A path without a comma. *)
Fixpoint noComma (path : string) : Prop :=
  match path with
  | EmptyString => True
  | String ch rest => ch <> ","%char /\ noComma rest
  end.

Definition NotDirs (e : EnvVar) : Prop := env_Name e <> dataDirsEnvVarName.

(** The variables defined outside [spec.go] are not named
    [ROOK_DATA_DIRECTORIES]. *)
Definition ExternalsNotDirs (X : Externals) : Prop :=
  NotDirs (PodIPEnvVar X (PrivateIPEnvVar X)) /\
  NotDirs (PodIPEnvVar X (PublicIPEnvVar X)) /\
  (forall a, NotDirs (ClusterNameEnvVar X a)) /\
  NotDirs (EndpointEnvVar X) /\
  NotDirs (SecretEnvVar X) /\
  NotDirs (AdminSecretEnvVar X) /\
  (forall a, NotDirs (ConfigDirEnvVar X a)) /\
  NotDirs (ConfigOverrideEnvVar X) /\
  (forall a, NotDirs (LocationEnvVar X a)).

(** The value of the last variable named [ROOK_DATA_DIRECTORIES], as
    [getDirectoriesFromContainer] finds it. *)
Definition dirsArgStep (dirsArg : string) (envVar : EnvVar) : string :=
  if decide (env_Name envVar = dataDirsEnvVarName)
  then env_Value envVar else dirsArg.

(** The directory in which the config init container of an OSD keeps its
    configuration. *)
Definition configDirOf (X : Externals) (osd : OSDInfo) : string :=
  if IsDirectory osd then filepath_Dir X (DataPath osd) else DataDir X.

End OSDSpec.

(** ** More vocabulary for package [nfs] *)

Module NFSMoreSpec.
Import Go V1 Rookalpha NFS NFSSpec.

(** An export with a path and a pseudo path. *)
Definition completeExport (export : GaneshaExportSpec) : Prop :=
  Path export <> "" /\ PseudoPath export <> "".

(** What [validateGanesha] asks of a specification. *)
Definition WellFormed (n : NFSGanesha) : Prop :=
  Name n <> "" /\ Namespace n <> "" /\
  store_Name (Store (Spec n)) <> "" /\
  (store_Type (Store (Spec n)) = "file" \/
   store_Type (Store (Spec n)) = "object") /\
  Pool (ClientRecovery (Spec n)) <> "" /\
  cr_Namespace (ClientRecovery (Spec n)) <> "" /\
  Exports (Spec n) <> [] /\
  Forall completeExport (Exports (Spec n)) /\
  Active (Server (Spec n)) <> 0.

(** The fields [validateGanesha] checks before the exports. *)
Definition coreFieldsGiven (n : NFSGanesha) : Prop :=
  Name n <> "" /\ Namespace n <> "" /\
  store_Name (Store (Spec n)) <> "" /\
  (store_Type (Store (Spec n)) = "file" \/
   store_Type (Store (Spec n)) = "object") /\
  Pool (ClientRecovery (Spec n)) <> "" /\
  cr_Namespace (ClientRecovery (Spec n)) <> "".

(** A name without a dash. *)
Fixpoint noDash (name : string) : Prop :=
  match name with
  | EmptyString => True
  | String ch rest => ch <> "-"%char /\ noDash rest
  end.

Definition isUpdate (request : Call) : bool :=
  match request with UpdateConfigMap _ _ => true | _ => false end.

(** The calls other than updates of a config map. *)
Definition withoutUpdates (requests : list Call) : list Call :=
  List.filter (fun request => negb (isUpdate request)) requests.

(** The message of the error [createGanesha] returns when [request] was
    answered with the error [e], if that answer stops the pass. *)
Definition fatalMessage (request : Call) (e : GoError) : option string :=
  match request with
  | CreateConfigMap _ _ =>
      if IsAlreadyExists e then None
      else Some ("failed to create config. failed to create ganesha config. "
                 +:+ Error e)
  | UpdateConfigMap _ _ =>
      Some ("failed to create config. failed to update ganesha config. "
            +:+ Error e)
  | CreateDeployment _ _ =>
      if IsAlreadyExists e then None
      else Some ("failed to create mds deployment. " +:+ Error e)
  | CreateService _ _ =>
      if IsAlreadyExists e then None
      else Some ("failed to create ganesha service. " +:+
                 "failed to create ganesha service. " +:+ Error e)
  | _ => None
  end.

(** [ApplyToPodSpec] leaves the containers and the volumes of the pod as
    they are, and the mount of the config override is the mount of its
    volume. *)
Definition PodKept (X : Externals) : Prop :=
  (forall p s,
     InitContainers (ApplyToPodSpec X p s) = InitContainers s /\
     Containers (ApplyToPodSpec X p s) = Containers s /\
     Volumes (ApplyToPodSpec X p s) = Volumes s) /\
  mnt_Name (ConfigOverrideMount X) = vol_Name (ConfigOverrideVolume X).

End NFSMoreSpec.

(** ** Sample values

    Concrete externals, a cluster and a cluster state on which the functions
    above can be run. *)

Module Sample.
Import Go V1 Rookalpha.

(** The part of a slash-separated path before its last slash. *)
Fixpoint dirOfChars (rev_path : list ascii) : list ascii :=
  match rev_path with
  | [] => []
  | ch :: rest => if decide (ch = "/"%char) then rest else dirOfChars rest
  end.

Definition dirOf (path : string) : string :=
  string_of_list_ascii (rev (dirOfChars (rev (list_ascii_of_string path)))).

Definition podIP (name : string) : EnvVar :=
  {| env_Name := name; env_Value := ""; env_ValueFrom := Some "fieldRef:status.podIP" |}.

Definition secretRef (name key : string) : EnvVar :=
  {| env_Name := name; env_Value := ""; env_ValueFrom := Some ("secretKeyRef:" +:+ key) |}.

Definition applyPlacement (p : Placement) (s : PodSpec) : PodSpec :=
  {| NodeSelector := NodeSelector s;
     RestartPolicy := RestartPolicy s;
     ServiceAccountName := ServiceAccountName s;
     HostNetwork := HostNetwork s;
     HostPID := HostPID s;
     DNSPolicy := DNSPolicy s;
     InitContainers := InitContainers s;
     Containers := Containers s;
     Volumes := Volumes s;
     Affinity := NodeAffinity p;
     Tolerations := plc_Tolerations p |}.

Definition setOwnerRef (ns : string) (ref : OwnerReference) (meta : ObjectMeta)
    : ObjectMeta :=
  {| meta_Name := meta_Name meta;
     meta_Namespace := meta_Namespace meta;
     Labels := Labels meta;
     Annotations := Annotations meta;
     OwnerReferences := [ref] |}.

Definition overrideVolume : Volume :=
  {| vol_Name := "rook-config-override";
     vol_Source := ConfigMapVolume "rook-config-override" [("config", "override.conf")] |}.

Definition osdExternals : OSD.Externals :=
  {| OSD.DataDir := "/var/lib/rook";
     OSD.BinariesMountPath := "/rook";
     OSD.AppAttr := "app";
     OSD.ClusterAttr := "rook_cluster";
     OSD.PrivateIPEnvVar := "ROOK_PRIVATE_IP";
     OSD.PublicIPEnvVar := "ROOK_PUBLIC_IP";
     OSD.PathToVolumeName := fun path => "vol" +:+ path;
     OSD.MakeRookImage := fun version => "rook/ceph:" +:+ version;
     OSD.PodIPEnvVar := podIP;
     OSD.ClusterDaemonEnvVars := [envLit "ROOK_CEPH_USERNAME" "admin"];
     OSD.ConfigDirEnvVar := envLit "ROOK_CONFIG_DIR";
     OSD.ConfigOverrideEnvVar := envLit "ROOK_CEPH_CONFIG_OVERRIDE" "/etc/rook/override.conf";
     OSD.SetOwnerRef := setOwnerRef;
     OSD.CephVolumeMounts :=
       [ {| mnt_Name := "rook-data"; mnt_MountPath := "/var/lib/rook" |};
         {| mnt_Name := "rook-config-override"; mnt_MountPath := "/etc/rook" |} ];
     OSD.RookVolumeMounts :=
       [ {| mnt_Name := "rook-data"; mnt_MountPath := "/var/lib/rook" |};
         {| mnt_Name := "rook-config-override"; mnt_MountPath := "/etc/rook" |} ];
     OSD.PodVolumes := fun hostPath =>
       [ {| vol_Name := "rook-data";
            vol_Source := if decide (hostPath <> "") then HostPath hostPath else EmptyDir |};
         overrideVolume ];
     OSD.ConfigInitContainerName := "config-init";
     OSD.ClusterNameEnvVar := envLit "ROOK_CLUSTER_NAME";
     OSD.EndpointEnvVar := secretRef "ROOK_MON_ENDPOINTS" "data";
     OSD.SecretEnvVar := secretRef "ROOK_MON_SECRET" "mon-secret";
     OSD.AdminSecretEnvVar := secretRef "ROOK_ADMIN_SECRET" "admin-secret";
     OSD.LocationEnvVar := envLit "ROOK_LOCATION";
     OSD.ApplyToPodSpec := applyPlacement;
     OSD.StoreTypeKey := "storeType";
     OSD.WalSizeMBKey := "walSizeMB";
     OSD.DatabaseSizeMBKey := "databaseSizeMB";
     OSD.JournalSizeMBKey := "journalSizeMB";
     OSD.MetadataDeviceKey := "metadataDevice";
     OSD.appName := "rook-ceph-osd";
     OSD.prepareAppName := "rook-ceph-osd-prepare";
     OSD.osdLabelKey := "ceph-osd-id";
     OSD.osdAppName := fun id => "rook-ceph-osd-" +:+ Itoa id;
     OSD.IsRemovingNode := fun filter => bool_decide (filter = "none");
     OSD.LabelHostname := "kubernetes.io/hostname";
     OSD.path_Join := fun dir file => dir +:+ "/" +:+ file;
     OSD.filepath_Dir := dirOf;
     OSD.os_Getenv := fun _ => "" |}.

(** The same externals with no base pod volumes at all. *)
Definition bareExternals : OSD.Externals :=
  {| OSD.DataDir := OSD.DataDir osdExternals;
     OSD.BinariesMountPath := OSD.BinariesMountPath osdExternals;
     OSD.AppAttr := OSD.AppAttr osdExternals;
     OSD.ClusterAttr := OSD.ClusterAttr osdExternals;
     OSD.PrivateIPEnvVar := OSD.PrivateIPEnvVar osdExternals;
     OSD.PublicIPEnvVar := OSD.PublicIPEnvVar osdExternals;
     OSD.PathToVolumeName := OSD.PathToVolumeName osdExternals;
     OSD.MakeRookImage := OSD.MakeRookImage osdExternals;
     OSD.PodIPEnvVar := OSD.PodIPEnvVar osdExternals;
     OSD.ClusterDaemonEnvVars := OSD.ClusterDaemonEnvVars osdExternals;
     OSD.ConfigDirEnvVar := OSD.ConfigDirEnvVar osdExternals;
     OSD.ConfigOverrideEnvVar := OSD.ConfigOverrideEnvVar osdExternals;
     OSD.SetOwnerRef := OSD.SetOwnerRef osdExternals;
     OSD.CephVolumeMounts := [];
     OSD.RookVolumeMounts := [];
     OSD.PodVolumes := fun _ => [];
     OSD.ConfigInitContainerName := OSD.ConfigInitContainerName osdExternals;
     OSD.ClusterNameEnvVar := OSD.ClusterNameEnvVar osdExternals;
     OSD.EndpointEnvVar := OSD.EndpointEnvVar osdExternals;
     OSD.SecretEnvVar := OSD.SecretEnvVar osdExternals;
     OSD.AdminSecretEnvVar := OSD.AdminSecretEnvVar osdExternals;
     OSD.LocationEnvVar := OSD.LocationEnvVar osdExternals;
     OSD.ApplyToPodSpec := OSD.ApplyToPodSpec osdExternals;
     OSD.StoreTypeKey := OSD.StoreTypeKey osdExternals;
     OSD.WalSizeMBKey := OSD.WalSizeMBKey osdExternals;
     OSD.DatabaseSizeMBKey := OSD.DatabaseSizeMBKey osdExternals;
     OSD.JournalSizeMBKey := OSD.JournalSizeMBKey osdExternals;
     OSD.MetadataDeviceKey := OSD.MetadataDeviceKey osdExternals;
     OSD.appName := OSD.appName osdExternals;
     OSD.prepareAppName := OSD.prepareAppName osdExternals;
     OSD.osdLabelKey := OSD.osdLabelKey osdExternals;
     OSD.osdAppName := OSD.osdAppName osdExternals;
     OSD.IsRemovingNode := OSD.IsRemovingNode osdExternals;
     OSD.LabelHostname := OSD.LabelHostname osdExternals;
     OSD.path_Join := OSD.path_Join osdExternals;
     OSD.filepath_Dir := OSD.filepath_Dir osdExternals;
     OSD.os_Getenv := OSD.os_Getenv osdExternals |}.

Definition noResources : ResourceRequirements := {| Limits := ∅; Requests := ∅ |}.

Definition cluster : OSD.Cluster :=
  {| OSD.Namespace := "rook-ceph";
     OSD.dataDirHostPath := "/var/lib/rook";
     OSD.cl_HostNetwork := false;
     OSD.serviceAccount := "rook-ceph-cluster";
     OSD.rookVersion := "master";
     OSD.cephVersionImage := "ceph/ceph:v13";
     OSD.ownerRef := {| ref_Kind := "Cluster"; ref_Name := "rook-ceph"; ref_UID := "uid-1" |};
     OSD.placement := {| NodeAffinity := None; plc_Tolerations := [] |} |}.

Definition noSelection : Selection :=
  {| GetUseAllDevices := false; DeviceFilter := ""; Directories := [] |}.

Definition bluestore : OSD.StoreConfig :=
  {| OSD.StoreType := "bluestore"; OSD.WalSizeMB := 576;
     OSD.DatabaseSizeMB := 20480; OSD.JournalSizeMB := 0 |}.

Definition noStoreConfig : OSD.StoreConfig :=
  {| OSD.StoreType := ""; OSD.WalSizeMB := 0;
     OSD.DatabaseSizeMB := 0; OSD.JournalSizeMB := 0 |}.

(** A filestore OSD on a raw device. *)
Definition deviceFilestoreOSD : OSD.OSDInfo :=
  {| OSD.ID := 3;
     OSD.DataPath := "/var/lib/rook/osd3";
     OSD.Config := "/var/lib/rook/osd3/rook-ceph.config";
     OSD.osd_Cluster := "rook-ceph";
     OSD.KeyringPath := "/var/lib/rook/osd3/keyring";
     OSD.UUID := "uuid-3";
     OSD.Journal := "/var/lib/rook/osd3/journal";
     OSD.IsFileStore := true;
     OSD.IsDirectory := false;
     OSD.DevicePartUUID := "part-3" |}.

(** A directory OSD below a directory given by the user. *)
Definition directoryOSD : OSD.OSDInfo :=
  {| OSD.ID := 4;
     OSD.DataPath := "/mnt/data/osd4";
     OSD.Config := "/mnt/data/osd4/rook-ceph.config";
     OSD.osd_Cluster := "rook-ceph";
     OSD.KeyringPath := "/mnt/data/osd4/keyring";
     OSD.UUID := "uuid-4";
     OSD.Journal := "/mnt/data/osd4/journal";
     OSD.IsFileStore := true;
     OSD.IsDirectory := true;
     OSD.DevicePartUUID := "" |}.

(** A directory OSD below the default data directory. *)
Definition defaultDirectoryOSD : OSD.OSDInfo :=
  {| OSD.ID := 0;
     OSD.DataPath := "/var/lib/rook/osd0";
     OSD.Config := "/var/lib/rook/osd0/rook-ceph.config";
     OSD.osd_Cluster := "rook-ceph";
     OSD.KeyringPath := "/var/lib/rook/osd0/keyring";
     OSD.UUID := "uuid-0";
     OSD.Journal := "/var/lib/rook/osd0/journal";
     OSD.IsFileStore := true;
     OSD.IsDirectory := true;
     OSD.DevicePartUUID := "" |}.

Definition sda : list Device := [ {| dev_Name := "sda" |} ].



(** *** A small cluster for the NFS controller

    The objects of the namespace by kind and name, and the members of the
    grace database. *)

Record Objects :=
  { configMaps : list string;
    deployments : list string;
    services : list string;
    members : list string }.

Definition okReply : NFS.Reply :=
  {| NFS.reply_err := None; NFS.reply_Service := None |}.

Definition failed (message : string) (reason : StatusReason) : NFS.Reply :=
  {| NFS.reply_err := Some {| Error := message; Reason := reason |};
     NFS.reply_Service := None |}.

Definition without (name : string) (names : list string) : list string :=
  filter (fun other => other <> name) names.

(** The API server refuses to create what exists and to delete what does
    not, and accepts every update; the grace tool exits with an error when
    asked to add a member that is there or to remove one that is not. *)
Definition answer (request : NFS.Call) (w : Objects) : NFS.Reply * Objects :=
  match request with
  | NFS.CreateConfigMap _ cm =>
      let name := meta_Name (cm_Meta cm) in
      if bool_decide (name ∈ configMaps w) then
        (failed ("configmaps " +:+ name +:+ " already exists") AlreadyExists, w)
      else
        (okReply, {| configMaps := name :: configMaps w;
                     deployments := deployments w;
                     services := services w;
                     members := members w |})
  | NFS.UpdateConfigMap _ cm => (okReply, w)
  | NFS.CreateDeployment _ d =>
      let name := meta_Name (dep_Meta d) in
      if bool_decide (name ∈ deployments w) then
        (failed ("deployments " +:+ name +:+ " already exists") AlreadyExists, w)
      else
        (okReply, {| configMaps := configMaps w;
                     deployments := name :: deployments w;
                     services := services w;
                     members := members w |})
  | NFS.CreateService _ svc =>
      let name := meta_Name (svc_Meta svc) in
      if bool_decide (name ∈ services w) then
        (failed ("services " +:+ name +:+ " already exists") AlreadyExists, w)
      else
        ({| NFS.reply_err := None; NFS.reply_Service := Some svc |},
         {| configMaps := configMaps w;
            deployments := deployments w;
            services := name :: services w;
            members := members w |})
  | NFS.DeleteDeployment _ name =>
      if bool_decide (name ∈ deployments w) then
        (okReply, {| configMaps := configMaps w;
                     deployments := without name (deployments w);
                     services := services w;
                     members := members w |})
      else (failed ("deployments " +:+ name +:+ " not found") NotFound, w)
  | NFS.DeleteService _ name =>
      if bool_decide (name ∈ services w) then
        (okReply, {| configMaps := configMaps w;
                     deployments := deployments w;
                     services := without name (services w);
                     members := members w |})
      else (failed ("services " +:+ name +:+ " not found") NotFound, w)
  | NFS.ExecuteCommand _ [_; _; _; _; verb; name] =>
      if bool_decide (verb = "add") then
        if bool_decide (name ∈ members w) then (failed "exit status 1" Unknown, w)
        else (okReply, {| configMaps := configMaps w;
                          deployments := deployments w;
                          services := services w;
                          members := name :: members w |})
      else
        if bool_decide (name ∈ members w) then
          (okReply, {| configMaps := configMaps w;
                       deployments := deployments w;
                       services := services w;
                       members := without name (members w) |})
        else (failed "exit status 1" Unknown, w)
  | NFS.ExecuteCommand _ _ => (failed "exit status 2" Unknown, w)
  end.

Definition nfsExternals : NFS.Externals :=
  {| NFS.getGaneshaConfig := fun spec name =>
       "%url	rados://" +:+ NFS.Pool (NFS.ClientRecovery spec) +:+ "/" +:+
       NFS.cr_Namespace (NFS.ClientRecovery spec) +:+ "/conf-" +:+ name;
     NFS.AppAttr := "app";
     NFS.ClusterAttr := "rook_cluster";
     NFS.DataDir := "/var/lib/rook";
     NFS.DataDirVolume := "rook-data";
     NFS.PrivateIPEnvVar := "ROOK_PRIVATE_IP";
     NFS.PublicIPEnvVar := "ROOK_PUBLIC_IP";
     NFS.PodIPEnvVar := podIP;
     NFS.ConfigOverrideVolume := overrideVolume;
     NFS.ConfigOverrideMount :=
       {| mnt_Name := "rook-config-override"; mnt_MountPath := "/etc/rook" |};
     NFS.ConfigOverrideEnvVar :=
       envLit "ROOK_CEPH_CONFIG_OVERRIDE" "/etc/rook/override.conf";
     NFS.ClusterNameEnvVar := envLit "ROOK_CLUSTER_NAME";
     NFS.EndpointEnvVar := secretRef "ROOK_MON_ENDPOINTS" "data";
     NFS.AdminSecretEnvVar := secretRef "ROOK_ADMIN_SECRET" "admin-secret";
     NFS.ApplyToPodSpec := applyPlacement |}.

Definition controller : NFS.GaneshaController :=
  {| NFS.ownerRef := {| ref_Kind := "NFSGanesha"; ref_Name := "my-nfs"; ref_UID := "uid-2" |};
     NFS.hostNetwork := false;
     NFS.rookImage := "rook/ceph:master" |}.

(** An NFS export served by [active] servers. *)
Definition ganesha (active : Z) : NFS.NFSGanesha :=
  {| NFS.Name := "my-nfs";
     NFS.Namespace := "rook-ceph";
     NFS.Spec :=
       {| NFS.Store := {| NFS.store_Name := "myfs"; NFS.store_Type := "file" |};
          NFS.ClientRecovery := {| NFS.Pool := "myfs-data0"; NFS.cr_Namespace := "nfs-ns" |};
          NFS.Exports := [ {| NFS.Path := "/"; NFS.PseudoPath := "/myfs" |} ];
          NFS.Server :=
            {| NFS.Active := active;
               NFS.srv_Placement := {| NodeAffinity := None; plc_Tolerations := [] |};
               NFS.srv_Resources := noResources |} |} |}.

Definition start (w : Objects) : NFS.State Objects :=
  {| NFS.world := w; NFS.trace := []; NFS.log := [] |}.

Definition emptyNamespace : Objects :=
  {| configMaps := []; deployments := []; services := []; members := [] |}.

(** Server "a" was created before: its objects exist and it is a member. *)
Definition afterFirstPass : Objects :=
  {| configMaps := ["rook-ceph-ganesha-my-nfs-a"];
     deployments := ["rook-ceph-ganesha-my-nfs-a"];
     services := ["rook-ceph-ganesha-my-nfs-a"];
     members := ["a"] |}.

Definition jobExternals : OSD.JobExternals :=
  {| OSD.prepareJobName := fun nodeName => "rook-ceph-osd-prepare-" +:+ nodeName |}.

(** Two directories and no device. *)
Definition twoDirectories : Selection :=
  {| GetUseAllDevices := false;
     DeviceFilter := "";
     Directories := [ {| dir_Path := "/mnt/a" |}; {| dir_Path := "/mnt/b" |} ] |}.

(** The same specification with other exports. *)
Definition ganeshaExporting (exports : list NFS.GaneshaExportSpec) (active : Z)
    : NFS.NFSGanesha :=
  {| NFS.Name := "my-nfs";
     NFS.Namespace := "rook-ceph";
     NFS.Spec :=
       {| NFS.Store := NFS.Store (NFS.Spec (ganesha active));
          NFS.ClientRecovery := NFS.ClientRecovery (NFS.Spec (ganesha active));
          NFS.Exports := exports;
          NFS.Server := NFS.Server (NFS.Spec (ganesha active)) |} |}.

(** A cluster that refuses every deployment. *)
Definition refuseDeployments (request : NFS.Call) (w : Objects)
    : NFS.Reply * Objects :=
  match request with
  | NFS.CreateDeployment _ _ => (failed "connection refused" Unknown, w)
  | _ => answer request w
  end.

End Sample.

(** * Properties *)

(** ** Instance names *)

Module K8sutilFacts.
Import K8sutil.

Lemma div26_pred_bounds (index : Z) :
  26 <= index -> 0 <= index / 26 - 1 < index.
Proof.
  intros Hbig.
  pose proof (Z.div_le_mono 26 index 26 ltac:(lia) Hbig) as Hd.
  rewrite Z.div_same in Hd by lia.
  pose proof (Z.div_lt index 26 ltac:(lia) ltac:(lia)). lia.
Qed.

(** Any fuel above the ordinal gives the same name. *)
Lemma IndexToName_loop_fuel (f1 : nat) :
  forall f2 index, 0 <= index ->
    (Z.to_nat index < f1)%nat -> (Z.to_nat index < f2)%nat ->
    IndexToName_loop f1 index = IndexToName_loop f2 index.
Proof.
  induction f1 as [|f1 IH]; intros [|f2] index Hpos H1 H2; try lia.
  cbn [IndexToName_loop].
  destruct (index <? 26) eqn:Hsmall; [reflexivity|].
  apply Z.ltb_ge, div26_pred_bounds in Hsmall.
  rewrite (IH f2) by lia. reflexivity.
Qed.

(** The recursion equation of [IndexToName], free of fuel. *)
Lemma IndexToName_unfold (index : Z) :
  0 <= index ->
  IndexToName index =
    if index <? 26 then String (letter (index mod 26)) ""
    else IndexToName (index / 26 - 1) +:+ String (letter (index mod 26)) "".
Proof.
  intros Hpos. unfold IndexToName. cbn [IndexToName_loop].
  destruct (index <? 26) eqn:Hsmall; [reflexivity|].
  apply Z.ltb_ge, div26_pred_bounds in Hsmall.
  rewrite (IndexToName_loop_fuel _ (S (Z.to_nat (index / 26 - 1)))) by lia.
  reflexivity.
Qed.

Lemma letter_inj (a b : Z) :
  0 <= a < 26 -> 0 <= b < 26 -> letter a = letter b -> a = b.
Proof.
  intros Ha Hb Heq. unfold letter in Heq.
  apply (f_equal nat_of_ascii) in Heq.
  rewrite !nat_ascii_embedding in Heq by lia. lia.
Qed.

Lemma snoc_inj (s1 s2 : string) (c1 c2 : ascii) :
  s1 +:+ String c1 "" = s2 +:+ String c2 "" -> s1 = s2 /\ c1 = c2.
Proof.
  revert s2. induction s1 as [|a s1 IH]; intros [|b s2] Heq; cbn in Heq.
  - by inversion Heq.
  - inversion Heq as [[Hc Hs]]. by destruct s2.
  - inversion Heq as [[Hc Hs]]. by destruct s1.
  - inversion Heq as [[Hc Hs]]. destruct (IH _ Hs) as [-> ->]. done.
Qed.

Lemma IndexToName_nonempty (index : Z) : IndexToName index <> "".
Proof.
  unfold IndexToName. cbn [IndexToName_loop].
  destruct (index <? 26); [done|].
  by destruct (IndexToName_loop _ _).
Qed.

(** [IndexToName] is injective on all non-negative ordinals. *)
Lemma IndexToName_inj (o1 o2 : Z) :
  0 <= o1 -> 0 <= o2 -> IndexToName o1 = IndexToName o2 -> o1 = o2.
Proof.
  remember (Z.to_nat o1) as n eqn:Hn. revert o1 o2 Hn.
  induction n as [n IH] using lt_wf_ind. intros o1 o2 Hn H1 H2.
  rewrite (IndexToName_unfold o1), (IndexToName_unfold o2) by assumption.
  pose proof (Z.mod_pos_bound o1 26 ltac:(lia)) as Hm1.
  pose proof (Z.mod_pos_bound o2 26 ltac:(lia)) as Hm2.
  destruct (o1 <? 26) eqn:Hs1, (o2 <? 26) eqn:Hs2; intros Heq.
  - apply Z.ltb_lt in Hs1, Hs2. inversion Heq as [Hc].
    apply letter_inj in Hc; try lia.
    rewrite !Z.mod_small in Hc by lia. exact Hc.
  - apply (snoc_inj "") in Heq as [Heq _].
    symmetry in Heq. by apply IndexToName_nonempty in Heq.
  - apply (snoc_inj _ "") in Heq as [Heq _].
    by apply IndexToName_nonempty in Heq.
  - apply Z.ltb_ge in Hs1, Hs2. apply snoc_inj in Heq as [Hpre Hc].
    apply letter_inj in Hc; try lia.
    pose proof (div26_pred_bounds o1 Hs1) as Hq1.
    pose proof (div26_pred_bounds o2 Hs2) as Hq2.
    assert (Hq : o1 / 26 - 1 = o2 / 26 - 1).
    { apply (IH (Z.to_nat (o1 / 26 - 1))); try lia. exact Hpre. }
    rewrite (Z.div_mod o1 26), (Z.div_mod o2 26) by lia. lia.
Qed.

Lemma digitOf_letter (d : Z) : 0 <= d < 26 -> digitOf (letter d) = d + 1.
Proof.
  intros Hd. unfold digitOf, letter. rewrite nat_ascii_embedding by lia. lia.
Qed.

Lemma lowercase_letter (d : Z) : 0 <= d < 26 -> lowercase (letter d).
Proof.
  intros Hd. unfold lowercase, letter. rewrite nat_ascii_embedding by lia. lia.
Qed.

Lemma bijectiveValue_snoc (name : string) (ch : ascii) :
  forall acc,
    bijectiveValue acc (name +:+ String ch "") =
    bijectiveValue acc name * 26 + digitOf ch.
Proof.
  induction name as [|a name IH]; intros acc; cbn; [reflexivity | apply IH].
Qed.

Lemma allLowercase_snoc (name : string) (ch : ascii) :
  allLowercase name -> lowercase ch -> allLowercase (name +:+ String ch "").
Proof.
  induction name as [|a name IH]; cbn [allLowercase String.append].
  - intros _ Hch. by split.
  - intros [Ha Hname] Hch. split; [exact Ha | by apply IH].
Qed.

(** The name of an ordinal is the bijective base-26 numeral of the ordinal
    plus one, written in lowercase letters. *)
Lemma IndexToName_value (index : Z) :
  0 <= index ->
  bijectiveValue 0 (IndexToName index) = index + 1 /\
  allLowercase (IndexToName index).
Proof.
  remember (Z.to_nat index) as k eqn:Hk. revert index Hk.
  induction k as [k IH] using lt_wf_ind. intros index Hk Hpos.
  rewrite (IndexToName_unfold index Hpos).
  pose proof (Z.mod_pos_bound index 26 ltac:(lia)) as Hm.
  destruct (index <? 26) eqn:Hsmall.
  - apply Z.ltb_lt in Hsmall. cbn [bijectiveValue allLowercase].
    rewrite digitOf_letter by lia. rewrite Z.mod_small by lia.
    split; [lia|]. split; [|exact I]. apply lowercase_letter. lia.
  - apply Z.ltb_ge in Hsmall.
    pose proof (div26_pred_bounds index Hsmall) as Hq.
    destruct (IH (Z.to_nat (index / 26 - 1)) ltac:(lia) (index / 26 - 1)
                eq_refl ltac:(lia)) as (Hvalue & Hlower).
    rewrite bijectiveValue_snoc, Hvalue, digitOf_letter by lia.
    split.
    + rewrite (Z.div_mod index 26) at 3 by lia. lia.
    + apply allLowercase_snoc; [exact Hlower|]. apply lowercase_letter. lia.
Qed.

(** C1: [identityOf] is total on the non-negative ordinals and implements
    bijective base-26 over lowercase letters: the name of an ordinal is made
    of lowercase letters and, read as a numeral with digits 'a' = 1 to
    'z' = 26, is worth the ordinal plus one.  It takes the values "a", "z",
    "aa", "ab", "zz" and "aaa" at 0, 25, 26, 27, 701 and 702, and two
    different ordinals of [0, 1000) never get the same name. *)
Theorem identityOf_bijective_base26 :
  (forall o, 0 <= o ->
     identityOf o <> "" /\ allLowercase (identityOf o) /\
     bijectiveValue 0 (identityOf o) = o + 1) /\
  identityOf 0 = "a" /\ identityOf 25 = "z" /\ identityOf 26 = "aa" /\
  identityOf 27 = "ab" /\ identityOf 701 = "zz" /\ identityOf 702 = "aaa" /\
  (forall o1 o2, 0 <= o1 < 1000 -> 0 <= o2 < 1000 -> o1 <> o2 ->
     identityOf o1 <> identityOf o2).
Proof.
  split.
  { intros o Ho. destruct (IndexToName_value o Ho) as (Hvalue & Hlower).
    split; [apply IndexToName_nonempty|]. by split. }
  do 6 (split; [vm_compute; reflexivity|]).
  intros o1 o2 H1 H2 Hne Heq. apply Hne.
  apply IndexToName_inj; [lia | lia | exact Heq].
Qed.

Lemma identityOf_bijective_base26_witness :
  identityOf 51 = "az" /\ identityOf 52 = "ba" /\
  identityOf 51 <> identityOf 52 /\
  bijectiveValue 0 (identityOf 52) = 53.
Proof.
  split; [vm_compute; reflexivity|]. split; [vm_compute; reflexivity|].
  split.
  - apply (proj2 (proj2 (proj2 (proj2 (proj2 (proj2 (proj2
             identityOf_bijective_base26))))))); lia.
  - apply (proj1 identityOf_bijective_base26 52). lia.
Defined.

End K8sutilFacts.

(** ** OSD pod specs *)

Module OSDFacts.
Import Go V1 Rookalpha OSD OSDSpec.

Section Deployment.
Variable X : Externals.
Variable c : Cluster.
Variables (nodeName : string) (devices : list Device) (selection : Selection).
Variables (resources : ResourceRequirements) (storeConfig : StoreConfig).
Variables (metadataDevice location : string).

Local Abbreviation build osd :=
  (makeDeployment X c nodeName devices selection resources storeConfig
     metadataDevice location osd).

(** The shape of every deployment [makeDeployment] returns: one daemon
    container, the config init container, the copy-binaries container after
    it exactly for filestore on a device. *)
Lemma makeDeployment_shape (osd : OSDInfo) (d : Deployment) :
  PlacementKeepsPod X ->
  build osd = Ok d ->
  let staging := negb (IsDirectory osd) && IsFileStore osd in
  let extraV := if staging then [stagingVolume] else [] in
  let extraM := if staging then [stagingMount] else [] in
  exists initc daemon,
    Containers (tpl_Spec (Template d)) = [daemon] /\
    InitContainers (tpl_Spec (Template d)) =
      initc :: (if staging then [snd (getCopyBinariesContainer X c)] else []) /\
    Volumes (tpl_Spec (Template d)) = mediumVolumes X c osd ++ extraV /\
    ctr_Name initc = ConfigInitContainerName X /\
    VolumeMounts initc = RookVolumeMounts X ++
       (if IsDirectory osd then mediumMounts X osd else []) ++ extraM /\
    ctr_Name daemon = "osd" /\
    VolumeMounts daemon = CephVolumeMounts X ++ mediumMounts X osd ++ extraM /\
    Command daemon =
      (if staging then [path_Join X (BinariesMountPath X) "tini"] else ["ceph-osd"]) /\
    Args daemon =
      (if staging then
         [ "--"; path_Join X (BinariesMountPath X) "rook";
           "ceph"; "osd"; "filestore-device";
           "--source-path"; path_Join X "/dev/disk/by-partuuid" (DevicePartUUID osd);
           "--mount-path"; DataPath osd; "--" ]
       else []) ++ commonArgs osd.
Proof.
  intros Hkeep Hbuild. unfold makeDeployment in Hbuild.
  unfold mediumVolumes, mediumMounts, commonArgs.
  destruct (IsDirectory osd) eqn:Hdir, (IsFileStore osd) eqn:Hfs;
    cbn [negb andb] in *;
    repeat (match type of Hbuild with
            | context [decide ?P] => destruct (decide P)
            end; cbn [negb andb] in * );
    try discriminate;
    injection Hbuild as <-; cbn [Template tpl_Spec];
    match goal with
    | |- context [ApplyToPodSpec X ?p ?s] =>
        destruct (Hkeep p s) as (-> & -> & ->)
    end;
    cbn; do 2 eexists; rewrite ?app_nil_r, <- ?app_assoc; cbn;
    repeat split; reflexivity.
Qed.

(** C2: in a deployment built by [makeDeployment], filestore on a raw device
    is the one case with binary staging: the copy-binaries init container
    follows the config init container, the pod has the ephemeral
    [rook-binaries] volume, which the copy-binaries and the daemon container
    both mount, and the daemon's command is the staged [tini] running [rook]
    to mount the partition, run the daemon and unmount.  In every other case
    there is no such container, volume or mount and the command is
    [ceph-osd] with the common arguments. *)
Theorem makeDeployment_staging (osd : OSDInfo) (d : Deployment) :
  PlacementKeepsPod X ->
  build osd = Ok d ->
  let pod := tpl_Spec (Template d) in
  let copyBins := snd (getCopyBinariesContainer X c) in
  exists initc daemon,
    Containers pod = [daemon] /\
    (((IsDirectory osd = false /\ IsFileStore osd = true) /\
      InitContainers pod = [initc; copyBins] /\
      ctr_Name copyBins = "copy-bins" /\
      Args copyBins = ["ceph"; "osd"; "copybins"] /\
      In stagingVolume (Volumes pod) /\
      In stagingMount (VolumeMounts copyBins) /\
      In stagingMount (VolumeMounts daemon) /\
      Command daemon = [path_Join X (BinariesMountPath X) "tini"] /\
      Args daemon =
        [ "--"; path_Join X (BinariesMountPath X) "rook";
          "ceph"; "osd"; "filestore-device";
          "--source-path"; path_Join X "/dev/disk/by-partuuid" (DevicePartUUID osd);
          "--mount-path"; DataPath osd; "--" ] ++ commonArgs osd)
     \/
     (~ (IsDirectory osd = false /\ IsFileStore osd = true) /\
      InitContainers pod = [initc] /\
      Volumes pod = mediumVolumes X c osd /\
      VolumeMounts daemon = CephVolumeMounts X ++ mediumMounts X osd /\
      Command daemon = ["ceph-osd"] /\
      Args daemon = commonArgs osd)).
Proof.
  intros Hkeep Hbuild.
  destruct (makeDeployment_shape osd d Hkeep Hbuild)
    as (initc & daemon & Hc & Hi & Hv & _ & _ & _ & Hm & Hcmd & Hargs).
  exists initc, daemon. split; [exact Hc|].
  destruct (IsDirectory osd), (IsFileStore osd); cbn [negb andb] in *;
    rewrite ?app_nil_r in *.
  - right. repeat split; try assumption. intros [? _]; discriminate.
  - right. repeat split; try assumption. intros [? _]; discriminate.
  - left. repeat split; try assumption.
    + rewrite Hv. apply in_or_app. right. left. reflexivity.
    + left. reflexivity.
    + rewrite Hm. apply in_or_app. right. apply in_or_app. right.
      left. reflexivity.
  - right. repeat split; try assumption. intros [_ ?]; discriminate.
Qed.

(** C5: for a directory OSD built by [makeDeployment], a data path whose
    parent is the default data directory adds no volume and no mount; any
    other parent directory adds exactly one host-path volume for it to the
    pod, and one mount of it to the daemon and to the init container. *)
Theorem makeDeployment_directory_mount (osd : OSDInfo) (d : Deployment) :
  PlacementKeepsPod X ->
  IsDirectory osd = true ->
  build osd = Ok d ->
  let pod := tpl_Spec (Template d) in
  let parentDir := filepath_Dir X (DataPath osd) in
  let volume := {| vol_Name := PathToVolumeName X parentDir;
                   vol_Source := HostPath parentDir |} in
  let mount := {| mnt_Name := PathToVolumeName X parentDir;
                  mnt_MountPath := parentDir |} in
  exists initc daemon,
    InitContainers pod = [initc] /\ Containers pod = [daemon] /\
    (parentDir = DataDir X ->
       Volumes pod = PodVolumes X (dataDirHostPath c) /\
       VolumeMounts daemon = CephVolumeMounts X /\
       VolumeMounts initc = RookVolumeMounts X) /\
    (parentDir <> DataDir X ->
       Volumes pod = PodVolumes X (dataDirHostPath c) ++ [volume] /\
       VolumeMounts daemon = CephVolumeMounts X ++ [mount] /\
       VolumeMounts initc = RookVolumeMounts X ++ [mount]).
Proof.
  intros Hkeep Hdir Hbuild.
  destruct (makeDeployment_shape osd d Hkeep Hbuild)
    as (initc & daemon & Hc & Hi & Hv & _ & Hmi & _ & Hm & _ & _).
  exists initc, daemon.
  unfold mediumVolumes, mediumMounts in *. rewrite Hdir in *.
  cbn [negb andb] in *. cbv iota in *. rewrite ?app_nil_r in *.
  split; [exact Hi|]. split; [exact Hc|].
  destruct (decide (filepath_Dir X (DataPath osd) <> DataDir X)) as [Hne|Heq];
    rewrite ?app_nil_r in *.
  - split; [intros Hparent; contradiction|]. intros _. by repeat split.
  - split; [intros _; by repeat split|]. intros Hparent. contradiction.
Qed.

(** [makeDeployment] fails exactly for a directory OSD below the default
    data directory when there are no base pod volumes, and then with
    "empty volumes". *)
Lemma makeDeployment_error (osd : OSDInfo) :
  isErr (build osd) =
    IsDirectory osd
    && bool_decide (filepath_Dir X (DataPath osd) = DataDir X)
    && bool_decide (PodVolumes X (dataDirHostPath c) = []) /\
  (forall e, build osd = Err e -> e = Errorf "empty volumes").
Proof.
  unfold makeDeployment.
  destruct (IsDirectory osd) eqn:Hdir; cbn [negb andb].
  - destruct (decide (filepath_Dir X (DataPath osd) <> DataDir X)) as [Hne|Heq].
    + rewrite (bool_decide_eq_false_2 _ Hne). cbn [andb].
      destruct (decide (length _ = 0%nat)) as [Hlen|Hlen].
      * rewrite length_app in Hlen. cbn in Hlen. lia.
      * destruct (IsFileStore osd); (split; [reflexivity|]);
          intros e He; discriminate.
    + apply dec_stable in Heq. rewrite (bool_decide_eq_true_2 _ Heq). cbn [andb].
      destruct (decide (length _ = 0%nat)) as [Hlen|Hlen].
      * apply length_zero_iff_nil in Hlen.
        rewrite (bool_decide_eq_true_2 _ Hlen).
        split; [reflexivity|]. intros e He. by injection He as <-.
      * rewrite bool_decide_eq_false_2
          by (intros Hnil; apply Hlen; by rewrite Hnil).
        destruct (IsFileStore osd); (split; [reflexivity|]);
          intros e He; discriminate.
  - destruct (decide (length _ = 0%nat)) as [Hlen|Hlen].
    + rewrite length_app in Hlen. cbn in Hlen. lia.
    + destruct (IsFileStore osd); (split; [reflexivity|]);
        intros e He; discriminate.
Qed.

End Deployment.

(** Settles the test for [/dev] once the four conditions are known. *)
Ltac decide_dev_mount :=
  match goal with
  | |- context [bool_decide (?P \/ ?Q)] =>
      first [ rewrite (bool_decide_eq_true_2 (P \/ Q)) by tauto
            | rewrite (bool_decide_eq_false_2 (P \/ Q))
                by (intros [?|[?|[?|?]]]; done) ]
  end.

Section Provision.
Variable X : Externals.
Variable c : Cluster.
Variables (devices : list Device) (resources : ResourceRequirements).
Variables (storeConfig : StoreConfig) (metadataDevice nodeName location : string).

Local Abbreviation container selection mount :=
  (provisionOSDContainer X c devices selection resources storeConfig
     metadataDevice nodeName location mount).

Local Abbreviation template selection restart :=
  (provisionPodTemplateSpec X c devices selection resources storeConfig
     metadataDevice nodeName location restart).

(** The environment of the provision container, piece by piece. *)
Lemma provisionOSDContainer_env (selection : Selection) (mount : VolumeMount) :
  Env (container selection mount) =
    getConfigEnvVars X c storeConfig (DataDir X) nodeName location ++
    deviceSelectorEnv devices selection ++
    (if decide (metadataDevice <> "") then [metadataDeviceEnvVar metadataDevice]
     else []) ++
    directoriesEnv X selection.
Proof.
  unfold provisionOSDContainer, deviceSelectorEnv, directoriesEnv.
  destruct (decide (0 < length devices)%nat);
    [|destruct (decide (DeviceFilter selection <> ""));
      [|destruct (GetUseAllDevices selection)]];
    destruct (decide (metadataDevice <> ""));
    destruct (decide (0 < length (Directories selection))%nat);
    try destruct (IsRemovingNode X (DeviceFilter selection));
    cbn; rewrite <- ?app_assoc, ?app_nil_r; reflexivity.
Qed.

(** The mounts of the provision container, piece by piece. *)
Lemma provisionOSDContainer_mounts (selection : Selection) (mount : VolumeMount) :
  VolumeMounts (container selection mount) =
    CephVolumeMounts X ++ [mount] ++
    (if devMountNeeded devices selection metadataDevice then deviceMounts else []) ++
    map (directoryMount X) (Directories selection).
Proof.
  unfold provisionOSDContainer, devMountNeeded, directoryMount.
  assert (Hnil : ~ (0 < length (Directories selection))%nat ->
                 Directories selection = []).
  { destruct (Directories selection); cbn; [done | lia]. }
  destruct (decide (0 < length devices)%nat);
    [|destruct (decide (DeviceFilter selection <> ""));
      [|destruct (GetUseAllDevices selection) eqn:Hall]];
    destruct (decide (metadataDevice <> ""));
    destruct (decide (0 < length (Directories selection))%nat) as [Hd|Hd];
    try destruct (IsRemovingNode X (DeviceFilter selection));
    try rewrite (Hnil Hd);
    decide_dev_mount;
    cbn; rewrite <- ?app_assoc, ?map_map, ?app_nil_r; reflexivity.
Qed.

(** Whether the provision container runs privileged. *)
Lemma provisionOSDContainer_privileged (selection : Selection) (mount : VolumeMount) :
  ctr_SecurityContext (container selection mount) =
    Some {| Privileged :=
              Some (devMountNeeded devices selection metadataDevice
                    || bool_decide (os_Getenv X "ROOK_HOSTPATH_REQUIRES_PRIVILEGED"
                                    = "true"));
            RunAsUser := Some 0;
            RunAsNonRoot := Some false;
            ReadOnlyRootFilesystem := Some false |}.
Proof.
  unfold provisionOSDContainer, devMountNeeded.
  destruct (decide (0 < length devices)%nat);
    [|destruct (decide (DeviceFilter selection <> ""));
      [|destruct (GetUseAllDevices selection) eqn:Hall]];
    destruct (decide (metadataDevice <> ""));
    destruct (decide (0 < length (Directories selection))%nat) as [Hd|Hd];
    try destruct (IsRemovingNode X (DeviceFilter selection));
    decide_dev_mount;
    cbn;
    try match goal with
        | |- context [bool_decide ?P] => destruct (bool_decide P)
        end;
    reflexivity.
Qed.

(** [provisionPodTemplateSpec] always succeeds: the volume list starts with
    the base volumes and the copy-binaries volume. *)
Lemma provisionPodTemplateSpec_ok (selection : Selection) (restart : string) :
  exists t,
    template selection restart = Ok t /\
    tpl_Spec t =
      ApplyToPodSpec X (placement c)
        {| NodeSelector := ∅;
           RestartPolicy := restart;
           ServiceAccountName := serviceAccount c;
           HostNetwork := cl_HostNetwork c;
           HostPID := false;
           DNSPolicy := if cl_HostNetwork c then DNSClusterFirstWithHostNet else "";
           InitContainers := [];
           Containers :=
             [ snd (getCopyBinariesContainer X c);
               container selection stagingMount ];
           Volumes :=
             PodVolumes X (dataDirHostPath c) ++ [stagingVolume] ++
             (if devMountNeeded devices selection metadataDevice
              then deviceVolumes else []) ++
             map (directoryVolume X) (Directories selection);
           Affinity := None;
           Tolerations := [] |}.
Proof.
  unfold provisionPodTemplateSpec, devMountNeeded. cbn [getCopyBinariesContainer].
  match goal with
  | |- context [decide (?P \/ ?Q)] => destruct (decide (P \/ Q)) as [Hdev|Hdev]
  end;
    [rewrite (bool_decide_eq_true_2 _ Hdev) | rewrite (bool_decide_eq_false_2 _ Hdev)];
    (match goal with
     | |- context [decide (length ?l = 0%nat)] =>
         destruct (decide (length l = 0%nat)) as [Hlen|Hlen]
     end;
     [rewrite !length_app in Hlen; cbn in Hlen; lia|]);
    eexists; (split; [reflexivity|]); cbn [tpl_Spec]; f_equal; f_equal;
    rewrite <- ?app_assoc, ?app_nil_r; reflexivity.
Qed.





End Provision.

(** C4, as the code has it: the "empty volumes" branch is taken when the
    volume list of the pod is empty.  [provisionPodTemplateSpec] never takes
    it, whatever is selected, because the list starts with the base volumes
    and the copy-binaries volume.  [makeDeployment] takes it exactly for a
    directory OSD below the default data directory when there are no base
    volumes, and returns no other error; a device OSD and a directory OSD
    below any other directory never fail. *)
Theorem empty_volumes_error (X : Externals) (c : Cluster) (nodeName : string)
    (devices : list Device) (selection : Selection)
    (resources : ResourceRequirements) (storeConfig : StoreConfig)
    (metadataDevice location restart : string) (osd : OSDInfo) :
  isErr (provisionPodTemplateSpec X c devices selection resources storeConfig
           metadataDevice nodeName location restart) = false /\
  isErr (makeDeployment X c nodeName devices selection resources storeConfig
           metadataDevice location osd) =
    IsDirectory osd
    && bool_decide (filepath_Dir X (DataPath osd) = DataDir X)
    && bool_decide (PodVolumes X (dataDirHostPath c) = []) /\
  (forall e,
     makeDeployment X c nodeName devices selection resources storeConfig
       metadataDevice location osd = Err e -> e = Errorf "empty volumes").
Proof.
  split.
  - destruct (provisionPodTemplateSpec_ok X c devices resources storeConfig
                metadataDevice nodeName location selection restart)
      as (t & -> & _).
    reflexivity.
  - apply makeDeployment_error.
Qed.


Section RoundTrip.
Variable X : Externals.

Lemma getConfigFromContainer_fold (ctr : Container) :
  getConfigFromContainer X ctr = foldl (configStep X) ∅ (Env ctr).
Proof. reflexivity. Qed.

Lemma configStep_foreign (cfg : gmap string string) (e : EnvVar) :
  Foreign e -> configStep X cfg e = cfg.
Proof.
  unfold Foreign, configEnvNames, configStep. intros Hf.
  repeat case_decide; try reflexivity; exfalso; apply Hf;
    match goal with H : env_Name e = _ |- _ => rewrite H end; cbn; tauto.
Qed.

Lemma foldl_configStep_foreign (l : list EnvVar) (cfg : gmap string string) :
  Forall Foreign l -> foldl (configStep X) cfg l = cfg.
Proof.
  intros Hl. induction Hl as [|e l He _ IH]; [reflexivity|].
  cbn [foldl]. by rewrite configStep_foreign.
Qed.

Lemma Foreign_lit (name value : string) :
  ~ In name configEnvNames -> Foreign (envLit name value).
Proof. intros H. exact H. Qed.

End RoundTrip.

(** Proves that a name written out in [spec.go] is not one of the five. *)
Ltac other_name :=
  apply Foreign_lit; unfold configEnvNames; cbn;
  intros Hin; decompose [or] Hin; discriminate || contradiction.

Section RoundTripProvision.
Variable X : Externals.
Variable c : Cluster.
Hypothesis Hapart : ExternalsApart X.

Lemma baseEnv_foreign (dataDir nodeName : string) :
  Forall Foreign (baseEnv X c dataDir nodeName).
Proof.
  destruct Hapart
    as (Hip & Hip' & Hname & Hend & Hsec & Hadm & Hdir & Hover & _ & _).
  unfold baseEnv.
  repeat (apply Forall_cons; split); try apply Forall_nil_2;
    first [ exact Hip | exact Hip' | apply Hname | exact Hend | exact Hsec
          | exact Hadm | apply Hdir | exact Hover | other_name ].
Qed.

Lemma getConfigEnvVars_parts (storeConfig : StoreConfig)
    (dataDir nodeName location : string) :
  getConfigEnvVars X c storeConfig dataDir nodeName location =
    baseEnv X c dataDir nodeName ++
    (if decide (StoreType storeConfig <> "")
     then [osdStoreEnvVar (StoreType storeConfig)] else []) ++
    (if decide (DatabaseSizeMB storeConfig <> 0)
     then [osdDatabaseSizeEnvVar (DatabaseSizeMB storeConfig)] else []) ++
    (if decide (WalSizeMB storeConfig <> 0)
     then [osdWalSizeEnvVar (WalSizeMB storeConfig)] else []) ++
    (if decide (JournalSizeMB storeConfig <> 0)
     then [osdJournalSizeEnvVar (JournalSizeMB storeConfig)] else []) ++
    (if decide (location <> "") then [LocationEnvVar X location] else []).
Proof.
  unfold getConfigEnvVars. fold (baseEnv X c dataDir nodeName).
  repeat case_decide; rewrite <- ?app_assoc, ?app_nil_r; reflexivity.
Qed.

Lemma deviceSelectorEnv_foreign (devices : list Device) (selection : Selection) :
  Forall Foreign (deviceSelectorEnv devices selection).
Proof.
  unfold deviceSelectorEnv.
  repeat case_decide; try destruct (GetUseAllDevices selection);
    repeat (apply Forall_cons; split); try apply Forall_nil_2; other_name.
Qed.

Lemma directoriesEnv_foreign (selection : Selection) :
  Forall Foreign (directoriesEnv X selection).
Proof.
  unfold directoriesEnv.
  repeat case_decide; try destruct (IsRemovingNode X _);
    repeat (apply Forall_cons; split); try apply Forall_nil_2; other_name.
Qed.

Lemma lookup_record_eq (key : string) (value : option string)
    (cfg : gmap string string) :
  record key value cfg !! key =
    match value with Some v => Some v | None => cfg !! key end.
Proof. destruct value; [apply lookup_insert_eq | reflexivity]. Qed.

Lemma lookup_record_ne (key key' : string) (value : option string)
    (cfg : gmap string string) :
  key <> key' -> record key value cfg !! key' = cfg !! key'.
Proof. intros Hne. destruct value; [by apply lookup_insert_ne | reflexivity]. Qed.

Lemma fold_store (cfg : gmap string string) (storeType : string) :
  foldl (configStep X) cfg
    (if decide (storeType <> "") then [osdStoreEnvVar storeType] else []) =
  record (StoreTypeKey X) (setting "" storeType id) cfg.
Proof. unfold setting. by repeat case_decide. Qed.

Lemma fold_database (cfg : gmap string string) (size : Z) :
  foldl (configStep X) cfg
    (if decide (size <> 0) then [osdDatabaseSizeEnvVar size] else []) =
  record (DatabaseSizeMBKey X) (setting 0 size Itoa) cfg.
Proof. unfold setting. by repeat case_decide. Qed.

Lemma fold_wal (cfg : gmap string string) (size : Z) :
  foldl (configStep X) cfg
    (if decide (size <> 0) then [osdWalSizeEnvVar size] else []) =
  record (WalSizeMBKey X) (setting 0 size Itoa) cfg.
Proof. unfold setting. by repeat case_decide. Qed.

Lemma fold_journal (cfg : gmap string string) (size : Z) :
  foldl (configStep X) cfg
    (if decide (size <> 0) then [osdJournalSizeEnvVar size] else []) =
  record (JournalSizeMBKey X) (setting 0 size Itoa) cfg.
Proof. unfold setting. by repeat case_decide. Qed.

Lemma fold_metadata (cfg : gmap string string) (device : string) :
  foldl (configStep X) cfg
    (if decide (device <> "") then [metadataDeviceEnvVar device] else []) =
  record (MetadataDeviceKey X) (setting "" device id) cfg.
Proof. unfold setting. by repeat case_decide. Qed.

(** The map [getConfigFromContainer] reads back from the provision
    container: the five settings, stored in the order of the environment. *)
Lemma getConfigFromContainer_provision (devices : list Device)
    (selection : Selection) (resources : ResourceRequirements)
    (storeConfig : StoreConfig) (metadataDevice nodeName location : string)
    (mount : VolumeMount) :
  getConfigFromContainer X
    (provisionOSDContainer X c devices selection resources storeConfig
       metadataDevice nodeName location mount) =
  record (MetadataDeviceKey X) (setting "" metadataDevice id)
    (record (JournalSizeMBKey X) (setting 0 (JournalSizeMB storeConfig) Itoa)
      (record (WalSizeMBKey X) (setting 0 (WalSizeMB storeConfig) Itoa)
        (record (DatabaseSizeMBKey X) (setting 0 (DatabaseSizeMB storeConfig) Itoa)
          (record (StoreTypeKey X) (setting "" (StoreType storeConfig) id) ∅)))).
Proof.
  rewrite getConfigFromContainer_fold, provisionOSDContainer_env.
  rewrite getConfigEnvVars_parts.
  destruct Hapart as (_ & _ & _ & _ & _ & _ & _ & _ & Hloc & _).
  rewrite !foldl_app.
  rewrite (foldl_configStep_foreign X (baseEnv _ _ _ _)) by apply baseEnv_foreign.
  rewrite (foldl_configStep_foreign X (directoriesEnv X selection))
    by apply directoriesEnv_foreign.
  rewrite fold_store, fold_database, fold_wal, fold_journal.
  rewrite (foldl_configStep_foreign X (if decide (location <> "") then _ else _)).
  2:{ case_decide; [|apply Forall_nil_2].
      apply Forall_cons. split; [apply Hloc | apply Forall_nil_2]. }
  rewrite (foldl_configStep_foreign X (deviceSelectorEnv _ _))
    by apply deviceSelectorEnv_foreign.
  apply fold_metadata.
Qed.

(** C10: the store settings survive the trip through the environment of
    the provision container.  [getConfigFromContainer] finds the store type,
    the database, WAL and journal sizes and the metadata device under their
    keys, each one exactly when it was given (a non-empty string, a non-zero
    size), the sizes as [strconv.Itoa] prints them, and nothing under any
    other key. *)
Theorem config_round_trip (devices : list Device) (selection : Selection)
    (resources : ResourceRequirements) (storeConfig : StoreConfig)
    (metadataDevice nodeName location : string) (mount : VolumeMount) :
  let cfg :=
    getConfigFromContainer X
      (provisionOSDContainer X c devices selection resources storeConfig
         metadataDevice nodeName location mount) in
  cfg !! StoreTypeKey X = setting "" (StoreType storeConfig) id /\
  cfg !! DatabaseSizeMBKey X = setting 0 (DatabaseSizeMB storeConfig) Itoa /\
  cfg !! WalSizeMBKey X = setting 0 (WalSizeMB storeConfig) Itoa /\
  cfg !! JournalSizeMBKey X = setting 0 (JournalSizeMB storeConfig) Itoa /\
  cfg !! MetadataDeviceKey X = setting "" metadataDevice id /\
  (forall k,
     ~ In k [ StoreTypeKey X; DatabaseSizeMBKey X; WalSizeMBKey X;
              JournalSizeMBKey X; MetadataDeviceKey X ] ->
     cfg !! k = None).
Proof.
  intros cfg. subst cfg. rewrite getConfigFromContainer_provision.
  destruct Hapart as (_ & _ & _ & _ & _ & _ & _ & _ & _ & Hkeys).
  rewrite !NoDup_cons, !not_elem_of_cons in Hkeys.
  destruct Hkeys as ((K12 & K13 & K14 & K15 & _) & (K23 & K24 & K25 & _) &
                     (K34 & K35 & _) & (K45 & _) & _).
  repeat split.
  - rewrite !lookup_record_ne, lookup_record_eq by done.
    by destruct (setting _ _ _).
  - rewrite !lookup_record_ne, lookup_record_eq, lookup_record_ne by done.
    by destruct (setting _ _ _).
  - rewrite !lookup_record_ne, lookup_record_eq, !lookup_record_ne by done.
    by destruct (setting _ _ _).
  - rewrite lookup_record_ne, lookup_record_eq, !lookup_record_ne by done.
    by destruct (setting _ _ _).
  - rewrite lookup_record_eq, !lookup_record_ne by done.
    by destruct (setting _ _ _).
  - intros k Hk.
    rewrite !lookup_record_ne by (intros Heq; apply Hk; rewrite <- Heq; cbn; tauto).
    apply lookup_empty.
Qed.

End RoundTripProvision.

(** *** The properties on the sample cluster *)

Lemma sample_keeps_pod : PlacementKeepsPod Sample.osdExternals.
Proof. intros p s. repeat split. Qed.

Lemma bare_keeps_pod : PlacementKeepsPod Sample.bareExternals.
Proof. intros p s. repeat split. Qed.

Lemma sample_apart : ExternalsApart Sample.osdExternals.
Proof.
  unfold ExternalsApart.
  repeat match goal with |- _ /\ _ => split end;
    try match goal with |- forall _ : string, _ => intros a end;
    try (unfold Foreign, configEnvNames; cbn; intros Hin;
         decompose [or] Hin; discriminate || contradiction).
  repeat (apply NoDup_cons_2;
          [rewrite ?not_elem_of_cons; repeat split;
           try discriminate; apply not_elem_of_nil|]).
  apply NoDup_nil_2.
Qed.

(** A filestore OSD on a device is started through the staged [tini]. *)
Lemma makeDeployment_staging_witness :
  exists d initc daemon,
    makeDeployment Sample.osdExternals Sample.cluster "node1" []
      Sample.noSelection Sample.noResources Sample.bluestore "" ""
      Sample.deviceFilestoreOSD = Ok d /\
    Containers (tpl_Spec (Template d)) = [daemon] /\
    InitContainers (tpl_Spec (Template d)) =
      [initc; snd (getCopyBinariesContainer Sample.osdExternals Sample.cluster)] /\
    Command daemon = ["/rook/tini"].
Proof.
  destruct (makeDeployment Sample.osdExternals Sample.cluster "node1" []
              Sample.noSelection Sample.noResources Sample.bluestore "" ""
              Sample.deviceFilestoreOSD) as [d|e] eqn:Hd;
    [|vm_compute in Hd; discriminate].
  destruct (makeDeployment_staging Sample.osdExternals Sample.cluster "node1" []
              Sample.noSelection Sample.noResources Sample.bluestore "" ""
              Sample.deviceFilestoreOSD d sample_keeps_pod Hd)
    as (initc & daemon & Hc & [(_ & Hi & _ & _ & _ & _ & _ & Hcmd & _) | (Hno & _)]).
  - exists d, initc, daemon. repeat split; assumption.
  - exfalso. apply Hno. split; reflexivity.
Defined.

(** A directory OSD below [/mnt/data] gets the host directory mounted. *)
Lemma makeDeployment_directory_mount_witness :
  exists d initc daemon,
    makeDeployment Sample.osdExternals Sample.cluster "node1" []
      Sample.noSelection Sample.noResources Sample.bluestore "" ""
      Sample.directoryOSD = Ok d /\
    InitContainers (tpl_Spec (Template d)) = [initc] /\
    Containers (tpl_Spec (Template d)) = [daemon] /\
    VolumeMounts daemon =
      CephVolumeMounts Sample.osdExternals ++
      [ {| mnt_Name := "vol/mnt/data"; mnt_MountPath := "/mnt/data" |} ].
Proof.
  destruct (makeDeployment Sample.osdExternals Sample.cluster "node1" []
              Sample.noSelection Sample.noResources Sample.bluestore "" ""
              Sample.directoryOSD) as [d|e] eqn:Hd;
    [|vm_compute in Hd; discriminate].
  destruct (makeDeployment_directory_mount Sample.osdExternals Sample.cluster
              "node1" [] Sample.noSelection Sample.noResources Sample.bluestore
              "" "" Sample.directoryOSD d sample_keeps_pod eq_refl Hd)
    as (initc & daemon & Hi & Hc & _ & Hother).
  exists d, initc, daemon. repeat split; try assumption.
  apply Hother. vm_compute. discriminate.
Defined.

(** With no base volumes a directory OSD below the default data directory
    is refused. *)
Lemma empty_volumes_error_witness :
  makeDeployment Sample.bareExternals Sample.cluster "node1" []
    Sample.noSelection Sample.noResources Sample.bluestore "" ""
    Sample.defaultDirectoryOSD = Err (Errorf "empty volumes").
Proof.
  destruct (makeDeployment Sample.bareExternals Sample.cluster "node1" []
              Sample.noSelection Sample.noResources Sample.bluestore "" ""
              Sample.defaultDirectoryOSD) as [d|e] eqn:Hd;
    [vm_compute in Hd; discriminate|].
  f_equal.
  exact (proj2 (proj2 (empty_volumes_error Sample.bareExternals Sample.cluster
                         "node1" [] Sample.noSelection Sample.noResources
                         Sample.bluestore "" "" "OnFailure"
                         Sample.defaultDirectoryOSD)) e Hd).
Defined.

(** Against C4 as the specification states it: with nothing selected at
    all, and even with no base volumes, the pod template of the provision
    job is built and no "empty volumes" error is returned. *)
Lemma empty_volumes_counterexample :
  noMediumResolved [] Sample.noSelection "" /\
  isErr (provisionPodTemplateSpec Sample.bareExternals Sample.cluster []
           Sample.noSelection Sample.noResources Sample.noStoreConfig
           "" "node1" "" "OnFailure") = false /\
  podVolumesOf (provisionPodTemplateSpec Sample.bareExternals Sample.cluster []
                  Sample.noSelection Sample.noResources Sample.noStoreConfig
                  "" "node1" "" "OnFailure") = [stagingVolume].
Proof. repeat split. Qed.



(** A bluestore configuration with a metadata device is read back. *)
Lemma config_round_trip_witness :
  let cfg :=
    getConfigFromContainer Sample.osdExternals
      (provisionOSDContainer Sample.osdExternals Sample.cluster Sample.sda
         Sample.noSelection Sample.noResources Sample.bluestore "nvme0n1"
         "node1" "" stagingMount) in
  cfg !! "storeType" = Some "bluestore" /\
  cfg !! "databaseSizeMB" = Some "20480" /\
  cfg !! "walSizeMB" = Some "576" /\
  cfg !! "journalSizeMB" = None /\
  cfg !! "metadataDevice" = Some "nvme0n1".
Proof.
  destruct (config_round_trip Sample.osdExternals Sample.cluster sample_apart
              Sample.sda Sample.noSelection Sample.noResources Sample.bluestore
              "nvme0n1" "node1" "" stagingMount)
    as (H1 & H2 & H3 & H4 & H5 & _).
  repeat split; assumption.
Defined.

End OSDFacts.

(** ** The NFS-Ganesha controller *)

Module NFSFacts.
Import Go V1 Rookalpha NFS NFSSpec.

Lemma append_inj_r (prefix a b : string) :
  prefix +:+ a = prefix +:+ b -> a = b.
Proof.
  induction prefix as [|ch prefix IH]; cbn; intros Heq; [exact Heq|].
  injection Heq as Heq. by apply IH.
Qed.

Lemma instanceName_inj (n : NFSGanesha) (a b : string) :
  instanceName n a = instanceName n b -> a = b.
Proof.
  unfold instanceName. intros Heq.
  by do 4 apply append_inj_r in Heq.
Qed.

Lemma ordinalsBelow_bounds (count i : Z) :
  In i (ordinalsBelow count) <-> 0 <= i < count.
Proof.
  unfold ordinalsBelow. rewrite in_map_iff. split.
  - intros (k & <- & Hk). apply in_seq in Hk. lia.
  - intros Hi. exists (Z.to_nat i). split; [lia|]. apply in_seq. lia.
Qed.

Lemma ordinalsBelow_split (count i : Z) :
  0 <= i < count ->
  exists rest, ordinalsBelow count = ordinalsBelow i ++ i :: rest.
Proof.
  intros Hi. unfold ordinalsBelow.
  replace (Z.to_nat count)
    with (Z.to_nat i + S (Z.to_nat count - S (Z.to_nat i)))%nat by lia.
  rewrite seq_app, map_app. cbn [seq map Nat.add].
  rewrite Z2Nat.id by lia. eexists. reflexivity.
Qed.

(** In the calls of a deletion pass, the three calls of a server come
    together, and nothing before them deletes that server's objects. *)
Lemma deleteBlocks_order (n : NFSGanesha) (count i : Z) :
  0 <= i < count ->
  exists before after,
    flat_map (deleteBlock n) (ordinalsBelow count) =
      before ++ deleteBlock n i ++ after /\
    (forall ns, ~ In (DeleteDeployment ns (instanceName n (K8sutil.IndexToName i)))
                    before) /\
    (forall ns, ~ In (DeleteService ns (instanceName n (K8sutil.IndexToName i)))
                    before).
Proof.
  intros Hi. destruct (ordinalsBelow_split count i Hi) as (rest & ->).
  exists (flat_map (deleteBlock n) (ordinalsBelow i)),
         (flat_map (deleteBlock n) rest).
  split.
  { rewrite flat_map_app. reflexivity. }
  split; intros ns Hin; apply in_flat_map in Hin as (j & Hj & Hin);
    apply ordinalsBelow_bounds in Hj;
    unfold deleteBlock in Hin; cbn [In] in Hin;
    destruct Hin as [Hin|[Hin|[Hin|[]]]]; try discriminate;
    assert (Hname : instanceName n (K8sutil.IndexToName j) =
                    instanceName n (K8sutil.IndexToName i)) by congruence;
    apply instanceName_inj, K8sutilFacts.IndexToName_inj in Hname; lia.
Qed.

Section Controller.
Variable X : Externals.
Variable World : Type.
Variable perform : Call -> World -> Reply * World.

Local Abbreviation State := (NFS.State World).

(** Names the answer and the next state of the first pending call. *)
Ltac answer_call r w E :=
  match goal with
  | |- context [perform ?request ?state] =>
      destruct (perform request state) as [r w] eqn:E; cbn [fst snd]
  end.

(** What one turn of the deletion loop does: it never fails, it makes the
    three calls of its server in order, and it warns about a failed removal
    and about a failed service deletion other than "not found". *)
Lemma deleteGaneshaServer_run (n : NFSGanesha) (i : Z) (st : State) :
  let name := K8sutil.IndexToName i in
  let r := deleteGaneshaServer World perform n i st in
  exists r1 r2 r3 lg,
    r.1 = None /\
    trace r.2 = trace st ++
      [ (graceCall n "remove" name, r1);
        (DeleteDeployment (Namespace n) (instanceName n name), r2);
        (DeleteService (Namespace n) (instanceName n name), r3) ] /\
    log r.2 = log st ++ lg /\
    (forall e, reply_err r1 = Some e -> In (removeWarning name e) lg) /\
    (forall msg, In (Warningf msg) lg ->
       (exists e, reply_err r1 = Some e /\ Warningf msg = removeWarning name e) \/
       (exists e, reply_err r3 = Some e /\ IsNotFound e = false /\
                  Warningf msg = deleteServiceWarning e)).
Proof.
  intros name r. subst r.
  unfold deleteGaneshaServer, removeServerFromDatabase, bind, call, logf, ret.
  cbn [world trace log]. fold name. fold (graceCall n "remove" name).
  answer_call r1 w1 E1.
  destruct (reply_err r1) as [e1|] eqn:He1; cbn [world trace log fst snd];
    answer_call r2 w2 E2; cbn [world trace log fst snd];
    answer_call r3 w3 E3;
    (destruct (reply_err r3) as [e3|] eqn:He3;
     [destruct (IsNotFound e3) eqn:Hnf|]); cbn [negb world trace log fst snd];
    exists r1, r2, r3; eexists;
    (split; [reflexivity|]);
    (split; [rewrite <- !app_assoc; reflexivity|]);
    (split; [rewrite <- ?app_assoc; reflexivity|]);
    rewrite ?He1, ?He3; unfold removeWarning, deleteServiceWarning;
    (split; [intros e He; try discriminate; injection He as <-; cbn [In app]; auto|]);
    intros msg Hin; cbn [In app] in Hin.
  all: repeat (destruct Hin as [Hin|Hin]; try discriminate); try contradiction.
  all: try (left; eexists; split; [reflexivity|]; symmetry; exact Hin).
  all: right; eexists; split; [reflexivity|]; split; [exact Hnf|];
       symmetry; exact Hin.
Qed.

Lemma drop_old {A} (old new : list A) : drop (length old) (old ++ new) = new.
Proof. induction old as [|a old IH]; [reflexivity | exact IH]. Qed.

Lemma forOrdinals_cons_ok (body : Z -> M World (option GoError)) (i : Z)
    (rest : list Z) (st st1 : State) :
  body i st = (None, st1) ->
  forOrdinals World (i :: rest) body st = forOrdinals World rest body st1.
Proof. intros Hbody. cbn [forOrdinals]. unfold bind. by rewrite Hbody. Qed.

Lemma forOrdinals_cons_err (body : Z -> M World (option GoError)) (i : Z)
    (rest : list Z) (st st1 : State) (err : GoError) :
  body i st = (Some err, st1) ->
  forOrdinals World (i :: rest) body st = (Some err, st1).
Proof. intros Hbody. cbn [forOrdinals]. unfold bind. by rewrite Hbody. Qed.

(** What the deletion loop does over any list of ordinals. *)
Lemma deleteGanesha_loop (n : NFSGanesha) (ordinals : list Z) :
  forall st : State,
  let r := forOrdinals World ordinals (deleteGaneshaServer World perform n) st in
  exists evs lg,
    r.1 = None /\
    trace r.2 = trace st ++ evs /\
    log r.2 = log st ++ lg /\
    map fst evs = flat_map (deleteBlock n) ordinals /\
    (forall name reply e,
       In (graceCall n "remove" name, reply) evs -> reply_err reply = Some e ->
       In (removeWarning name e) lg) /\
    (forall msg, In (Warningf msg) lg ->
       (exists name reply e,
          In (graceCall n "remove" name, reply) evs /\ reply_err reply = Some e /\
          Warningf msg = removeWarning name e) \/
       (exists ns name reply e,
          In (DeleteService ns name, reply) evs /\ reply_err reply = Some e /\
          IsNotFound e = false /\ Warningf msg = deleteServiceWarning e)).
Proof.
  induction ordinals as [|i rest IH]; intros st r; subst r.
  { exists [], []. cbn. rewrite !app_nil_r. by repeat split. }
  destruct (deleteGaneshaServer_run n i st)
    as (r1 & r2 & r3 & lg1 & Hres & Htr & Hlog & Hwarn & Honly).
  destruct (deleteGaneshaServer World perform n i st) as [res st1] eqn:Hstep.
  cbn [fst snd] in *. subst res.
  rewrite (forOrdinals_cons_ok _ _ _ _ _ Hstep).
  destruct (IH st1) as (evs & lg & Hres' & Htr' & Hlog' & Hcalls & Hwarn' & Honly').
  eexists (_ ++ evs), (lg1 ++ lg).
  split; [exact Hres'|].
  split; [rewrite Htr', Htr, <- app_assoc; reflexivity|].
  split; [rewrite Hlog', Hlog, <- app_assoc; reflexivity|].
  split; [rewrite map_app, Hcalls; reflexivity|].
  split.
  - intros name reply e Hin He. apply in_app_or in Hin as [Hin|Hin].
    + apply in_or_app. left. cbn [In] in Hin.
      destruct Hin as [Hin|[Hin|[Hin|[]]]]; try discriminate.
      injection Hin as <- <-. by apply Hwarn.
    + apply in_or_app. right. by apply (Hwarn' name reply).
  - intros msg Hin. apply in_app_or in Hin as [Hin|Hin].
    + destruct (Honly msg Hin) as [(e & He & Hmsg)|(e & He & Hnf & Hmsg)].
      * left. eexists _, r1, e. split; [|by split].
        apply in_or_app. left. left. reflexivity.
      * right. eexists _, _, r3, e. split; [|by repeat split].
        apply in_or_app. left. right. right. left. reflexivity.
    + destruct (Honly' msg Hin)
        as [(name & reply & e & Hev & He & Hmsg)
           |(ns & name & reply & e & Hev & He & Hnf & Hmsg)].
      * left. exists name, reply, e. split; [|by split].
        apply in_or_app. by right.
      * right. exists ns, name, reply, e. split; [|by repeat split].
        apply in_or_app. by right.
Qed.

(** C6: in the deletion pass the calls are, server after server, the
    removal from the grace database, then the deletion of the deployment,
    then the deletion of the service, so that no object of a server is
    deleted before its removal was asked for.  The pass returns no error
    whatever the deletions answer, and a service deletion answered "not
    found" leaves no warning: a warning is only written for a failed removal
    or for a service deletion that failed otherwise. *)
Theorem deleteGanesha_removes_first (n : NFSGanesha) (st : State) :
  let r := deleteGanesha World perform n st in
  let made := map fst (newEvents st r.2) in
  r.1 = None /\
  made = flat_map (deleteBlock n) (ordinalsBelow (Active (Server (Spec n)))) /\
  (forall i, 0 <= i < Active (Server (Spec n)) ->
     exists before after,
       made = before ++ deleteBlock n i ++ after /\
       (forall ns, ~ In (DeleteDeployment ns (instanceName n (K8sutil.IndexToName i)))
                       before) /\
       (forall ns, ~ In (DeleteService ns (instanceName n (K8sutil.IndexToName i)))
                       before)) /\
  (forall msg, In (Warningf msg) (newLog st r.2) ->
     (exists name reply e,
        In (graceCall n "remove" name, reply) (newEvents st r.2) /\
        reply_err reply = Some e /\ Warningf msg = removeWarning name e) \/
     (exists ns name reply e,
        In (DeleteService ns name, reply) (newEvents st r.2) /\
        reply_err reply = Some e /\ IsNotFound e = false /\
        Warningf msg = deleteServiceWarning e)).
Proof.
  intros r made. subst r made. unfold deleteGanesha, newEvents, newLog.
  destruct (deleteGanesha_loop n (ordinalsBelow (Active (Server (Spec n)))) st)
    as (evs & lg & Hres & -> & -> & Hcalls & _ & Honly).
  rewrite !drop_old. split; [exact Hres|]. split; [exact Hcalls|].
  split; [|exact Honly].
  intros i Hi. rewrite Hcalls. by apply deleteBlocks_order.
Qed.

(** C8: when the server count is zero or one of the required identifiers
    is missing, [createGanesha] returns the error of [validateGanesha] and
    leaves the state as it was: no call was made and nothing was logged. *)
Theorem createGanesha_validates_first (c : GaneshaController) (n : NFSGanesha)
    (st : State) :
  missingIdentifier n ->
  exists err,
    validateGanesha n = Some err /\
    createGanesha X World perform c n st = (Some err, st).
Proof.
  intros Hmissing.
  assert (Hinvalid : exists err, validateGanesha n = Some err).
  { unfold validateGanesha. repeat case_decide; eauto.
    destruct (validateExports 0 (Exports (Spec n))); eauto.
    exfalso. unfold missingIdentifier in Hmissing.
    destruct Hmissing as [Hm|[Hm|[Hm|[Hm|[Hm|[Hm|Hm]]]]]]; try contradiction.
    rewrite Hm in *. contradiction. }
  destruct Hinvalid as (err & Herr). exists err. split; [exact Herr|].
  unfold createGanesha. rewrite Herr. reflexivity.
Qed.

(** C9: when the creation of a server's config map is answered "already
    exists", [generateConfig] issues an update with the same config map and,
    when the update succeeds, returns the config map's name.  It returns an
    error only for a creation that failed otherwise or for a failed update,
    and a name it returns is the config map's. *)
Theorem generateConfig_updates_existing (n : NFSGanesha) (name : string)
    (st : State) :
  let configMap := configMapOf X n name in
  let created := perform (CreateConfigMap (Namespace n) configMap) (world st) in
  let updated := perform (UpdateConfigMap (Namespace n) configMap) created.2 in
  let r := generateConfig X World perform n name st in
  (forall err,
     reply_err created.1 = Some err -> IsAlreadyExists err = true ->
     map fst (newEvents st r.2) =
       [ CreateConfigMap (Namespace n) configMap;
         UpdateConfigMap (Namespace n) configMap ] /\
     world r.2 = updated.2 /\
     (reply_err updated.1 = None -> r.1 = Ok (instanceName n name)) /\
     (forall err', reply_err updated.1 = Some err' ->
        r.1 = Err (Errorf_v "failed to update ganesha config. " err'))) /\
  (forall e, r.1 = Err e ->
     (exists err,
        reply_err created.1 = Some err /\ IsAlreadyExists err = false /\
        e = Errorf_v "failed to create ganesha config. " err) \/
     (exists err err',
        reply_err created.1 = Some err /\ IsAlreadyExists err = true /\
        reply_err updated.1 = Some err' /\
        e = Errorf_v "failed to update ganesha config. " err')) /\
  (forall s, r.1 = Ok s ->
     s = meta_Name (cm_Meta configMap) /\ s = instanceName n name).
Proof.
  intros configMap created updated r. subst r updated created.
  unfold generateConfig, bind, call, ret, newEvents. fold configMap.
  destruct (perform (CreateConfigMap (Namespace n) configMap) (world st))
    as [r1 w1]. cbn [fst snd world trace log].
  destruct (reply_err r1) as [err|] eqn:He1;
    [destruct (IsAlreadyExists err) eqn:Hae|]; cbn [fst snd world trace log].
  - destruct (perform (UpdateConfigMap (Namespace n) configMap) w1) as [r2 w2].
    cbn [fst snd world trace log].
    destruct (reply_err r2) as [err'|] eqn:He2; cbn [fst snd world trace log];
      rewrite <- app_assoc, drop_old; (split; [|split]).
    + intros ? [= <-] _. repeat split; try done. by intros ? [= <-].
    + intros e [= <-]. right. by exists err, err'.
    + intros s Hs. discriminate.
    + intros ? [= <-] _. repeat split; try done.
    + intros e He. discriminate.
    + intros s [= <-]. by split.
  - rewrite drop_old. split; [|split].
    + intros ? [= <-] Hae'. congruence.
    + intros e [= <-]. left. by exists err.
    + intros s Hs. discriminate.
  - rewrite drop_old. split; [|split].
    + intros ? Herr. discriminate.
    + intros e He. discriminate.
    + intros s [= <-]. by split.
Qed.

(** Refutes a failed creation or update in a benign cluster. *)
Ltac benign_contra HB :=
  match goal with
  | E : perform ?request ?w = (?r, _), He : reply_err ?r = Some ?e |- _ =>
      let Hb := fresh "Hb" in
      pose proof (HB request w) as Hb; rewrite E in Hb; cbn [fst] in Hb;
      first [ specialize (Hb _ He); congruence | congruence ]
  end.

(** What one turn of the creation loop does.  Once the grace tool has been
    run for the server the turn returns no error, and warns if the tool
    failed; in a benign cluster the turn always gets that far. *)
Lemma createGaneshaServer_run (c : GaneshaController) (n : NFSGanesha) (i : Z)
    (st : State) :
  let name := K8sutil.IndexToName i in
  let r := createGaneshaServer X World perform c n i st in
  exists evs lg,
    trace r.2 = trace st ++ evs /\
    log r.2 = log st ++ lg /\
    (forall name' reply,
       In (graceCall n "add" name', reply) evs ->
       r.1 = None /\
       forall e, reply_err reply = Some e -> In (addWarning name' e) lg) /\
    (Benign perform -> r.1 = None /\ incl (createBlock X c n i) (map fst evs)).
Proof.
  intros name r. subst r.
  unfold createGaneshaServer, generateConfig, createGaneshaService,
    addServerToDatabase, bind, call, logf, ret, createBlock.
  fold name. fold (graceCall n "add" name).
  cbn [fst snd world trace log].
  answer_call r1 w1 E1. cbn [fst snd world trace log].
  destruct (reply_err r1) as [e1|] eqn:He1;
    [destruct (IsAlreadyExists e1) eqn:Hae1;
     [answer_call r1' w1' E1'; cbn [fst snd world trace log];
      destruct (reply_err r1') as [e1'|] eqn:He1'|]|];
    cbn [negb fst snd world trace log].
  all: try (answer_call r2 w2 E2; cbn [fst snd world trace log];
            (destruct (reply_err r2) as [e2|] eqn:He2;
             [destruct (IsAlreadyExists e2) eqn:Hae2|]);
            cbn [negb fst snd world trace log]).
  all: try (answer_call r3 w3 E3; cbn [fst snd world trace log];
            (destruct (reply_err r3) as [e3|] eqn:He3;
             [destruct (IsAlreadyExists e3) eqn:Hae3|]);
            cbn [negb fst snd world trace log]).
  all: try (answer_call r4 w4 E4; cbn [fst snd world trace log];
            destruct (reply_err r4) as [e4|] eqn:He4;
            cbn [negb fst snd world trace log]).
  all: eexists _, _;
       (split; [rewrite <- ?app_assoc; reflexivity|]);
       (split; [rewrite <- ?app_assoc;
                first [reflexivity | symmetry; apply app_nil_r]|]);
       split.
  all: try (intros name' reply Hin; unfold graceCall in Hin; cbn [In app] in Hin;
            repeat (destruct Hin as [Hin|Hin]; try discriminate);
            try contradiction;
            injection Hin as <- <-; (split; [reflexivity|]);
            intros e He; rewrite He in *;
            try discriminate;
            match goal with H : Some _ = Some _ |- _ => injection H as <- end;
            unfold addWarning; cbn [In app]; auto 10).
  all: intros HB; try benign_contra HB.
  all: split; [reflexivity|];
       repeat (apply incl_cons; [cbn [map fst In app]; auto 10|]);
       apply incl_nil_l.
Qed.

(** What the creation loop does in a benign cluster over any list of
    ordinals: it reaches the end, having made the calls of every server, and
    every failed run of the grace tool has left a warning. *)
Lemma createGanesha_loop (c : GaneshaController) (n : NFSGanesha)
    (ordinals : list Z) :
  Benign perform ->
  forall st : State,
  let r := forOrdinals World ordinals (createGaneshaServer X World perform c n) st in
  exists evs lg,
    r.1 = None /\
    trace r.2 = trace st ++ evs /\
    log r.2 = log st ++ lg /\
    (forall i, In i ordinals -> incl (createBlock X c n i) (map fst evs)) /\
    (forall name reply e,
       In (graceCall n "add" name, reply) evs -> reply_err reply = Some e ->
       In (addWarning name e) lg).
Proof.
  intros HB. induction ordinals as [|i rest IH]; intros st r; subst r.
  { exists [], []. cbn. rewrite !app_nil_r. by repeat split. }
  destruct (createGaneshaServer_run c n i st)
    as (evs1 & lg1 & Htr & Hlog & Hadd & Hok).
  destruct (Hok HB) as (Hres & Hblock).
  destruct (createGaneshaServer X World perform c n i st) as [res st1] eqn:Hstep.
  cbn [fst snd] in *. subst res.
  rewrite (forOrdinals_cons_ok _ _ _ _ _ Hstep).
  destruct (IH st1) as (evs & lg & Hres' & Htr' & Hlog' & Hblocks & Hwarn).
  exists (evs1 ++ evs), (lg1 ++ lg).
  split; [exact Hres'|].
  split; [rewrite Htr', Htr, <- app_assoc; reflexivity|].
  split; [rewrite Hlog', Hlog, <- app_assoc; reflexivity|].
  split.
  - intros j [<-|Hj]; rewrite map_app.
    + by apply incl_appl.
    + by apply incl_appr, Hblocks.
  - intros name' reply e Hin He. apply in_or_app.
    apply in_app_or in Hin as [Hin|Hin].
    + left. by apply (Hadd name' reply Hin).
    + right. by apply (Hwarn name' reply).
Qed.

(** C7: a failure of the grace tool never stops a pass.  The deletion pass
    returns no error and makes the calls of every ordinal whatever the tool
    answers, and each failed removal has left a warning.  A turn of the
    creation loop that has run the tool returns no error, and has left a
    warning if the tool failed.  In a cluster where the creations and updates
    themselves do not fail, the creation pass of a valid specification
    returns no error and makes the calls of every ordinal, whatever the tool
    answers, with a warning for each of its failures. *)
Theorem grace_failure_never_aborts (c : GaneshaController) (n : NFSGanesha)
    (st : State) :
  (let r := deleteGanesha World perform n st in
   r.1 = None /\
   map fst (newEvents st r.2) =
     flat_map (deleteBlock n) (ordinalsBelow (Active (Server (Spec n)))) /\
   forall name reply e,
     In (graceCall n "remove" name, reply) (newEvents st r.2) ->
     reply_err reply = Some e ->
     In (removeWarning name e) (newLog st r.2)) /\
  (forall i,
     let r := createGaneshaServer X World perform c n i st in
     forall name reply,
       In (graceCall n "add" name, reply) (newEvents st r.2) ->
       r.1 = None /\
       forall e, reply_err reply = Some e -> In (addWarning name e) (newLog st r.2)) /\
  (Benign perform -> validateGanesha n = None ->
   let r := createGanesha X World perform c n st in
   r.1 = None /\
   (forall i, 0 <= i < Active (Server (Spec n)) ->
      incl (createBlock X c n i) (map fst (newEvents st r.2))) /\
   forall name reply e,
     In (graceCall n "add" name, reply) (newEvents st r.2) ->
     reply_err reply = Some e ->
     In (addWarning name e) (newLog st r.2)).
Proof.
  split; [|split].
  - intros r. subst r. unfold deleteGanesha, newEvents, newLog.
    destruct (deleteGanesha_loop n (ordinalsBelow (Active (Server (Spec n)))) st)
      as (evs & lg & Hres & -> & -> & Hcalls & Hwarn & _).
    rewrite !drop_old. by repeat split.
  - intros i r. subst r. unfold newEvents, newLog.
    destruct (createGaneshaServer_run c n i st)
      as (evs & lg & -> & -> & Hadd & _).
    rewrite !drop_old. exact Hadd.
  - intros HB Hvalid.
    assert (Hrun :
      createGanesha X World perform c n st =
      forOrdinals World (ordinalsBelow (Active (Server (Spec n))))
        (createGaneshaServer X World perform c n)
        {| world := world st; trace := trace st;
           log := log st ++ [Infof ("start running ganesha " +:+ Name n)] |}).
    { unfold createGanesha. by rewrite Hvalid. }
    rewrite Hrun. clear Hrun. cbn zeta. unfold newEvents, newLog.
    destruct (createGanesha_loop c n (ordinalsBelow (Active (Server (Spec n)))) HB
                {| world := world st; trace := trace st;
                   log := log st ++ [Infof ("start running ganesha " +:+ Name n)] |})
      as (evs & lg & Hres & Htr & Hlog & Hblocks & Hwarn).
    cbn [trace log] in Htr, Hlog. rewrite Htr, Hlog.
    rewrite <- app_assoc, !drop_old.
    split; [exact Hres|]. split.
    + intros i Hi. by apply Hblocks, ordinalsBelow_bounds.
    + intros name reply e Hin He. right. by apply (Hwarn name reply).
Qed.

End Controller.

(** *** The properties on the sample cluster *)

Lemma sample_benign : Benign Sample.answer.
Proof.
  intros request w. destruct request; try exact I; cbn.
  - case_bool_decide; cbn; [by intros ? [= <-] | discriminate].
  - reflexivity.
  - case_bool_decide; cbn; [by intros ? [= <-] | discriminate].
  - case_bool_decide; cbn; [by intros ? [= <-] | discriminate].
Qed.

(** Scaling down from three servers: "b" is removed from the grace
    database before its deployment and service are deleted. *)
Lemma deleteGanesha_removes_first_witness :
  exists before after,
    map fst (newEvents (Sample.start Sample.afterFirstPass)
               (deleteGanesha Sample.Objects Sample.answer (Sample.ganesha 3)
                  (Sample.start Sample.afterFirstPass)).2) =
      before ++ deleteBlock (Sample.ganesha 3) 1 ++ after /\
    (forall ns, ~ In (DeleteDeployment ns "rook-ceph-ganesha-my-nfs-b") before) /\
    (forall ns, ~ In (DeleteService ns "rook-ceph-ganesha-my-nfs-b") before).
Proof.
  apply (proj1 (proj2 (proj2
           (deleteGanesha_removes_first Sample.Objects Sample.answer
              (Sample.ganesha 3) (Sample.start Sample.afterFirstPass))))).
  cbn. lia.
Defined.

(** Server "a" is a member already: adding it fails, a warning is logged,
    and the pass goes on to create server "b" and returns no error. *)
Lemma grace_failure_never_aborts_witness :
  let r := createGanesha Sample.nfsExternals Sample.Objects Sample.answer
             Sample.controller (Sample.ganesha 2)
             (Sample.start Sample.afterFirstPass) in
  r.1 = None /\
  incl (createBlock Sample.nfsExternals Sample.controller (Sample.ganesha 2) 1)
       (map fst (trace r.2)) /\
  In (addWarning "a" {| Error := "exit status 1"; Reason := Unknown |}) (log r.2).
Proof.
  destruct (proj2 (proj2
              (grace_failure_never_aborts Sample.nfsExternals Sample.Objects
                 Sample.answer Sample.controller (Sample.ganesha 2)
                 (Sample.start Sample.afterFirstPass)))
              sample_benign eq_refl) as (Hres & Hblocks & Hwarn).
  split; [exact Hres|]. split.
  - apply (Hblocks 1). cbn. lia.
  - apply (Hwarn "a" (Sample.failed "exit status 1" Unknown)); [|reflexivity].
    vm_compute. repeat (first [left; reflexivity | right]).
Defined.

(** No active server: the validation error comes back and the state is
    untouched. *)
Lemma createGanesha_validates_first_witness :
  exists err,
    validateGanesha (Sample.ganesha 0) = Some err /\
    createGanesha Sample.nfsExternals Sample.Objects Sample.answer
      Sample.controller (Sample.ganesha 0) (Sample.start Sample.emptyNamespace)
    = (Some err, Sample.start Sample.emptyNamespace).
Proof.
  apply createGanesha_validates_first. left. reflexivity.
Defined.

(** The config map of server "a" exists: it is updated and its name
    returned. *)
Lemma generateConfig_updates_existing_witness :
  let r := generateConfig Sample.nfsExternals Sample.Objects Sample.answer
             (Sample.ganesha 2) "a" (Sample.start Sample.afterFirstPass) in
  map fst (newEvents (Sample.start Sample.afterFirstPass) r.2) =
    [ CreateConfigMap "rook-ceph"
        (configMapOf Sample.nfsExternals (Sample.ganesha 2) "a");
      UpdateConfigMap "rook-ceph"
        (configMapOf Sample.nfsExternals (Sample.ganesha 2) "a") ] /\
  r.1 = Ok "rook-ceph-ganesha-my-nfs-a".
Proof.
  destruct (proj1 (generateConfig_updates_existing Sample.nfsExternals
                     Sample.Objects Sample.answer (Sample.ganesha 2) "a"
                     (Sample.start Sample.afterFirstPass))
              {| Error := "configmaps rook-ceph-ganesha-my-nfs-a already exists";
                 Reason := AlreadyExists |} eq_refl eq_refl)
    as (Hcalls & _ & Hok & _).
  split; [exact Hcalls|]. exact (Hok eq_refl).
Defined.

End NFSFacts.

(** ** More on the OSD pod specs: the provision job, mounts and volumes,
    privileges, and what is read back from a container *)

Module OSDMoreFacts.
Import Go V1 Rookalpha OSD OSDSpec.

Lemma Backed_app (m1 m2 : list VolumeMount) (volumes : list Volume) :
  Backed m1 volumes -> Backed m2 volumes -> Backed (m1 ++ m2) volumes.
Proof.
  intros H1 H2 m Hin. apply in_app_or in Hin as [Hin|Hin]; auto.
Qed.

Lemma Backed_incl (mounts : list VolumeMount) (v v' : list Volume) :
  incl v v' -> Backed mounts v -> Backed mounts v'.
Proof.
  intros Hincl H m Hin. destruct (H m Hin) as (vol & Hv & Hname).
  exists vol. split; [by apply Hincl | exact Hname].
Qed.

(** Proves that a list is included in an append that has it as a part. *)
Ltac part_of_app :=
  let x := fresh "x" in
  let Hx := fresh "Hx" in
  intros x Hx; rewrite ?in_app_iff in *; tauto.

Lemma Backed_nil (volumes : list Volume) : Backed [] volumes.
Proof. intros m []. Qed.

Lemma Backed_staging : Backed [stagingMount] [stagingVolume].
Proof.
  intros m [<-|[]]. exists stagingVolume. split; [by left | reflexivity].
Qed.

Lemma Backed_devices : Backed deviceMounts deviceVolumes.
Proof.
  intros m [<-|[<-|[]]].
  - exists {| vol_Name := "devices"; vol_Source := HostPath "/dev" |}.
    split; [by left | reflexivity].
  - exists {| vol_Name := "udev"; vol_Source := HostPath "/run/udev" |}.
    split; [right; by left | reflexivity].
Qed.

Lemma Backed_directories (X : Externals) (dirs : list Directory) :
  Backed (map (directoryMount X) dirs) (map (directoryVolume X) dirs).
Proof.
  intros m Hin. apply in_map_iff in Hin as (d & <- & Hd).
  exists (directoryVolume X d). split; [by apply in_map | reflexivity].
Qed.

Section ProvisionJob.
Variable X : Externals.
Variable J : JobExternals.
Variable c : Cluster.
Variables (devices : list Device) (selection : Selection).
Variables (resources : ResourceRequirements) (storeConfig : StoreConfig).
Variables (metadataDevice nodeName location : string).


(** X2: when the base mounts are backed by the base volumes, every mount
    of every container of the provision pod names a volume of the pod. *)
Theorem provision_mounts_backed (restart : string) (t : PodTemplateSpec) :
  PlacementKeepsPod X ->
  Backed (CephVolumeMounts X) (PodVolumes X (dataDirHostPath c)) ->
  provisionPodTemplateSpec X c devices selection resources storeConfig
    metadataDevice nodeName location restart = Ok t ->
  forall ctr, In ctr (Containers (tpl_Spec t)) ->
    Backed (VolumeMounts ctr) (Volumes (tpl_Spec t)).
Proof.
  intros Hkeep Hbase Hbuild ctr Hctr.
  destruct (OSDFacts.provisionPodTemplateSpec_ok X c devices resources
              storeConfig metadataDevice nodeName location selection restart)
    as (t' & Hbuild' & Hspec).
  rewrite Hbuild in Hbuild'. injection Hbuild' as <-.
  rewrite Hspec in Hctr |- *.
  match type of Hctr with
  | context [ApplyToPodSpec X ?p ?s] =>
      destruct (Hkeep p s) as (_ & Hc & Hv)
  end.
  rewrite Hc in Hctr. rewrite Hv. cbn [Containers Volumes] in *.
  destruct Hctr as [<-|[<-|[]]].
  - cbn [getCopyBinariesContainer snd VolumeMounts].
    apply (Backed_incl _ [stagingVolume]); [part_of_app | apply Backed_staging].
  - rewrite OSDFacts.provisionOSDContainer_mounts.
    repeat apply Backed_app.
    + apply (Backed_incl _ (PodVolumes X (dataDirHostPath c)));
        [part_of_app | exact Hbase].
    + apply (Backed_incl _ [stagingVolume]); [part_of_app | apply Backed_staging].
    + destruct (devMountNeeded devices selection metadataDevice);
        [|apply Backed_nil].
      apply (Backed_incl _ deviceVolumes); [part_of_app | apply Backed_devices].
    + apply (Backed_incl _ (map (directoryVolume X) (Directories selection)));
        [part_of_app | apply Backed_directories].
Qed.

(** X3: the provision container always runs as user 0, and it is
    privileged exactly when a device list, a device filter, the
    use-all-devices flag or a metadata device is given, or the environment
    sets [ROOK_HOSTPATH_REQUIRES_PRIVILEGED] to "true"; otherwise it is
    explicitly unprivileged. *)
Theorem provision_privileged_iff (mount : VolumeMount) :
  exists sc,
    ctr_SecurityContext
      (provisionOSDContainer X c devices selection resources storeConfig
         metadataDevice nodeName location mount) = Some sc /\
    RunAsUser sc = Some 0 /\
    (Privileged sc = Some true \/ Privileged sc = Some false) /\
    (Privileged sc = Some true <->
       devices <> [] \/ DeviceFilter selection <> "" \/
       GetUseAllDevices selection = true \/ metadataDevice <> "" \/
       os_Getenv X "ROOK_HOSTPATH_REQUIRES_PRIVILEGED" = "true").
Proof.
  rewrite OSDFacts.provisionOSDContainer_privileged.
  eexists. split; [reflexivity|]. cbn [RunAsUser Privileged].
  split; [reflexivity|]. unfold devMountNeeded.
  assert (Hlen : (0 < length devices)%nat <-> devices <> []).
  { destruct devices; cbn; split; try done; lia. }
  split; [destruct (_ || _); auto|].
  rewrite <- Hlen. split.
  - intros [= Hp]. apply orb_true_iff in Hp as [Hp|Hp];
      apply bool_decide_eq_true_1 in Hp; tauto.
  - intros Hp. f_equal. apply orb_true_iff.
    destruct Hp as [Hp|[Hp|[Hp|[Hp|Hp]]]];
      [left | left | left | left | right]; apply bool_decide_eq_true_2; tauto.
Qed.

(** X4: a metadata device alone, like any device selector, makes the
    provision container mount [/dev] and [/run/udev] and gives the pod the
    two host-path volumes behind them, whatever else is selected. *)
Theorem device_mounts_with_metadata (restart : string) (mount : VolumeMount) :
  PlacementKeepsPod X ->
  devices <> [] \/ DeviceFilter selection <> "" \/
  GetUseAllDevices selection = true \/ metadataDevice <> "" ->
  incl deviceMounts
    (VolumeMounts (provisionOSDContainer X c devices selection resources
                     storeConfig metadataDevice nodeName location mount)) /\
  incl deviceVolumes
    (podVolumesOf (provisionPodTemplateSpec X c devices selection resources
                     storeConfig metadataDevice nodeName location restart)).
Proof.
  intros Hkeep Hdev.
  assert (Hneeded : devMountNeeded devices selection metadataDevice = true).
  { unfold devMountNeeded. apply bool_decide_eq_true_2.
    destruct Hdev as [Hd|Hdev]; [|tauto]. left.
    destruct devices; [done | cbn; lia]. }
  split.
  - rewrite OSDFacts.provisionOSDContainer_mounts, Hneeded. part_of_app.
  - destruct (OSDFacts.provisionPodTemplateSpec_ok X c devices resources
                storeConfig metadataDevice nodeName location selection restart)
      as (t & -> & Hspec).
    cbn [podVolumesOf]. rewrite Hspec.
    match goal with
    | |- context [ApplyToPodSpec X ?p ?s] => destruct (Hkeep p s) as (_ & _ & ->)
    end.
    cbn [Volumes]. rewrite Hneeded. part_of_app.
Qed.

End ProvisionJob.

Section DaemonDeployment.
Variable X : Externals.
Variable c : Cluster.
Variables (nodeName : string) (devices : list Device) (selection : Selection).
Variables (resources : ResourceRequirements) (storeConfig : StoreConfig).
Variables (metadataDevice location : string).

Local Abbreviation build osd :=
  (makeDeployment X c nodeName devices selection resources storeConfig
     metadataDevice location osd).

(** The environments of the containers of an OSD deployment. *)
Lemma makeDeployment_env (osd : OSDInfo) (d : Deployment) :
  PlacementKeepsPod X ->
  build osd = Ok d ->
  exists initc others daemon,
    InitContainers (tpl_Spec (Template d)) = initc :: others /\
    Containers (tpl_Spec (Template d)) = [daemon] /\
    Env initc =
      getConfigEnvVars X c storeConfig (configDirOf X osd) nodeName location ++
      [ envLit "TINI_SUBREAPER" ""; envLit "ROOK_OSD_ID" (Itoa (ID osd)) ] ++
      (if negb (IsDirectory osd) && IsFileStore osd
       then [envLit "ROOK_PATH" rookBinariesMountPath] else []) /\
    Env daemon =
      [ nodeNameEnvVar nodeName;
        PodIPEnvVar X (PrivateIPEnvVar X);
        PodIPEnvVar X (PublicIPEnvVar X);
        envLit "TINI_SUBREAPER" "" ] ++ ClusterDaemonEnvVars X.
Proof.
  intros Hkeep Hbuild. unfold makeDeployment in Hbuild. unfold configDirOf.
  destruct (IsDirectory osd) eqn:Hdir, (IsFileStore osd) eqn:Hfs;
    cbn [negb andb] in *;
    repeat (match type of Hbuild with
            | context [decide ?P] => destruct (decide P)
            end; cbn [negb andb] in * );
    try discriminate;
    injection Hbuild as <-; cbn [Template tpl_Spec];
    match goal with
    | |- context [ApplyToPodSpec X ?p ?s] =>
        destruct (Hkeep p s) as (-> & -> & _)
    end;
    do 3 eexists;
    (split; [reflexivity|]); (split; [reflexivity|]);
    cbn; rewrite ?app_nil_r, <- ?app_assoc; cbn; split; reflexivity.
Qed.

(** X5: when the base mounts are backed by the base volumes, every mount
    of every container of an OSD deployment, init containers included,
    names a volume of the pod. *)
Theorem deployment_mounts_backed (osd : OSDInfo) (d : Deployment) :
  PlacementKeepsPod X ->
  Backed (CephVolumeMounts X) (PodVolumes X (dataDirHostPath c)) ->
  Backed (RookVolumeMounts X) (PodVolumes X (dataDirHostPath c)) ->
  build osd = Ok d ->
  forall ctr,
    In ctr (InitContainers (tpl_Spec (Template d)) ++
            Containers (tpl_Spec (Template d))) ->
    Backed (VolumeMounts ctr) (Volumes (tpl_Spec (Template d))).
Proof.
  intros Hkeep Hceph Hrook Hbuild ctr Hctr.
  destruct (OSDFacts.makeDeployment_shape X c nodeName devices selection
              resources storeConfig metadataDevice location osd d Hkeep Hbuild)
    as (initc & daemon & Hc & Hi & Hv & _ & Hmi & _ & Hmd & _ & _).
  rewrite Hv. rewrite Hc, Hi in Hctr.
  assert (Hmedium : Backed (mediumMounts X osd) (mediumVolumes X c osd)).
  { unfold mediumMounts, mediumVolumes.
    destruct (IsDirectory osd); [case_decide|];
      intros m Hm; try destruct Hm as [<-|[]]; try contradiction;
      eexists; (split; [apply in_or_app; right; left; reflexivity|]);
      reflexivity. }
  assert (Hbase : incl (PodVolumes X (dataDirHostPath c)) (mediumVolumes X c osd)).
  { unfold mediumVolumes. part_of_app. }
  assert (Hextra :
    Backed (if negb (IsDirectory osd) && IsFileStore osd then [stagingMount] else [])
      (mediumVolumes X c osd ++
       (if negb (IsDirectory osd) && IsFileStore osd then [stagingVolume] else []))).
  { destruct (negb (IsDirectory osd) && IsFileStore osd); [|apply Backed_nil].
    apply (Backed_incl _ [stagingVolume]); [part_of_app | apply Backed_staging]. }
  assert (Hinit : Backed (VolumeMounts initc)
            (mediumVolumes X c osd ++
             (if negb (IsDirectory osd) && IsFileStore osd
              then [stagingVolume] else []))).
  { rewrite Hmi. repeat apply Backed_app; [| |exact Hextra].
    - apply (Backed_incl _ (PodVolumes X (dataDirHostPath c))); [|exact Hrook].
      intros x Hx. apply in_or_app. left. by apply Hbase.
    - destruct (IsDirectory osd); [|apply Backed_nil].
      apply (Backed_incl _ (mediumVolumes X c osd)); [part_of_app | exact Hmedium]. }
  assert (Hdaemon : Backed (VolumeMounts daemon)
            (mediumVolumes X c osd ++
             (if negb (IsDirectory osd) && IsFileStore osd
              then [stagingVolume] else []))).
  { rewrite Hmd. repeat apply Backed_app; [| |exact Hextra].
    - apply (Backed_incl _ (PodVolumes X (dataDirHostPath c))); [|exact Hceph].
      intros x Hx. apply in_or_app. left. by apply Hbase.
    - apply (Backed_incl _ (mediumVolumes X c osd)); [part_of_app | exact Hmedium]. }
  cbn [app] in Hctr. destruct Hctr as [<-|Hctr]; [exact Hinit|].
  apply in_app_or in Hctr as [Hctr|[<-|[]]]; [|exact Hdaemon].
  destruct (negb (IsDirectory osd) && IsFileStore osd); [|destruct Hctr].
  destruct Hctr as [<-|[]]. cbn [getCopyBinariesContainer snd VolumeMounts].
  apply (Backed_incl _ [stagingVolume]); [part_of_app | apply Backed_staging].
Qed.

(** X6: the config init container of an OSD deployment carries the id the
    daemon is started with, in [ROOK_OSD_ID] and after [--id], and keeps its
    configuration in the parent directory of the data path for a directory
    OSD and in the default data directory for a device OSD. *)
Theorem deployment_id_and_config_dir (osd : OSDInfo) (d : Deployment) :
  PlacementKeepsPod X ->
  build osd = Ok d ->
  exists initc others daemon before after,
    InitContainers (tpl_Spec (Template d)) = initc :: others /\
    Containers (tpl_Spec (Template d)) = [daemon] /\
    In (envLit "ROOK_OSD_ID" (Itoa (ID osd))) (Env initc) /\
    Args daemon = before ++ ["--id"; Itoa (ID osd)] ++ after /\
    In (ConfigDirEnvVar X (if IsDirectory osd
                           then filepath_Dir X (DataPath osd) else DataDir X))
       (Env initc).
Proof.
  intros Hkeep Hbuild.
  destruct (makeDeployment_env osd d Hkeep Hbuild)
    as (initc & others & daemon & Hi & Hc & Henv & _).
  destruct (OSDFacts.makeDeployment_shape X c nodeName devices selection
              resources storeConfig metadataDevice location osd d Hkeep Hbuild)
    as (initc' & daemon' & Hc' & _ & _ & _ & _ & _ & _ & _ & Hargs).
  rewrite Hc in Hc'. injection Hc' as <-.
  exists initc, others, daemon.
  exists ((if negb (IsDirectory osd) && IsFileStore osd then
             [ "--"; path_Join X (BinariesMountPath X) "rook";
               "ceph"; "osd"; "filestore-device";
               "--source-path";
               path_Join X "/dev/disk/by-partuuid" (DevicePartUUID osd);
               "--mount-path"; DataPath osd; "--" ]
           else []) ++ ["--foreground"]),
         ([ "--conf"; Config osd; "--osd-data"; DataPath osd;
            "--keyring"; KeyringPath osd; "--cluster"; osd_Cluster osd;
            "--osd-uuid"; UUID osd ] ++
          (if IsFileStore osd then ["--osd-journal=" +:+ Journal osd] else [])).
  split; [exact Hi|]. split; [exact Hc|]. split; [|split].
  - rewrite Henv. apply in_or_app. right. right. by left.
  - rewrite Hargs. unfold commonArgs. rewrite <- app_assoc. reflexivity.
  - rewrite Henv. apply in_or_app. left. unfold configDirOf.
    rewrite (OSDFacts.getConfigEnvVars_parts X c).
    apply in_or_app. left. unfold baseEnv. do 8 right. by left.
Qed.

(** X7: the store settings are read back from the config init container
    of an OSD deployment: the store type and the database, WAL and journal
    sizes are found under their keys exactly when they were given, and
    nothing else is; in particular the metadata device is never recorded in
    the deployment, whether or not one was given. *)
Theorem deployment_config_round_trip (osd : OSDInfo) (d : Deployment) :
  ExternalsApart X ->
  PlacementKeepsPod X ->
  build osd = Ok d ->
  exists initc others,
    InitContainers (tpl_Spec (Template d)) = initc :: others /\
    let cfg := getConfigFromContainer X initc in
    cfg !! StoreTypeKey X = setting "" (StoreType storeConfig) id /\
    cfg !! DatabaseSizeMBKey X = setting 0 (DatabaseSizeMB storeConfig) Itoa /\
    cfg !! WalSizeMBKey X = setting 0 (WalSizeMB storeConfig) Itoa /\
    cfg !! JournalSizeMBKey X = setting 0 (JournalSizeMB storeConfig) Itoa /\
    cfg !! MetadataDeviceKey X = None /\
    (forall k,
       ~ In k [ StoreTypeKey X; DatabaseSizeMBKey X; WalSizeMBKey X;
                JournalSizeMBKey X ] ->
       cfg !! k = None).
Proof.
  intros Hapart Hkeep Hbuild.
  destruct (makeDeployment_env osd d Hkeep Hbuild)
    as (initc & others & daemon & Hi & _ & Henv & _).
  exists initc, others. split; [exact Hi|]. intros cfg. subst cfg.
  assert (Hcfg :
    getConfigFromContainer X initc =
    record (JournalSizeMBKey X) (setting 0 (JournalSizeMB storeConfig) Itoa)
      (record (WalSizeMBKey X) (setting 0 (WalSizeMB storeConfig) Itoa)
        (record (DatabaseSizeMBKey X) (setting 0 (DatabaseSizeMB storeConfig) Itoa)
          (record (StoreTypeKey X) (setting "" (StoreType storeConfig) id) ∅)))).
  { rewrite OSDFacts.getConfigFromContainer_fold, Henv.
    rewrite OSDFacts.getConfigEnvVars_parts, !foldl_app.
    rewrite (OSDFacts.foldl_configStep_foreign X (baseEnv _ _ _ _))
      by by apply OSDFacts.baseEnv_foreign.
    rewrite OSDFacts.fold_store, OSDFacts.fold_database, OSDFacts.fold_wal,
      OSDFacts.fold_journal.
    destruct Hapart as (_ & _ & _ & _ & _ & _ & _ & _ & Hloc & _).
    rewrite (OSDFacts.foldl_configStep_foreign X
               (if decide (location <> "") then _ else _)).
    2:{ case_decide; [|apply Forall_nil_2].
        apply Forall_cons. split; [apply Hloc | apply Forall_nil_2]. }
    rewrite (OSDFacts.foldl_configStep_foreign X [_; _]).
    2:{ repeat (apply Forall_cons; split); try apply Forall_nil_2;
          apply OSDFacts.Foreign_lit; unfold configEnvNames; cbn;
          intros Hin; decompose [or] Hin; discriminate || contradiction. }
    apply OSDFacts.foldl_configStep_foreign.
    destruct (negb (IsDirectory osd) && IsFileStore osd); [|apply Forall_nil_2].
    apply Forall_cons. split; [|apply Forall_nil_2].
    apply OSDFacts.Foreign_lit; unfold configEnvNames; cbn;
      intros Hin; decompose [or] Hin; discriminate || contradiction. }
  rewrite Hcfg. clear Hcfg.
  destruct Hapart as (_ & _ & _ & _ & _ & _ & _ & _ & _ & Hkeys).
  rewrite !NoDup_cons, !not_elem_of_cons in Hkeys.
  destruct Hkeys as ((K12 & K13 & K14 & K15 & _) & (K23 & K24 & K25 & _) &
                     (K34 & K35 & _) & (K45 & _) & _).
  repeat split.
  - rewrite !OSDFacts.lookup_record_ne, OSDFacts.lookup_record_eq by done.
    by destruct (setting _ _ _).
  - rewrite !OSDFacts.lookup_record_ne, OSDFacts.lookup_record_eq,
      OSDFacts.lookup_record_ne by done.
    by destruct (setting _ _ _).
  - rewrite OSDFacts.lookup_record_ne, OSDFacts.lookup_record_eq,
      !OSDFacts.lookup_record_ne by done.
    by destruct (setting _ _ _).
  - rewrite OSDFacts.lookup_record_eq, !OSDFacts.lookup_record_ne by done.
    by destruct (setting _ _ _).
  - rewrite !OSDFacts.lookup_record_ne by done. apply lookup_empty.
  - intros k Hk.
    rewrite !OSDFacts.lookup_record_ne
      by (intros Heq; apply Hk; rewrite <- Heq; cbn; tauto).
    apply lookup_empty.
Qed.

End DaemonDeployment.

(** *** Reading the directories back *)

Lemma Split_nonempty (s : string) (sep : ascii) : Split s sep <> [].
Proof.
  destruct s as [|ch rest]; simpl; [done|].
  case_decide; [done|]. by destruct (Split rest sep).
Qed.

(** Splitting around a separator splits both sides. *)
Lemma Split_app (s r : string) (sep : ascii) :
  Split (s +:+ String sep r) sep = Split s sep ++ Split r sep.
Proof.
  induction s as [|ch s IH]; simpl.
  - by case_decide.
  - case_decide; [by rewrite IH|]. rewrite IH.
    pose proof (Split_nonempty s sep).
    by destruct (Split s sep).
Qed.

Lemma Split_noComma (s : string) : noComma s -> Split s ","%char = [s].
Proof.
  induction s as [|ch s IH]; simpl; [done|].
  intros [Hch Hs]. case_decide; [contradiction|]. by rewrite IH.
Qed.

Lemma Join_cons (x y : string) (l : list string) :
  Join (x :: y :: l) "," = x +:+ String ","%char (Join (y :: l) ",").
Proof. reflexivity. Qed.

(** Splitting a joined list gives the fields of all its elements. *)
Lemma Split_Join (l : list string) :
  l <> [] ->
  Split (Join l ",") ","%char = flat_map (fun s => Split s ","%char) l.
Proof.
  induction l as [|x [|y l] IH]; intros Hne; [done| |].
  - cbn. by rewrite app_nil_r.
  - rewrite Join_cons, Split_app, IH by done. reflexivity.
Qed.

Lemma Join_not_empty (l : list string) :
  l <> [] -> l <> [""] -> Join l "," <> "".
Proof.
  destruct l as [|x [|y l]]; intros Hne Hne'; [done| |].
  - cbn. intros ->. done.
  - rewrite Join_cons. by destruct x.
Qed.

Lemma dirsArg_last (l : list EnvVar) (e : EnvVar) (acc : string) :
  env_Name e = dataDirsEnvVarName ->
  foldl dirsArgStep acc (l ++ [e]) = env_Value e.
Proof.
  intros He. rewrite foldl_app. cbn [foldl]. unfold dirsArgStep at 1.
  by case_decide.
Qed.

Lemma dirsArg_none (l : list EnvVar) (acc : string) :
  Forall NotDirs l -> foldl dirsArgStep acc l = acc.
Proof.
  intros Hl. revert acc. induction Hl as [|e l He _ IH]; intros acc; [done|].
  cbn [foldl]. rewrite IH. unfold dirsArgStep. by case_decide.
Qed.

Lemma getDirectoriesFromContainer_fold (ctr : Container) :
  getDirectoriesFromContainer ctr =
    map (fun dir => {| dir_Path := dir |})
      (if decide (foldl dirsArgStep "" (Env ctr) <> "")
       then Split (foldl dirsArgStep "" (Env ctr)) ","%char else []).
Proof. reflexivity. Qed.

Lemma flat_map_Split_noComma (l : list string) :
  Forall noComma l -> flat_map (fun s => Split s ","%char) l = l.
Proof.
  intros Hl. induction Hl as [|x l Hx _ IH]; [done|].
  cbn [flat_map]. by rewrite Split_noComma, IH.
Qed.

Lemma map_Directory (dirs : list Directory) :
  map (fun dir => {| dir_Path := dir |}) (map dir_Path dirs) = dirs.
Proof.
  induction dirs as [|[path] dirs IH]; [done|]. cbn. by rewrite IH.
Qed.

Section Directories.
Variable X : Externals.
Variable c : Cluster.
Variables (devices : list Device) (selection : Selection).
Variables (resources : ResourceRequirements) (storeConfig : StoreConfig).
Variables (metadataDevice nodeName location : string) (mount : VolumeMount).

Local Abbreviation container :=
  (provisionOSDContainer X c devices selection resources storeConfig
     metadataDevice nodeName location mount).

(** X8: the directories of a node are read back from its provision
    container as they were given, in order, provided that no path contains
    a comma, the list is not the single empty path, and the device filter
    does not mark the node for removal.  No assumption on the other
    variables is needed: the last [ROOK_DATA_DIRECTORIES] wins. *)
Theorem directories_round_trip :
  Directories selection <> [] ->
  Directories selection <> [ {| dir_Path := "" |} ] ->
  Forall (fun d => noComma (dir_Path d)) (Directories selection) ->
  IsRemovingNode X (DeviceFilter selection) = false ->
  getDirectoriesFromContainer container = Directories selection.
Proof.
  intros Hne Hne' Hcomma Hkeep.
  rewrite getDirectoriesFromContainer_fold, OSDFacts.provisionOSDContainer_env.
  assert (Hdirs : directoriesEnv X selection =
            [dataDirectoriesEnvVar (Join (map dir_Path (Directories selection)) ",")]).
  { unfold directoriesEnv. rewrite Hkeep.
    destruct (Directories selection); [done|]. cbn [length].
    case_decide; [done | lia]. }
  rewrite Hdirs, !app_assoc, dirsArg_last by reflexivity.
  cbn [dataDirectoriesEnvVar envLit env_Value].
  assert (Hpaths : map dir_Path (Directories selection) <> []).
  { by destruct (Directories selection). }
  assert (Hpaths' : map dir_Path (Directories selection) <> [""]).
  { destruct (Directories selection) as [|[path] [|d ds]]; cbn; try done.
    intros [= ->]. done. }
  rewrite decide_True by by apply Join_not_empty.
  rewrite Split_Join by exact Hpaths.
  rewrite flat_map_Split_noComma by by apply Forall_map.
  apply map_Directory.
Qed.

(** Everything in the environment of the provision container before the
    directory variable has another name. *)
Lemma before_directories_NotDirs :
  ExternalsNotDirs X ->
  Forall NotDirs
    (getConfigEnvVars X c storeConfig (DataDir X) nodeName location ++
     deviceSelectorEnv devices selection ++
     (if decide (metadataDevice <> "") then [metadataDeviceEnvVar metadataDevice]
      else [])).
Proof.
  intros (Hip & Hip' & Hname & Hend & Hsec & Hadm & Hdir & Hover & Hloc).
  rewrite OSDFacts.getConfigEnvVars_parts.
  repeat apply Forall_app_2.
  - unfold baseEnv.
    repeat (apply Forall_cons; split); try apply Forall_nil_2;
      first [ exact Hip | exact Hip' | apply Hname | exact Hend | exact Hsec
            | exact Hadm | apply Hdir | exact Hover | discriminate ].
  - case_decide; repeat (apply Forall_cons; split); try apply Forall_nil_2;
      discriminate.
  - case_decide; repeat (apply Forall_cons; split); try apply Forall_nil_2;
      discriminate.
  - case_decide; repeat (apply Forall_cons; split); try apply Forall_nil_2;
      discriminate.
  - case_decide; repeat (apply Forall_cons; split); try apply Forall_nil_2;
      discriminate.
  - case_decide; repeat (apply Forall_cons; split); try apply Forall_nil_2;
      apply Hloc.
  - unfold deviceSelectorEnv.
    repeat case_decide; try destruct (GetUseAllDevices selection);
      repeat (apply Forall_cons; split); try apply Forall_nil_2; discriminate.
  - case_decide; repeat (apply Forall_cons; split); try apply Forall_nil_2;
      discriminate.
Qed.

(** X9: no directory is read back from the provision container when none
    was given or when the device filter marks the node for removal
    (provided no variable from outside [spec.go] is named
    [ROOK_DATA_DIRECTORIES]), and none either when the only directory given
    is the empty path. *)
Theorem directories_not_read_back :
  (ExternalsNotDirs X ->
   Directories selection = [] \/
   IsRemovingNode X (DeviceFilter selection) = true ->
   getDirectoriesFromContainer container = []) /\
  (Directories selection = [ {| dir_Path := "" |} ] ->
   IsRemovingNode X (DeviceFilter selection) = false ->
   getDirectoriesFromContainer container = []).
Proof.
  split.
  - intros Hext Hnone.
    rewrite getDirectoriesFromContainer_fold, OSDFacts.provisionOSDContainer_env.
    assert (Hdirs : directoriesEnv X selection = []).
    { unfold directoriesEnv. destruct Hnone as [-> | ->]; [done|].
      by case_decide. }
    rewrite Hdirs, app_nil_r, !app_assoc.
    rewrite dirsArg_none.
    + by rewrite decide_False by (intros H; by apply H).
    + rewrite <- app_assoc. by apply before_directories_NotDirs.
  - intros Hempty Hkeep.
    rewrite getDirectoriesFromContainer_fold, OSDFacts.provisionOSDContainer_env.
    assert (Hdirs : directoriesEnv X selection = [dataDirectoriesEnvVar ""]).
    { unfold directoriesEnv. rewrite Hempty, Hkeep. cbn [length].
      case_decide; [reflexivity | lia]. }
    rewrite Hdirs, !app_assoc, dirsArg_last by reflexivity.
    reflexivity.
Qed.

End Directories.

(** *** The properties on the sample cluster *)

Lemma sample_backed :
  Backed (CephVolumeMounts Sample.osdExternals)
         (PodVolumes Sample.osdExternals (dataDirHostPath Sample.cluster)) /\
  Backed (RookVolumeMounts Sample.osdExternals)
         (PodVolumes Sample.osdExternals (dataDirHostPath Sample.cluster)).
Proof.
  split; intros m [<-|[<-|[]]];
    [ eexists; split; [left; reflexivity | reflexivity]
    | eexists; split; [right; left; reflexivity | reflexivity]
    | eexists; split; [left; reflexivity | reflexivity]
    | eexists; split; [right; left; reflexivity | reflexivity] ].
Qed.

Lemma sample_not_dirs : ExternalsNotDirs Sample.osdExternals.
Proof. unfold ExternalsNotDirs, NotDirs. repeat split; try intros a; discriminate. Qed.

(** The mounts of the pod that prepares a node with two directories. *)
Lemma provision_mounts_backed_witness :
  exists t,
    provisionPodTemplateSpec Sample.osdExternals Sample.cluster Sample.sda
      Sample.twoDirectories Sample.noResources Sample.bluestore "" "node1" ""
      "OnFailure" = Ok t /\
    forall ctr, In ctr (Containers (tpl_Spec t)) ->
      Backed (VolumeMounts ctr) (Volumes (tpl_Spec t)).
Proof.
  destruct (provisionPodTemplateSpec Sample.osdExternals Sample.cluster
              Sample.sda Sample.twoDirectories Sample.noResources
              Sample.bluestore "" "node1" "" "OnFailure") as [t|e] eqn:Ht;
    [|vm_compute in Ht; discriminate].
  exists t. split; [reflexivity|].
  exact (provision_mounts_backed Sample.osdExternals Sample.cluster Sample.sda
           Sample.twoDirectories Sample.noResources Sample.bluestore ""
           "node1" "" "OnFailure" t OSDFacts.sample_keeps_pod
           (proj1 sample_backed) Ht).
Defined.

(** A metadata device and nothing else: [/dev] and [/run/udev] are there. *)
Lemma device_mounts_with_metadata_witness :
  incl deviceMounts
    (VolumeMounts (provisionOSDContainer Sample.osdExternals Sample.cluster []
                     Sample.noSelection Sample.noResources Sample.bluestore
                     "nvme0n1" "node1" "" stagingMount)) /\
  incl deviceVolumes
    (podVolumesOf (provisionPodTemplateSpec Sample.osdExternals Sample.cluster
                     [] Sample.noSelection Sample.noResources Sample.bluestore
                     "nvme0n1" "node1" "" "OnFailure")).
Proof.
  apply (device_mounts_with_metadata Sample.osdExternals Sample.cluster []
           Sample.noSelection Sample.noResources Sample.bluestore "nvme0n1"
           "node1" "" "OnFailure" stagingMount OSDFacts.sample_keeps_pod).
  do 3 right. discriminate.
Defined.

(** The mounts of the deployment of a filestore OSD on a device. *)
Lemma deployment_mounts_backed_witness :
  exists d,
    makeDeployment Sample.osdExternals Sample.cluster "node1" []
      Sample.noSelection Sample.noResources Sample.bluestore "" ""
      Sample.deviceFilestoreOSD = Ok d /\
    forall ctr,
      In ctr (InitContainers (tpl_Spec (Template d)) ++
              Containers (tpl_Spec (Template d))) ->
      Backed (VolumeMounts ctr) (Volumes (tpl_Spec (Template d))).
Proof.
  destruct (makeDeployment Sample.osdExternals Sample.cluster "node1" []
              Sample.noSelection Sample.noResources Sample.bluestore "" ""
              Sample.deviceFilestoreOSD) as [d|e] eqn:Hd;
    [|vm_compute in Hd; discriminate].
  exists d. split; [reflexivity|].
  exact (deployment_mounts_backed Sample.osdExternals Sample.cluster "node1" []
           Sample.noSelection Sample.noResources Sample.bluestore "" ""
           Sample.deviceFilestoreOSD d OSDFacts.sample_keeps_pod
           (proj1 sample_backed) (proj2 sample_backed) Hd).
Defined.

(** The directory OSD 4 below [/mnt/data]. *)
Lemma deployment_id_and_config_dir_witness :
  exists d initc others daemon before after,
    makeDeployment Sample.osdExternals Sample.cluster "node1" []
      Sample.noSelection Sample.noResources Sample.bluestore "" ""
      Sample.directoryOSD = Ok d /\
    InitContainers (tpl_Spec (Template d)) = initc :: others /\
    Containers (tpl_Spec (Template d)) = [daemon] /\
    In (envLit "ROOK_OSD_ID" "4") (Env initc) /\
    Args daemon = before ++ ["--id"; "4"] ++ after /\
    In (envLit "ROOK_CONFIG_DIR" "/mnt/data") (Env initc).
Proof.
  destruct (makeDeployment Sample.osdExternals Sample.cluster "node1" []
              Sample.noSelection Sample.noResources Sample.bluestore "" ""
              Sample.directoryOSD) as [d|e] eqn:Hd;
    [|vm_compute in Hd; discriminate].
  destruct (deployment_id_and_config_dir Sample.osdExternals Sample.cluster
              "node1" [] Sample.noSelection Sample.noResources Sample.bluestore
              "" "" Sample.directoryOSD d OSDFacts.sample_keeps_pod Hd)
    as (initc & others & daemon & before & after & Hi & Hc & Hid & Hargs & Hdir).
  exists d, initc, others, daemon, before, after. repeat split; assumption.
Defined.

(** A metadata device was given, and the deployment does not record it. *)
Lemma deployment_config_round_trip_witness :
  exists d initc others,
    makeDeployment Sample.osdExternals Sample.cluster "node1" []
      Sample.noSelection Sample.noResources Sample.bluestore "nvme0n1" ""
      Sample.deviceFilestoreOSD = Ok d /\
    InitContainers (tpl_Spec (Template d)) = initc :: others /\
    getConfigFromContainer Sample.osdExternals initc !! "storeType" =
      Some "bluestore" /\
    getConfigFromContainer Sample.osdExternals initc !! "walSizeMB" =
      Some "576" /\
    getConfigFromContainer Sample.osdExternals initc !! "metadataDevice" = None.
Proof.
  destruct (makeDeployment Sample.osdExternals Sample.cluster "node1" []
              Sample.noSelection Sample.noResources Sample.bluestore "nvme0n1"
              "" Sample.deviceFilestoreOSD) as [d|e] eqn:Hd;
    [|vm_compute in Hd; discriminate].
  destruct (deployment_config_round_trip Sample.osdExternals Sample.cluster
              "node1" [] Sample.noSelection Sample.noResources Sample.bluestore
              "nvme0n1" "" Sample.deviceFilestoreOSD d OSDFacts.sample_apart
              OSDFacts.sample_keeps_pod Hd)
    as (initc & others & Hi & Hstore & _ & Hwal & _ & Hmeta & _).
  exists d, initc, others. repeat split; assumption.
Defined.

(** Two directories come back as they were given. *)
Lemma directories_round_trip_witness :
  getDirectoriesFromContainer
    (provisionOSDContainer Sample.osdExternals Sample.cluster Sample.sda
       Sample.twoDirectories Sample.noResources Sample.bluestore "" "node1" ""
       stagingMount) =
  [ {| dir_Path := "/mnt/a" |}; {| dir_Path := "/mnt/b" |} ].
Proof.
  apply (directories_round_trip Sample.osdExternals Sample.cluster Sample.sda
           Sample.twoDirectories Sample.noResources Sample.bluestore ""
           "node1" "" stagingMount).
  - discriminate.
  - discriminate.
  - repeat (apply Forall_cons; split); try apply Forall_nil_2;
      cbn; repeat split; discriminate.
  - reflexivity.
Defined.

(** A node marked for removal: its directory is not read back. *)
Lemma directories_not_read_back_witness :
  getDirectoriesFromContainer
    (provisionOSDContainer Sample.osdExternals Sample.cluster []
       {| GetUseAllDevices := false; DeviceFilter := "none";
          Directories := [ {| dir_Path := "/mnt/a" |} ] |}
       Sample.noResources Sample.bluestore "" "node1" "" stagingMount) = [].
Proof.
  apply (proj1 (directories_not_read_back Sample.osdExternals Sample.cluster []
                  {| GetUseAllDevices := false; DeviceFilter := "none";
                     Directories := [ {| dir_Path := "/mnt/a" |} ] |}
                  Sample.noResources Sample.bluestore "" "node1" ""
                  stagingMount) sample_not_dirs).
  right. reflexivity.
Defined.

End OSDMoreFacts.

(** ** More on the NFS-Ganesha controller: validation, the calls of a
    pass, fatal errors, names and labels *)

Module NFSMoreFacts.
Import Go V1 Rookalpha NFS NFSSpec NFSMoreSpec.

Lemma validateExports_ok (exports : list GaneshaExportSpec) :
  forall i, validateExports i exports = None <-> Forall completeExport exports.
Proof.
  induction exports as [|export rest IH]; intros i; cbn [validateExports].
  - split; [intros _; apply Forall_nil_2 | done].
  - unfold verifyExportExists. rewrite Forall_cons. unfold completeExport at 1.
    repeat case_decide; rewrite ?IH; split; try done; tauto.
Qed.

(** X10: [validateGanesha] accepts a specification exactly when it has a
    name, a namespace, a store name, the store type "file" or "object", a
    recovery pool and namespace, at least one export, a path and a pseudo
    path for every export, and a server count other than zero. *)
Theorem validateGanesha_accepts (n : NFSGanesha) :
  validateGanesha n = None <-> WellFormed n.
Proof.
  unfold validateGanesha, WellFormed.
  pose proof (validateExports_ok (Exports (Spec n)) 0) as Hexports.
  assert (Hlen : length (Exports (Spec n)) = 0%nat <-> Exports (Spec n) = []).
  { apply length_zero_iff_nil. }
  repeat case_decide;
    try (split; [discriminate | intros (? & ? & ? & ? & ? & ? & ? & ? & ?)];
         tauto).
  all: destruct (validateExports 0 (Exports (Spec n))) as [err|] eqn:Hv.
  all: try (split; [discriminate|];
            intros (_ & _ & _ & _ & _ & _ & _ & Hall & Hact);
            first [ apply Hexports in Hall; discriminate | done ]).
  split; [intros _|done].
  assert (Hall : Forall completeExport (Exports (Spec n))) by by apply Hexports.
  assert (Htype : store_Type (Store (Spec n)) = "file" \/
                  store_Type (Store (Spec n)) = "object").
  { destruct (decide (store_Type (Store (Spec n)) = "file")); [by left|].
    destruct (decide (store_Type (Store (Spec n)) = "object")); [by right|].
    tauto. }
  repeat split; try done; tauto.
Qed.

Lemma validateExports_first_bad (good : list GaneshaExportSpec)
    (bad : GaneshaExportSpec) (rest : list GaneshaExportSpec) :
  Forall completeExport good ->
  forall i,
    validateExports i (good ++ bad :: rest) =
      if decide (Path bad = "") then
        Some (Errorf ("missing path for export " +:+ Itoa (i + Z.of_nat (length good))))
      else if decide (PseudoPath bad = "") then
        Some (Errorf ("missing pseudoPath for export " +:+
                      Itoa (i + Z.of_nat (length good))))
      else validateExports (i + Z.of_nat (length good) + 1) rest.
Proof.
  intros Hgood. induction Hgood as [|export good [Hp Hpp] _ IH]; intros i.
  - cbn [app length validateExports]. unfold verifyExportExists.
    rewrite Z.add_0_r. reflexivity.
  - cbn [app length validateExports]. unfold verifyExportExists.
    rewrite decide_False by exact Hp. rewrite decide_False by exact Hpp.
    rewrite IH. replace (i + 1 + Z.of_nat (length good))
      with (i + Z.of_nat (S (length good))) by lia.
    reflexivity.
Qed.

(** X11: when the fields checked before the exports are given, the error
    of [validateGanesha] names the first incomplete export by its index
    from zero, saying "missing path" when its path is empty and "missing
    pseudoPath" when only its pseudo path is; this comes before the check of
    the server count. *)
Theorem validateGanesha_names_export (n : NFSGanesha)
    (good : list GaneshaExportSpec) (bad : GaneshaExportSpec)
    (rest : list GaneshaExportSpec) :
  coreFieldsGiven n ->
  Exports (Spec n) = good ++ bad :: rest ->
  Forall completeExport good ->
  ~ completeExport bad ->
  validateGanesha n =
    Some (Errorf ((if decide (Path bad = "")
                   then "missing path for export "
                   else "missing pseudoPath for export ")
                  +:+ Itoa (Z.of_nat (length good)))).
Proof.
  intros (Hname & Hns & Hstore & Htype & Hpool & Hrns) Hexports Hgood Hbad.
  unfold validateGanesha.
  rewrite decide_False by exact Hname. rewrite decide_False by exact Hns.
  rewrite decide_False by exact Hstore.
  rewrite decide_False by (intros [? ?]; destruct Htype; contradiction).
  rewrite decide_False by exact Hpool. rewrite decide_False by exact Hrns.
  rewrite Hexports.
  rewrite decide_False by (rewrite length_app; cbn; lia).
  rewrite (validateExports_first_bad good bad rest Hgood 0). cbn [Z.add].
  unfold completeExport in Hbad.
  destruct (decide (Path bad = "")) as [Hp|Hp]; [reflexivity|].
  destruct (decide (PseudoPath bad = "")) as [Hpp|Hpp]; [reflexivity|].
  tauto.
Qed.

Lemma noDash_append (a b : string) : ~ noDash (a +:+ String "-"%char b).
Proof.
  induction a as [|ch a IH]; cbn; [by intros [? _]|]. intros [_ ?]. by apply IH.
Qed.

Lemma dash_split (s1 s2 a b : string) :
  noDash a -> noDash b ->
  s1 +:+ String "-"%char a = s2 +:+ String "-"%char b -> s1 = s2 /\ a = b.
Proof.
  intros Ha Hb. revert s2.
  induction s1 as [|c s1 IH]; intros [|c' s2] Heq; cbn in Heq.
  - by injection Heq as ->.
  - injection Heq as <- ->. by apply noDash_append in Ha.
  - injection Heq as -> <-. by apply noDash_append in Hb.
  - injection Heq as <- Heq. destruct (IH _ Heq) as [-> ->]. done.
Qed.

(** X12: the names of the objects of two servers are equal only for the
    same parent resource and the same server, when the names of the servers
    contain no dash: servers of one parent, and servers of different
    parents in one namespace, never share an object name. *)
Theorem instanceName_unique (n1 n2 : NFSGanesha) (a b : string) :
  noDash a -> noDash b ->
  instanceName n1 a = instanceName n2 b -> Name n1 = Name n2 /\ a = b.
Proof.
  intros Ha Hb. unfold instanceName. intros Heq.
  do 2 apply NFSFacts.append_inj_r in Heq.
  by apply dash_split.
Qed.

Lemma instanceName_unique_witness :
  instanceName (Sample.ganesha 2) "a" <> instanceName (Sample.ganesha 2) "b".
Proof.
  intros Heq.
  destruct (instanceName_unique (Sample.ganesha 2) (Sample.ganesha 2) "a" "b")
    as [_ Hab]; [cbn; split; [discriminate | exact I]
                |cbn; split; [discriminate | exact I]
                |exact Heq|discriminate].
Defined.

Section Labels.
Variable X : Externals.

(** X13: the labels of a server record its own name under "instance", so
    the selector of the service of one server, which is these labels,
    matches the pods of another server of the same parent only if it is the
    same server. *)
Theorem labels_tell_servers_apart (c : GaneshaController) (n : NFSGanesha)
    (a b configName : string) :
  getLabels X n a !! "instance" = Some a /\
  (Selector (serviceOf X c n a) ⊆
     Labels (tpl_Meta (Template (makeDeployment X c n b configName))) ->
   a = b).
Proof.
  split; [apply lookup_insert_eq|].
  cbn [serviceOf Selector makeDeployment Template tpl_Meta Labels].
  intros Hsub.
  assert (Ha : getLabels X n a !! "instance" = Some a) by apply lookup_insert_eq.
  apply (lookup_weaken _ _ _ _ Ha) in Hsub.
  unfold getLabels in Hsub. rewrite lookup_insert_eq in Hsub. congruence.
Qed.

End Labels.

Section Deployment.
Variable X : Externals.

(** X14: in the deployment of a server, when the placement leaves the pod
    as it is, there is one container, every mount of it names a volume of
    the pod, the volume mounted at [/etc/ganesha] is the config map the
    deployment was given, with its key "config" at "ganesha.conf", and the
    labels of the pod are the selector of the server's service. *)
Theorem ganesha_deployment_coherent (c : GaneshaController) (n : NFSGanesha)
    (name configName : string) :
  PodKept X ->
  let pod := tpl_Spec (Template (makeDeployment X c n name configName)) in
  exists daemon,
    Containers pod = [daemon] /\
    OSDSpec.Backed (VolumeMounts daemon) (Volumes pod) /\
    In {| mnt_Name := ganeshaConfigVolume; mnt_MountPath := "/etc/ganesha" |}
       (VolumeMounts daemon) /\
    In {| vol_Name := ganeshaConfigVolume;
          vol_Source := ConfigMapVolume configName [("config", "ganesha.conf")] |}
       (Volumes pod) /\
    Labels (tpl_Meta (Template (makeDeployment X c n name configName))) =
      Selector (serviceOf X c n name).
Proof.
  intros [Hkeep Hoverride] pod. subst pod.
  cbn [makeDeployment Template tpl_Spec tpl_Meta Labels].
  match goal with
  | |- context [ApplyToPodSpec X ?p ?s] => destruct (Hkeep p s) as (_ & -> & ->)
  end.
  cbn [Containers Volumes]. eexists. split; [reflexivity|].
  cbn [ganeshaContainer VolumeMounts]. split; [|split; [|split]].
  - intros m [<-|[<-|[<-|[]]]].
    + eexists. split; [left; reflexivity | reflexivity].
    + eexists. split; [right; left; reflexivity | reflexivity].
    + exists (ConfigOverrideVolume X). split; [|by symmetry].
      right. right. by left.
  - right. by left.
  - right. by left.
  - reflexivity.
Qed.

End Deployment.

Section Passes.
Variable X : Externals.
Variable World : Type.
Variable perform : Call -> World -> Reply * World.

Local Abbreviation State := (NFS.State World).

(** X15: a server count below zero passes the validation; the creation
    pass then logs its start, makes no call and returns no error, and the
    deletion pass does nothing at all for any count that is not positive. *)
Theorem nonpositive_count_makes_no_call (c : GaneshaController)
    (n : NFSGanesha) (st : State) :
  (Active (Server (Spec n)) <= 0 ->
   deleteGanesha World perform n st = (None, st)) /\
  (validateGanesha n = None -> Active (Server (Spec n)) < 0 ->
   createGanesha X World perform c n st =
     (None, {| world := world st; trace := trace st;
               log := log st ++ [Infof ("start running ganesha " +:+ Name n)] |})).
Proof.
  assert (Hnone : forall count, count <= 0 -> ordinalsBelow count = []).
  { intros count Hcount. unfold ordinalsBelow.
    by replace (Z.to_nat count) with 0%nat by lia. }
  split.
  - intros Hcount. unfold deleteGanesha. by rewrite Hnone.
  - intros Hvalid Hcount. unfold createGanesha.
    rewrite Hvalid, Hnone by lia. reflexivity.
Qed.

(** Names the answer and the next state of the first pending call. *)
Ltac answer_call r w E :=
  match goal with
  | |- context [perform ?request ?state] =>
      destruct (perform request state) as [r w] eqn:E; cbn [fst snd]
  end.

(** Splits a list of at most five events into its last event and the ones
    before it. *)
Ltac last_event :=
  first [ eexists [], _, _, _; split; [reflexivity|]
        | eexists [_], _, _, _; split; [reflexivity|]
        | eexists [_; _], _, _, _; split; [reflexivity|]
        | eexists [_; _; _], _, _, _; split; [reflexivity|]
        | eexists [_; _; _; _], _, _, _; split; [reflexivity|] ].

(** The two ways a turn of the creation loop ends.  With an error: the last
    call made was refused, and the error says so.  Without: apart from an
    update of the config map, the calls made are the four of the server. *)
Lemma createGaneshaServer_cases (c : GaneshaController) (n : NFSGanesha)
    (i : Z) (st : State) :
  let r := createGaneshaServer X World perform c n i st in
  exists evs,
    trace r.2 = trace st ++ evs /\
    (forall err, r.1 = Some err ->
       exists pre request reply e,
         evs = pre ++ [(request, reply)] /\
         reply_err reply = Some e /\
         fatalMessage request e = Some (Error err)) /\
    (r.1 = None -> withoutUpdates (map fst evs) = createBlock X c n i).
Proof.
  intros r. subst r.
  unfold createGaneshaServer, generateConfig, createGaneshaService,
    addServerToDatabase, bind, call, logf, ret, createBlock, graceCall.
  cbn [fst snd world trace log].
  answer_call r1 w1 E1. cbn [fst snd world trace log].
  destruct (reply_err r1) as [e1|] eqn:He1;
    [destruct (IsAlreadyExists e1) eqn:Hae1;
     [answer_call r1' w1' E1'; cbn [fst snd world trace log];
      destruct (reply_err r1') as [e1'|] eqn:He1'|]|];
    cbn [negb fst snd world trace log].
  all: try (answer_call r2 w2 E2; cbn [fst snd world trace log];
            (destruct (reply_err r2) as [e2|] eqn:He2;
             [destruct (IsAlreadyExists e2) eqn:Hae2|]);
            cbn [negb fst snd world trace log]).
  all: try (answer_call r3 w3 E3; cbn [fst snd world trace log];
            (destruct (reply_err r3) as [e3|] eqn:He3;
             [destruct (IsAlreadyExists e3) eqn:Hae3|]);
            cbn [negb fst snd world trace log]).
  all: try (answer_call r4 w4 E4; cbn [fst snd world trace log];
            destruct (reply_err r4) as [e4|] eqn:He4;
            cbn [negb fst snd world trace log]).
  all: eexists; (split; [rewrite <- ?app_assoc; reflexivity|]);
       (split;
        [ first [ intros err Herr; discriminate
                | intros err [= <-]; last_event; (split; [eassumption|]);
                  cbn [fatalMessage]; rewrite ?Hae1, ?Hae2, ?Hae3; reflexivity ]
        | first [ intros Hres; discriminate | intros _; reflexivity ] ]).
Qed.

(** The same for the loop over any list of ordinals. *)
Lemma createLoop_cases (c : GaneshaController) (n : NFSGanesha)
    (ordinals : list Z) :
  forall st : State,
  let r := forOrdinals World ordinals (createGaneshaServer X World perform c n) st in
  exists evs,
    trace r.2 = trace st ++ evs /\
    (forall err, r.1 = Some err ->
       exists pre request reply e,
         evs = pre ++ [(request, reply)] /\
         reply_err reply = Some e /\
         fatalMessage request e = Some (Error err)) /\
    (r.1 = None ->
     withoutUpdates (map fst evs) = flat_map (createBlock X c n) ordinals).
Proof.
  induction ordinals as [|i rest IH]; intros st r; subst r.
  { exists []. cbn. rewrite app_nil_r. by repeat split. }
  destruct (createGaneshaServer_cases c n i st) as (evs1 & Htr & Hfatal & Hok).
  destruct (createGaneshaServer X World perform c n i st)
    as [[err1|] st1] eqn:Hstep; cbn [fst snd] in *.
  - rewrite (NFSFacts.forOrdinals_cons_err _ _ _ _ _ _ _ Hstep). cbn [fst snd].
    exists evs1. split; [exact Htr|]. split; [|discriminate].
    intros err [= <-]. by apply Hfatal.
  - rewrite (NFSFacts.forOrdinals_cons_ok _ _ _ _ _ _ Hstep).
    destruct (IH st1) as (evs & Htr' & Hfatal' & Hok').
    exists (evs1 ++ evs).
    split; [rewrite Htr', Htr, <- app_assoc; reflexivity|]. split.
    + intros err Herr.
      destruct (Hfatal' err Herr) as (pre & request & reply & e & -> & He & Hmsg).
      exists (evs1 ++ pre), request, reply, e.
      split; [by rewrite app_assoc|]. by split.
    + intros Hres. unfold withoutUpdates in *.
      rewrite map_app, List.filter_app, (Hok eq_refl), (Hok' Hres). reflexivity.
Qed.

(** X16: in a creation pass that returns no error, the calls made, apart
    from updates of config maps, are, server after server in the order of
    the ordinals, one creation of its config map, one creation of its
    deployment, one creation of its service and one run of the grace tool
    adding it: nothing is created twice and no server is skipped. *)
Theorem createGanesha_calls_each_once (c : GaneshaController) (n : NFSGanesha)
    (st : State) :
  let r := createGanesha X World perform c n st in
  r.1 = None ->
  withoutUpdates (map fst (newEvents st r.2)) =
    flat_map (createBlock X c n) (ordinalsBelow (Active (Server (Spec n)))).
Proof.
  intros r. subst r. unfold createGanesha, newEvents.
  destruct (validateGanesha n) as [err|]; [discriminate|].
  unfold bind at 1 2, logf at 1 2. cbn beta iota.
  match goal with
  | |- context [forOrdinals World ?l ?body ?st1] =>
      destruct (createLoop_cases c n l st1) as (evs & Htr & _ & Hok);
      destruct (forOrdinals World l body st1) as [res st2]
  end.
  cbn [fst snd trace] in *. intros ->. rewrite Htr, NFSFacts.drop_old.
  by apply Hok.
Qed.

(** X17: when a creation pass of a valid specification returns an error,
    the last call it made is the one that was refused: the creation of a
    config map, deployment or service answered with an error other than
    "already exists", or the update of a config map.  No call follows it,
    and the message of the error tells which step failed, the service step
    with its prefix twice. *)
Theorem createGanesha_stops_at_failure (c : GaneshaController) (n : NFSGanesha)
    (st : State) (err : GoError) :
  validateGanesha n = None ->
  let r := createGanesha X World perform c n st in
  r.1 = Some err ->
  exists pre request reply e,
    newEvents st r.2 = pre ++ [(request, reply)] /\
    reply_err reply = Some e /\
    fatalMessage request e = Some (Error err).
Proof.
  intros Hvalid r. subst r. unfold createGanesha, newEvents. rewrite Hvalid.
  unfold bind at 1 2, logf at 1 2. cbn beta iota.
  match goal with
  | |- context [forOrdinals World ?l ?body ?st1] =>
      destruct (createLoop_cases c n l st1) as (evs & Htr & Hfatal & _);
      destruct (forOrdinals World l body st1) as [res st2]
  end.
  cbn [fst snd trace] in *. intros ->. rewrite Htr, NFSFacts.drop_old.
  by apply Hfatal.
Qed.

End Passes.

(** *** The properties on the sample cluster *)

Lemma sample_pod_kept : PodKept Sample.nfsExternals.
Proof. split; [intros p s; by repeat split | reflexivity]. Qed.

(** A count of minus one is accepted. *)
Lemma validateGanesha_accepts_witness :
  validateGanesha (Sample.ganesha (-1)) = None.
Proof.
  apply (proj2 (validateGanesha_accepts (Sample.ganesha (-1)))).
  unfold WellFormed. cbn.
  repeat split; try discriminate; try (by left).
  apply Forall_cons. split; [split; discriminate | apply Forall_nil_2].
Defined.

(** The second export has no pseudo path. *)
Lemma validateGanesha_names_export_witness :
  validateGanesha
    (Sample.ganeshaExporting
       [ {| Path := "/"; PseudoPath := "/myfs" |};
         {| Path := "/data"; PseudoPath := "" |} ] 0) =
  Some (Errorf "missing pseudoPath for export 1").
Proof.
  apply (validateGanesha_names_export
           (Sample.ganeshaExporting
              [ {| Path := "/"; PseudoPath := "/myfs" |};
                {| Path := "/data"; PseudoPath := "" |} ] 0)
           [ {| Path := "/"; PseudoPath := "/myfs" |} ]
           {| Path := "/data"; PseudoPath := "" |} []).
  - unfold coreFieldsGiven. cbn. repeat split; try discriminate. by left.
  - reflexivity.
  - apply Forall_cons. split; [split; discriminate | apply Forall_nil_2].
  - intros [_ Hpp]. by apply Hpp.
Defined.

(** The service of server "a" does not select the pods of server "b". *)
Lemma labels_tell_servers_apart_witness :
  ~ (Selector (serviceOf Sample.nfsExternals Sample.controller
                 (Sample.ganesha 2) "a") ⊆
     Labels (tpl_Meta (Template
       (makeDeployment Sample.nfsExternals Sample.controller (Sample.ganesha 2)
          "b" "rook-ceph-ganesha-my-nfs-b")))).
Proof.
  intros Hsub.
  pose proof (proj2 (labels_tell_servers_apart Sample.nfsExternals
                       Sample.controller (Sample.ganesha 2) "a" "b"
                       "rook-ceph-ganesha-my-nfs-b") Hsub) as Hab.
  discriminate.
Defined.

(** The deployment of server "a". *)
Lemma ganesha_deployment_coherent_witness :
  exists daemon,
    Containers (tpl_Spec (Template
      (makeDeployment Sample.nfsExternals Sample.controller (Sample.ganesha 2)
         "a" "rook-ceph-ganesha-my-nfs-a"))) = [daemon] /\
    OSDSpec.Backed (VolumeMounts daemon)
      (Volumes (tpl_Spec (Template
         (makeDeployment Sample.nfsExternals Sample.controller
            (Sample.ganesha 2) "a" "rook-ceph-ganesha-my-nfs-a")))).
Proof.
  destruct (ganesha_deployment_coherent Sample.nfsExternals Sample.controller
              (Sample.ganesha 2) "a" "rook-ceph-ganesha-my-nfs-a"
              sample_pod_kept) as (daemon & Hc & Hbacked & _).
  exists daemon. by split.
Defined.

(** A count of minus one: the creation pass only logs its start. *)
Lemma nonpositive_count_makes_no_call_witness :
  createGanesha Sample.nfsExternals Sample.Objects Sample.answer
    Sample.controller (Sample.ganesha (-1)) (Sample.start Sample.emptyNamespace) =
  (None, {| world := Sample.emptyNamespace; trace := [];
            log := [Infof "start running ganesha my-nfs"] |}).
Proof.
  apply (proj2 (nonpositive_count_makes_no_call Sample.nfsExternals
                  Sample.Objects Sample.answer Sample.controller
                  (Sample.ganesha (-1)) (Sample.start Sample.emptyNamespace))).
  - reflexivity.
  - cbn. lia.
Defined.

(** Two servers, of which "a" exists already: each gets its four calls. *)
Lemma createGanesha_calls_each_once_witness :
  withoutUpdates
    (map fst (trace (createGanesha Sample.nfsExternals Sample.Objects
                       Sample.answer Sample.controller (Sample.ganesha 2)
                       (Sample.start Sample.afterFirstPass)).2)) =
  createBlock Sample.nfsExternals Sample.controller (Sample.ganesha 2) 0 ++
  createBlock Sample.nfsExternals Sample.controller (Sample.ganesha 2) 1.
Proof.
  rewrite <- (app_nil_r (createBlock _ _ _ 1)).
  apply (createGanesha_calls_each_once Sample.nfsExternals Sample.Objects
           Sample.answer Sample.controller (Sample.ganesha 2)
           (Sample.start Sample.afterFirstPass)).
  vm_compute. reflexivity.
Defined.

(** A cluster that refuses deployments: the pass stops at the first one. *)
Lemma createGanesha_stops_at_failure_witness :
  exists pre request reply e,
    trace (createGanesha Sample.nfsExternals Sample.Objects
             Sample.refuseDeployments Sample.controller (Sample.ganesha 2)
             (Sample.start Sample.emptyNamespace)).2 =
      pre ++ [(request, reply)] /\
    reply_err reply = Some e /\
    fatalMessage request e =
      Some "failed to create mds deployment. connection refused".
Proof.
  apply (createGanesha_stops_at_failure Sample.nfsExternals Sample.Objects
           Sample.refuseDeployments Sample.controller (Sample.ganesha 2)
           (Sample.start Sample.emptyNamespace)
           (Errorf_v "failed to create mds deployment. "
              {| Error := "connection refused"; Reason := Unknown |})).
  - reflexivity.
  - vm_compute. reflexivity.
Defined.

End NFSMoreFacts.
